(** * Home-location estimate: the DBSCAN* pipeline of [twitter_homes/dbscan.py]
      and the measure merge of [main.py]

    The development follows the Python sources function by function.

    - A pandas DataFrame is a list of rows (records); a column is a field.
    - A Python dict with string keys is a [gmap string pyval].
    - binary64 values that are compared, added and averaged (coordinates,
      centroids, time spans) are rationals with exact arithmetic ([Qc],
      canonical fractions, so that equal values are equal terms); where the
      code applies numpy's trigonometry ([haversine]) the value is the real
      number the formula denotes ([R]).  Rounding, NaN and the infinities are
      left out.
    - Exceptions are a sum type [result]; the calls that leave the process
      (directories, csv files, the turicreate clusterer) are recorded in a
      trace of events.
    - Library routines whose results depend on data outside the repository
      (dateutil's parser, timezonefinder, pytz, [datetime.astimezone],
      turicreate's DBSCAN, [os.path.isdir]) are the fields of [Externals]. *)

From Stdlib Require Import ZArith QArith Qcanon Reals Lra Lia String List Bool.
From Stdlib Require Import OrderedTypeEx Sorted Qreals.
From stdpp Require Import gmap strings list fin_maps.
Import ListNotations.

Local Open Scope string_scope.
Local Open Scope Z_scope.

(** ** Exceptions and results *)

Inductive exn : Type :=
  | AttributeError
  | IndexError
  | KeyError
  | TypeError
  | ValueError
  | OtherError (what : string).

Inductive result (A : Type) : Type :=
  | Ok (a : A)
  | Raise (e : exn).
Arguments Ok {A} a.
Arguments Raise {A} e.

#[global] Instance result_ret : MRet result := fun _ a => Ok a.
#[global] Instance result_bind : MBind result := fun _ _ f m =>
  match m with
  | Ok a => f a
  | Raise e => Raise e
  end.

Definition is_ok {A} (r : result A) : bool :=
  match r with Ok _ => true | Raise _ => false end.

(** ** Python values stored in the result dicts *)

Inductive pyval : Type :=
  | PNone
  | PInt (n : Z)
  | PFloat (x : Qc)
  | PStr (s : string).

Abbreviation pydict := (gmap string pyval).

(** [d.update(other)]: the keys of [other] win. *)
Definition dict_update (d other : pydict) : pydict := other ∪ d.

(** dbscan.py, [merge_dicts], called with the dicts as a list. *)
Definition merge_dicts (dicts : list pydict) : result pydict :=
  match dicts with
  | [] => Raise IndexError
  | d0 :: rest => Ok (fold_left dict_update rest d0)
  end.

(** ** Comparison of Python numbers

    [max], [min], [==] and [value_counts] are used by the selector on an
    integer column and on two float columns. *)

Class PyOrd (V : Type) := {
  py_ltb : V -> V -> bool;
  py_eqb : V -> V -> bool
}.

Class PyOrdLaws (V : Type) `{PyOrd V} : Prop := {
  py_eqb_eq : forall x y : V, py_eqb x y = true <-> x = y;
  py_ltb_irrefl : forall x : V, py_ltb x x = false;
  py_ltb_trans : forall x y z : V,
    py_ltb x y = true -> py_ltb y z = true -> py_ltb x z = true;
  py_ltb_total : forall x y : V,
    py_ltb x y = true \/ x = y \/ py_ltb y x = true
}.

Definition Qcltb (x y : Qc) : bool :=
  match (x ?= y)%Qc with Lt => true | _ => false end.
Definition Qceqb (x y : Qc) : bool :=
  match (x ?= y)%Qc with Eq => true | _ => false end.
Definition Rltb (x y : R) : bool := if Rlt_dec x y then true else false.
Definition Reqb (x y : R) : bool := if Req_dec_T x y then true else false.

#[global] Instance PyOrd_Z : PyOrd Z := {| py_ltb := Z.ltb; py_eqb := Z.eqb |}.
#[global] Instance PyOrd_Qc : PyOrd Qc := {| py_ltb := Qcltb; py_eqb := Qceqb |}.
#[global] Instance PyOrd_R : PyOrd R := {| py_ltb := Rltb; py_eqb := Reqb |}.

(** The builtins [max] and [min] over an iterable: the first item, replaced
    by each later item that compares strictly greater (smaller); an empty
    iterable raises [ValueError]. *)
Definition py_max {V} `{PyOrd V} (items : list V) : result V :=
  match items with
  | [] => Raise ValueError
  | x :: rest =>
      Ok (fold_left (fun maxval item => if py_ltb maxval item then item else maxval)
                    rest x)
  end.

Definition py_min {V} `{PyOrd V} (items : list V) : result V :=
  match items with
  | [] => Raise ValueError
  | x :: rest =>
      Ok (fold_left (fun minval item => if py_ltb item minval then item else minval)
                    rest x)
  end.

(** ** Cluster aggregates and the home selector *)

Definition RADIUS_OF_EARTH : R := 6372800%R.

(** One row of the table built by [create_cluster_aggregates]. *)
Record ClusterAggregate : Type := {
  cluster_id : Z;
  centroid_lon : Qc;
  centroid_lat : Qc;
  time_range : Qc;
  max_dist_from_centroid : R;
  count : Z
}.

(** [cluster_aggregates[column].value_counts().loc[value]]: the number of
    rows whose column equals [value]; a label that does not occur raises
    [KeyError]. *)
Definition value_counts_loc {V} `{PyOrd V} (values : list V) (value : V)
    : result Z :=
  let n := Z.of_nat (length (List.filter (fun v => py_eqb v value) values)) in
  if n =? 0 then Raise KeyError else Ok n.

(** dbscan.py, [unique_cluster_id]: the function falls off its end, returning
    [None], when the count is not 1; [.values[0]] of an empty selection raises
    [IndexError]. *)
Definition unique_cluster_id {V} `{PyOrd V}
    (cluster_aggregates : list ClusterAggregate)
    (column : ClusterAggregate -> V)
    (measure : list V -> result V) : result (option Z) :=
  value ← measure (map column cluster_aggregates);
  n ← value_counts_loc (map column cluster_aggregates) value;
  if n =? 1 then
    match List.filter (fun a => py_eqb (column a) value) cluster_aggregates with
    | a :: _ => Ok (Some (cluster_id a))
    | [] => Raise IndexError
    end
  else Ok None.

(** A (column, measure, reason) triple of [determine_home_cluster]. *)
Record Rule : Type := {
  rule_type : Type;
  rule_ord : PyOrd rule_type;
  rule_column : ClusterAggregate -> rule_type;
  rule_measure : list rule_type -> result rule_type;
  rule_reason : string
}.

Definition HOME_RULES : list Rule :=
  [ {| rule_column := count; rule_measure := py_max;
       rule_reason := "only one max cluster" |};
    {| rule_column := max_dist_from_centroid; rule_measure := py_min;
       rule_reason := "cluster with minimum distance" |};
    {| rule_column := time_range; rule_measure := py_max;
       rule_reason := "cluster with maximum time range" |} ].

(** The [for] loop of [determine_home_cluster] over the remaining rules. *)
Fixpoint determine_home_cluster_from (rules : list Rule)
    (cluster_aggregates : list ClusterAggregate)
    : result (option Z * option string) :=
  match rules with
  | [] => Ok (None, None)
  | r :: rest =>
      home_cluster_id ←
        @unique_cluster_id _ (rule_ord r) cluster_aggregates
                           (rule_column r) (rule_measure r);
      match home_cluster_id with
      | Some id => Ok (Some id, Some (rule_reason r))
      | None => determine_home_cluster_from rest cluster_aggregates
      end
  end.

(** dbscan.py, [determine_home_cluster]. *)
Definition determine_home_cluster (cluster_aggregates : list ClusterAggregate)
    : result (option Z * option string) :=
  determine_home_cluster_from HOME_RULES cluster_aggregates.

(** ** Datetimes

    A [datetime] carries the calendar fields of Python's [datetime.datetime];
    [tzinfo] is [None] for a naive value.  The proleptic Gregorian ordinal and
    [weekday] are those of CPython's [datetime] module. *)

Record tzinfo : Type := {
  tzname : string;
  utcoffset : Z            (* seconds east of UTC *)
}.

Record datetime : Type := {
  year : Z;
  month : Z;
  day : Z;
  hour : Z;
  minute : Z;
  second : Z;
  microsecond : Z;
  tz : option tzinfo
}.

Definition is_leap (y : Z) : bool :=
  (y mod 4 =? 0) && (negb (y mod 100 =? 0) || (y mod 400 =? 0)).

Definition days_before_year (y : Z) : Z :=
  let y := y - 1 in y * 365 + y / 4 - y / 100 + y / 400.

Definition DAYS_BEFORE_MONTH : list Z :=
  [0; 31; 59; 90; 120; 151; 181; 212; 243; 273; 304; 334].

Definition days_before_month (y m : Z) : Z :=
  nth (Z.to_nat (m - 1)) DAYS_BEFORE_MONTH 0
  + (if (2 <? m) && is_leap y then 1 else 0).

Definition toordinal (d : datetime) : Z :=
  days_before_year (year d) + days_before_month (year d) (month d) + day d.

(** Monday is 0, Sunday is 6. *)
Definition weekday (d : datetime) : Z := (toordinal d + 6) mod 7.

(** Microseconds on the wall clock since the start of ordinal day 0. *)
Definition wall_us (d : datetime) : Z :=
  (((toordinal d * 24 + hour d) * 60 + minute d) * 60 + second d) * 1000000
  + microsecond d.

(** [a - b] as a timedelta in microseconds: two naive values are compared on
    the wall clock, two aware values as instants, and mixing them raises
    [TypeError]. *)
Definition dt_sub (a b : datetime) : result Z :=
  match tz a, tz b with
  | None, None => Ok (wall_us a - wall_us b)
  | Some ta, Some tb =>
      Ok ((wall_us a - utcoffset ta * 1000000)
          - (wall_us b - utcoffset tb * 1000000))
  | _, _ => Raise TypeError
  end.

(** [Series.max()] and [Series.min()] of a column of datetimes. *)
Fixpoint dt_extreme (later : bool) (cur : datetime) (items : list datetime)
    : result datetime :=
  match items with
  | [] => Ok cur
  | item :: rest =>
      d ← dt_sub item cur;
      dt_extreme later
        (if (if later then 0 <? d else d <? 0) then item else cur) rest
  end.

Definition dt_max (items : list datetime) : result datetime :=
  match items with
  | [] => Raise ValueError
  | x :: rest => dt_extreme true x rest
  end.

Definition dt_min (items : list datetime) : result datetime :=
  match items with
  | [] => Raise ValueError
  | x :: rest => dt_extreme false x rest
  end.

(** [timedelta.total_seconds()]. *)
Definition total_seconds (us : Z) : Qc := Q2Qc (Qmake us 1000000).

(** ** Tweets and burst removal *)

(** One row of the [geotweets] table; [lon] and [lat] are the columns
    [coordinates_coordinates_0] and [coordinates_coordinates_1].  The columns
    required by dbscan.py ([REQUIRED_COLUMNS]) are taken to be present;
    [user_name] may be NULL. *)
Record Tweet : Type := {
  created_at : string;
  user_name : option string;
  user_id : Z;
  lon : Qc;
  lat : Qc
}.

(** [BURST_TWEETS_GROUPBY_COLUMNS]. *)
Definition burst_key (t : Tweet) : string * Qc * Qc :=
  (created_at t, lon t, lat t).

(** Order of the group keys: tuples compare column by column, strings by
    code point, floats by value. *)
Definition lex (c1 c2 : comparison) : comparison :=
  match c1 with Eq => c2 | _ => c1 end.

Definition key_compare (a b : string * Qc * Qc) : comparison :=
  lex (String_as_OT.cmp a.1.1 b.1.1)
      (lex (a.1.2 ?= b.1.2)%Qc (a.2 ?= b.2)%Qc).

(** [GroupBy.first()] takes, in each column, the first non-null entry of the
    group: a later member of the group fills a null of the row so far. *)
Definition first_merge (acc t : Tweet) : Tweet :=
  {| created_at := created_at acc;
     user_name := match user_name acc with
                  | Some n => Some n
                  | None => user_name t
                  end;
     user_id := user_id acc;
     lon := lon acc;
     lat := lat acc |}.

(** One row enters the groups built so far; the groups are kept in ascending
    key order ([groupby] sorts its keys by default). *)
Fixpoint groupby_insert (t : Tweet) (groups : list Tweet) : list Tweet :=
  match groups with
  | [] => [t]
  | g :: rest =>
      match key_compare (burst_key t) (burst_key g) with
      | Lt => t :: groups
      | Eq => first_merge g t :: rest
      | Gt => g :: groupby_insert t rest
      end
  end.

(** [df.groupby(BURST_TWEETS_GROUPBY_COLUMNS).first().reset_index()]. *)
Definition groupby_first (df : list Tweet) : list Tweet :=
  fold_left (fun groups t => groupby_insert t groups) df [].

(** ** State and exceptions

    A computation reads and writes a state and ends in a value or in a raised
    exception; the state reached when the exception was raised is kept (what
    was written stays written). *)

Definition St (S A : Type) : Type := S -> S * result A.

#[global] Instance St_ret {S} : MRet (St S) := fun _ a s => (s, Ok a).
#[global] Instance St_bind {S} : MBind (St S) := fun _ _ f m s =>
  match m s with
  | (s', Ok a) => f a s'
  | (s', Raise e) => (s', Raise e)
  end.

Definition lift {S A} (r : result A) : St S A := fun s => (s, r).
Definition get_state {S} : St S S := fun s => (s, Ok s).
Definition modify_state {S} (f : S -> S) : St S unit := fun s => (f s, Ok tt).

(** [try: body / except: handler e]. *)
Definition try_except {S A} (body : St S A) (handler : exn -> St S A) : St S A :=
  fun s =>
    match body s with
    | (s', Ok a) => (s', Ok a)
    | (s', Raise e) => handler e s'
    end.

(** [df.apply(f, axis = 1)]: [f] on each row, in order. *)
Fixpoint df_apply {S A B} (f : A -> St S B) (rows : list A) : St S (list B) :=
  match rows with
  | [] => mret []
  | row :: rest =>
      b ← f row;
      bs ← df_apply f rest;
      mret (b :: bs)
  end.

(** ** What the pipeline calls outside the repository *)

(** A zone object of pytz. *)
Inductive pytz_tz : Type := PytzTz (zone : string).

(** One row of [dbscan_model["cluster_id"]]. *)
Record ClusterResult : Type := {
  row_id : Z;
  res_cluster_id : option Z;
  res_type : string
}.

Record Externals : Type := {
  (* dateutil.parser.parse *)
  dateutil_parse : string -> result datetime;
  (* timezonefinder.TimezoneFinder().timezone_at(lng, lat) *)
  timezone_at : Qc -> Qc -> result (option string);
  (* pytz.timezone *)
  pytz_timezone : option string -> result pytz_tz;
  (* datetime.astimezone *)
  astimezone : datetime -> pytz_tz -> result datetime;
  (* os.path.isdir *)
  os_path_isdir : string -> bool;
  (* turicreate.dbscan.create(sf, radius, min_core_neighbors,
     distance = "euclidean"), then model["cluster_id"] *)
  turicreate_dbscan_create :
    list (Qc * Qc) -> Qc -> Z -> result (list ClusterResult)
}.

Definition EPS : Qc := Q2Qc (4 # 10000).
Definition MIN_POINTS : Z := 3.
Definition CLUSTERS_OUTPUT : string := "output_clustering_results".
Definition AGGREGATES_OUTPUT : string := "output_cluster_aggregates".
Definition DBSCAN_CLUSTER_TYPES : list string := ["core"; "boundary"; "noise"].

(** A row of the frame once the column [dt] is added. *)
Record LocalizedTweet : Type := {
  tweet : Tweet;
  dt : datetime
}.

(** A row of [df_clusters]: the tweet, its [dt], and the clusterer's columns;
    [I] is [option Z] until [astype(int)] and [Z] after it. *)
Record ClusterRow (I : Type) : Type := {
  c_tweet : Tweet;
  c_dt : datetime;
  c_row_id : Z;
  c_cluster_id : I;
  c_type : string
}.
Arguments c_tweet {I} _.
Arguments c_dt {I} _.
Arguments c_row_id {I} _.
Arguments c_cluster_id {I} _.
Arguments c_type {I} _.

(** A row of [create_output_df]; [o_datetime] stands for its [isoformat()]
    text. *)
Record OutputRow : Type := {
  o_datetime : datetime;
  o_tz_name : option string;
  o_user_id : Z;
  o_lon : Qc;
  o_lat : Qc;
  o_cluster_id : option Z;
  o_type : string
}.

Inductive csv : Type :=
  | ClustersCsv (rows : list OutputRow)
  | AggregatesCsv (rows : list ClusterAggregate).

(** What [dbscan] does to the world, in order. *)
Inductive event : Type :=
  | Makedirs (directory : string)
  | DbscanCreate (points : list (Qc * Qc))
  | ToCsv (directory : string) (user : Z) (content : csv).

Definition emit (e : event) : St (list event) unit :=
  modify_state (fun trace => (trace ++ [e])%list).

(** ** Haversine and the aggregator *)

Definition np_radians (x : R) : R := (x * PI / 180)%R.

(** dbscan.py, [haversine(lat1, lon1, lat2, lon2)]. *)
Definition haversine (lat1 lon1 lat2 lon2 : R) : R :=
  let dLat := np_radians (lat2 - lat1) in
  let dLon := np_radians (lon2 - lon1) in
  let lat1 := np_radians lat1 in
  let lat2 := np_radians lat2 in
  let a := ((sin (dLat / 2)) ^ 2 + cos lat1 * cos lat2 * (sin (dLon / 2)) ^ 2)%R in
  let c := (2 * asin (sqrt a))%R in
  (RADIUS_OF_EARTH * c)%R.

(** [ndarray.max()]. *)
Definition np_max (xs : list R) : result R :=
  match xs with
  | [] => Raise ValueError
  | x :: rest => Ok (fold_left Rmax rest x)
  end.

(** [Series.mean()]. *)
Definition mean (xs : list Qc) : Qc :=
  (fold_left Qcplus xs (Q2Qc 0) / Q2Qc (inject_Z (Z.of_nat (length xs))))%Qc.

(** [Series.unique()]: the distinct values in order of first appearance. *)
Definition unique (ids : list Z) : list Z :=
  fold_left (fun seen x => if existsb (Z.eqb x) seen then seen else (seen ++ [x])%list)
            ids [].

(** [sort_values("cluster_id")]. *)
Fixpoint insert_by_cluster_id (a : ClusterAggregate) (l : list ClusterAggregate)
    : list ClusterAggregate :=
  match l with
  | [] => [a]
  | b :: rest =>
      if cluster_id a <? cluster_id b then a :: l
      else b :: insert_by_cluster_id a rest
  end.

Definition sort_by_cluster_id (l : list ClusterAggregate) : list ClusterAggregate :=
  fold_right insert_by_cluster_id [] l.

(** The body of the loop of [create_cluster_aggregates] for one cluster id,
    with the [count] that the merge with [value_counts()] attaches. *)
Definition cluster_aggregate (df_clusters : list (ClusterRow Z)) (id : Z)
    : result ClusterAggregate :=
  let this_cluster := List.filter (fun r => c_cluster_id r =? id) df_clusters in
  let lons := map (fun r => lon (c_tweet r)) this_cluster in
  let lats := map (fun r => lat (c_tweet r)) this_cluster in
  let cluster_centroid := (mean lons, mean lats) in
  latest ← dt_max (map c_dt this_cluster);
  earliest ← dt_min (map c_dt this_cluster);
  span ← dt_sub latest earliest;
  dist ← np_max (map (fun r =>
                        haversine (Q2R cluster_centroid.1) (Q2R cluster_centroid.2)
                                  (Q2R (lon (c_tweet r))) (Q2R (lat (c_tweet r))))
                     this_cluster);
  Ok {| cluster_id := id;
        centroid_lon := cluster_centroid.1;
        centroid_lat := cluster_centroid.2;
        time_range := total_seconds span;
        max_dist_from_centroid := dist;
        count := Z.of_nat (length this_cluster) |}.

Fixpoint result_map {A B} (f : A -> result B) (l : list A) : result (list B) :=
  match l with
  | [] => Ok []
  | x :: rest =>
      y ← f x;
      ys ← result_map f rest;
      Ok (y :: ys)
  end.

(** dbscan.py, [create_cluster_aggregates]; with no cluster at all the merge
    on the missing column [cluster_id] raises [KeyError]. *)
Definition create_cluster_aggregates (df_clusters : list (ClusterRow Z))
    : result (list ClusterAggregate) :=
  clusters ← result_map (cluster_aggregate df_clusters)
                        (unique (map c_cluster_id df_clusters));
  match clusters with
  | [] => Raise KeyError
  | _ :: _ => Ok (sort_by_cluster_id clusters)
  end.

(** ** The pipeline *)

Section Pipeline.

Context (ext : Externals).

(** [self.timezones] of [DatetimeLocalizer]; a timezone name may be [None]. *)
Abbreviation tz_cache := (gmap (option string) (option pytz_tz)).

(** dbscan.py, [DatetimeLocalizer.lookup_tz]; only [AttributeError] is caught
    (the message printed there is not modelled). *)
Definition lookup_tz (lon lat : Qc) : St tz_cache (option pytz_tz) :=
  tz_name ← lift (timezone_at ext lon lat);
  timezones ← get_state;
  _ ← (if bool_decide (timezones !! tz_name = None) then
         try_except
           (zone ← lift (pytz_timezone ext tz_name);
            modify_state (fun tzs : tz_cache => <[tz_name := Some zone]> tzs))
           (fun e =>
              match e with
              | AttributeError =>
                  modify_state (fun tzs : tz_cache => <[tz_name := None]> tzs)
              | _ => lift (Raise e)
              end)
       else mret tt);
  timezones ← get_state;
  match timezones !! tz_name with
  | Some cached => mret cached
  | None => lift (Raise KeyError)
  end.

(** dbscan.py, [DatetimeLocalizer.get_localized_dt]; the parse is outside the
    [try], the bare [except] catches every exception raised inside it. *)
Definition get_localized_dt (tweet : Tweet) : St tz_cache datetime :=
  dt ← lift (dateutil_parse ext (created_at tweet));
  try_except
    (tz ← lookup_tz (lon tweet) (lat tweet);
     match tz with
     | None => mret dt
     | Some tz => lift (astimezone ext dt tz)
     end)
    (fun _ => mret dt).

(** "Localize datetimes": [df["dt"] = df.apply(localizer.get_localized_dt,
    axis = 1)] with a fresh localizer. *)
Definition localize_datetimes (df : list Tweet) : result (list LocalizedTweet) :=
  snd (df_apply (fun t => d ← get_localized_dt t;
                          mret {| tweet := t; dt := d |}) df ∅).

(** The two subsets by weekday and by hour. *)
Definition home_period (df : list LocalizedTweet) : list LocalizedTweet :=
  let df := List.filter (fun r => weekday (dt r) <=? 3) df in
  let df := List.filter (fun r => 9 <=? hour (dt r)) df in
  df.

(** The section "PREPROCESSING" of [dbscan]: the frame handed to the
    clustering step. *)
Definition preprocessing (tweets_df : list Tweet) : result (list LocalizedTweet) :=
  df ← localize_datetimes (groupby_first tweets_df);
  Ok (home_period df).

Definition counter_key (cluster_type : string) : string :=
  String.append "n_dbscan_" (String.append cluster_type "_tweets").

(** [dict(results["type"].value_counts())]. *)
Definition value_counts (values : list string) : gmap string Z :=
  fold_left (fun counts v => <[v := default 0 (counts !! v) + 1]> counts)
            values ∅.

(** The dict merged into the debug information on each way out. *)
Definition home_decision_dict (id reason lon lat count : pyval) : pydict :=
  {[ "home_cluster_id" := id;
     "home_cluster_reason" := reason;
     "home_cluster_centroid_lon" := lon;
     "home_cluster_centroid_lat" := lat;
     "home_cluster_count" := count ]}.

(** [pandas.merge(df, results, left_index = True, right_on = "row_id")]. *)
Definition merge_results (df : list LocalizedTweet) (results : list ClusterResult)
    : list (ClusterRow (option Z)) :=
  concat (imap (fun i r =>
                  map (fun res => {| c_tweet := tweet r; c_dt := dt r;
                                     c_row_id := row_id res;
                                     c_cluster_id := res_cluster_id res;
                                     c_type := res_type res |})
                      (List.filter (fun res => row_id res =? Z.of_nat i) results))
               df).

(** dbscan.py, [create_output_df]. *)
Definition create_output_df (df_clusters : list (ClusterRow (option Z)))
    : list OutputRow :=
  map (fun r => {| o_datetime := c_dt r;
                   o_tz_name := tzname <$> tz (c_dt r);
                   o_user_id := user_id (c_tweet r);
                   o_lon := lon (c_tweet r);
                   o_lat := lat (c_tweet r);
                   o_cluster_id := c_cluster_id r;
                   o_type := c_type r |}) df_clusters.

(** [df_clusters[df_clusters["type"] == "core"]] followed by
    [astype(int)] on [cluster_id], which raises on a null. *)
Definition core_points (df_clusters : list (ClusterRow (option Z)))
    : result (list (ClusterRow Z)) :=
  result_map (fun r =>
                match c_cluster_id r with
                | Some id => Ok {| c_tweet := c_tweet r; c_dt := c_dt r;
                                   c_row_id := c_row_id r; c_cluster_id := id;
                                   c_type := c_type r |}
                | None => Raise ValueError
                end)
             (List.filter (fun r => String.eqb (c_type r) "core") df_clusters).

(** [df[[LON_COLUMN, LAT_COLUMN]]]: the points handed to the clusterer. *)
Definition lon_lat_columns (df : list LocalizedTweet) : list (Qc * Qc) :=
  map (fun r => (lon (tweet r), lat (tweet r))) df.

Definition makedirs_if_missing (directory : string) : St (list event) unit :=
  if os_path_isdir ext directory then mret tt else emit (Makedirs directory).

Definition opt_pyval {A} (f : A -> pyval) (o : option A) : pyval :=
  match o with Some a => f a | None => PNone end.

(** dbscan.py, [dbscan], from the snapshot of the cluster ids to the end:
    the sections "CLUSTER AGGREGATE MEASURES" and "DETERMINATION OF HOME
    CLUSTER". *)
Definition dbscan_decide (user_id : Z) (df : list LocalizedTweet)
    (results : list ClusterResult) (dbscan_debug_info : pydict)
    : St (list event) pydict :=
  let df_clusters := merge_results df results in
  _ ← emit (ToCsv CLUSTERS_OUTPUT user_id
                  (ClustersCsv (create_output_df df_clusters)));
  df_clusters ← lift (core_points df_clusters);
  cluster_aggregates ← lift (create_cluster_aggregates df_clusters);
  _ ← emit (ToCsv AGGREGATES_OUTPUT user_id (AggregatesCsv cluster_aggregates));
  decision ← lift (determine_home_cluster cluster_aggregates);
  let '(home_cluster_id, reason) := decision in
  home_decision ←
    match home_cluster_id with
    | Some id =>
        match List.filter (fun a => cluster_id a =? id) cluster_aggregates with
        | home_cluster :: _ =>
            mret (home_decision_dict (PInt id) (opt_pyval PStr reason)
                    (PFloat (centroid_lon home_cluster))
                    (PFloat (centroid_lat home_cluster))
                    (PInt (count home_cluster)))
        | [] => lift (Raise IndexError)
        end
    | None =>
        mret (home_decision_dict PNone (opt_pyval PStr reason)
                PNone PNone PNone)
    end;
  lift (merge_dicts [dbscan_debug_info; home_decision]).

(** dbscan.py, [dbscan], the section "DBSCAN": the clusterer runs on the
    coordinates of the home-period frame, the three counters are filled in
    (0 for a type that does not occur), and a result without any cluster id
    ends the function. *)
Definition dbscan_cluster (user_id : Z) (df : list LocalizedTweet)
    (dbscan_debug_info : pydict) : St (list event) pydict :=
  let sf := lon_lat_columns df in
  _ ← emit (DbscanCreate sf);
  results ← lift (turicreate_dbscan_create ext sf EPS MIN_POINTS);
  let cluster_type_counts := value_counts (map res_type results) in
  let dbscan_debug_info :=
    fold_left (fun info cluster_type =>
                 let count := match cluster_type_counts !! cluster_type with
                              | Some n => n
                              | None => 0
                              end in
                 <[counter_key cluster_type := PInt count]> info)
              DBSCAN_CLUSTER_TYPES dbscan_debug_info in
  if forallb (fun res => bool_decide (res_cluster_id res = None)) results then
    lift (merge_dicts [dbscan_debug_info;
                       home_decision_dict (PInt (-1)) (PStr "no clusters")
                         PNone PNone PNone])
  else dbscan_decide user_id df results dbscan_debug_info.

(** dbscan.py, [dbscan]: the set-up and the section "PREPROCESSING", then
    the clustering when a tweet is left. *)
Definition dbscan (tweets_df : list Tweet) : St (list event) pydict :=
  let df := tweets_df in
  user_id ← lift (match df with
                  | t :: _ => Ok (user_id t)
                  | [] => Raise KeyError
                  end);
  let dbscan_debug_info : pydict := {[ "clustering_attempted" := PInt 0 ]} in
  let dbscan_debug_info :=
    dict_update dbscan_debug_info
      (list_to_map (map (fun cluster_type => (counter_key cluster_type, PNone))
                        DBSCAN_CLUSTER_TYPES)) in
  _ ← makedirs_if_missing CLUSTERS_OUTPUT;
  _ ← makedirs_if_missing AGGREGATES_OUTPUT;
  let n_orig := Z.of_nat (length df) in
  let df := groupby_first df in
  let n_deduplicated := Z.of_nat (length df) in
  let dbscan_debug_info :=
    <["n_burst_tweets" := PInt (n_orig - n_deduplicated)]> dbscan_debug_info in
  df ← lift (localize_datetimes df);
  let df := home_period df in
  let dbscan_debug_info :=
    <["n_home_period_tweets" := PInt (Z.of_nat (length df))]> dbscan_debug_info in
  if Z.of_nat (length df) =? 0 then
    lift (merge_dicts [dbscan_debug_info;
                       home_decision_dict (PInt (-1))
                         (PStr "no tweets in desired time range")
                         PNone PNone PNone])
  else
    let dbscan_debug_info :=
      <["clustering_attempted" := PInt 1]> dbscan_debug_info in
    dbscan_cluster user_id df dbscan_debug_info.

End Pipeline.

(** ** The measures of [main.py] *)

(** What a measure function returns: a dict of values or a single value. *)
Inductive measure_value : Type :=
  | MDict (d : pydict)
  | MScalar (v : pyval).

(** A measure: a callable with its [__name__]. *)
Record Measure : Type := {
  measure_name : string;
  measure_call : list Tweet -> St (list event) measure_value
}.

(** The loop of [run_all_measures] from the results merged so far;
    [{**results, **return_value}] lets the keys of [return_value] win. *)
Fixpoint run_measures_from (results : pydict) (measures_ : list Measure)
    (user_tweets_df : list Tweet) : St (list event) pydict :=
  match measures_ with
  | [] => mret results
  | measure :: rest =>
      return_value ← measure_call measure user_tweets_df;
      let return_value :=
        match return_value with
        | MDict d => d
        | MScalar v => {[ measure_name measure := v ]}
        end in
      run_measures_from (return_value ∪ results) rest user_tweets_df
  end.

(** main.py, [run_all_measures]. *)
Definition run_all_measures (user_tweets_df : list Tweet)
    (measures_ : list Measure) : St (list event) pydict :=
  run_measures_from ∅ measures_ user_tweets_df.

(** measures.py, [dbscan_results] and [n_tweets]. *)
Definition dbscan_results (ext : Externals) : Measure :=
  {| measure_name := "dbscan_results";
     measure_call := fun tweets_df => d ← dbscan ext tweets_df; mret (MDict d) |}.

Definition n_tweets : Measure :=
  {| measure_name := "n_tweets";
     measure_call := fun tweets_df =>
                       mret (MScalar (PInt (Z.of_nat (length tweets_df)))) |}.

(** main.py, [OUTPUT_HEADERS]. *)
Definition OUTPUT_HEADERS : list string :=
  [ "clustering_attempted"; "n_dbscan_core_tweets"; "n_dbscan_boundary_tweets";
    "n_dbscan_noise_tweets"; "n_burst_tweets"; "n_home_period_tweets";
    "home_cluster_id"; "home_cluster_reason"; "home_cluster_centroid_lon";
    "home_cluster_centroid_lat"; "home_cluster_count"; "most_frequent_name";
    "most_recent_name"; "n_tweets"; "n_tweets_in_ma"; "unique_days"; "user_id" ].

(** ** The measures of measures.py *)

(** [str.split(sep)] with a one-character separator: the pieces between the
    separators, empty pieces included. *)
Fixpoint split_on (sep : Ascii.ascii) (s : string) : list string :=
  match s with
  | EmptyString => [EmptyString]
  | String c rest =>
      if Ascii.eqb c sep then EmptyString :: split_on sep rest
      else match split_on sep rest with
           | piece :: pieces => String c piece :: pieces
           | [] => [String c EmptyString]
           end
  end.

(** [Series.unique()]: the distinct values in order of first appearance. *)
Definition unique_values {A} `{EqDecision A} (values : list A) : list A :=
  fold_left (fun seen x => if bool_decide (x ∈ seen) then seen
                           else (seen ++ [x])%list)
            values [].

(** The order of [str] is that of the code points. *)
Definition str_le (a b : string) : bool :=
  match String_as_OT.cmp a b with Gt => false | _ => true end.

Fixpoint insert_sorted (s : string) (l : list string) : list string :=
  match l with
  | [] => [s]
  | x :: rest => if str_le s x then s :: l else x :: insert_sorted s rest
  end.

(** The number of entries of a column equal to a value. *)
Definition occurrences (values : list string) (v : string) : nat :=
  length (List.filter (String.eqb v) values).

(** [Series.mode()] of a column of strings with nulls: the nulls are
    dropped, and the values that occur most often are returned in sorted
    order. *)
Definition series_mode (column : list (option string)) : list string :=
  let values := omap (fun v : option string => v) column in
  let distinct := unique_values values in
  let top := fold_right Nat.max 0%nat (map (occurrences values) distinct) in
  fold_right insert_sorted []
             (List.filter (fun v => Nat.eqb (occurrences values v) top) distinct).

Module measures.

(** measures.py, [most_frequent_name]: [.get(0)] is the first of the modes,
    or None when there is none. *)
Definition most_frequent_name : Measure :=
  {| measure_name := "most_frequent_name";
     measure_call := fun tweets_df =>
       mret (MScalar (opt_pyval PStr (head (series_mode (map user_name tweets_df))))) |}.

(** measures.py, [most_recent_name]; [iloc[-1]] of an empty frame raises
    IndexError. *)
Definition most_recent_name : Measure :=
  {| measure_name := "most_recent_name";
     measure_call := fun tweets_df =>
       match last tweets_df with
       | Some t => mret (MScalar (opt_pyval PStr (user_name t)))
       | None => lift (Raise IndexError)
       end |}.

(** measures.py, [n_tweets_in_ma]; [within_ma lon lat] stands for
    [shapely.geometry.Point((lon, lat)).within(MA_SHAPE)].  (On an empty
    frame pandas returns an empty Series and not a number; main.py calls the
    measures on non-empty frames only.) *)
Definition n_tweets_in_ma (within_ma : Qc -> Qc -> bool) : Measure :=
  {| measure_name := "n_tweets_in_ma";
     measure_call := fun tweets_df =>
       mret (MScalar (PInt (Z.of_nat (length
               (List.filter (fun t => within_ma (lon t) (lat t)) tweets_df))))) |}.

(** measures.py, [unique_days]: the first three words of [created_at]. *)
Definition day_key (date_str : string) : list string :=
  firstn 3 (split_on Ascii.Space date_str).

Definition unique_days : Measure :=
  {| measure_name := "unique_days";
     measure_call := fun tweets_df =>
       mret (MScalar (PInt (Z.of_nat (length
               (unique_values (map (fun t => day_key (created_at t)) tweets_df)))))) |}.

(** measures.py, [user_id]; [iloc[0]] of an empty frame raises IndexError. *)
Definition user_id : Measure :=
  {| measure_name := "user_id";
     measure_call := fun tweets_df =>
       match tweets_df with
       | t :: _ => mret (MScalar (PInt (user_id t)))
       | [] => lift (Raise IndexError)
       end |}.

(** measures.py, [ALL_MEASURES]: the callables of the module in the order of
    [inspect.getmembers], which sorts by name. *)
Definition ALL_MEASURES (ext : Externals) (within_ma : Qc -> Qc -> bool)
    : list Measure :=
  [ dbscan_results ext; most_frequent_name; most_recent_name; n_tweets;
    n_tweets_in_ma within_ma; unique_days; user_id ].

End measures.

(** ** The batch of main.py *)

(** The state of a run of [main]: what [dbscan] did to the world, and the
    dicts handed to [writer.writerow], in order. *)
Record Batch : Type := {
  batch_trace : list event;
  batch_rows : list pydict
}.

(** A computation on the trace, run inside a batch. *)
Definition with_trace {A} (m : St (list event) A) : St Batch A :=
  fun b =>
    match m (batch_trace b) with
    | (trace', r) => ({| batch_trace := trace'; batch_rows := batch_rows b |}, r)
    end.

(** [csv.DictWriter(output_fp, fieldnames = OUTPUT_HEADERS).writerow]: a key
    that is no field name raises ValueError; a field without a key is
    written as the empty string. *)
Definition writerow (rowdict : pydict) : St Batch unit :=
  if forallb (fun entry => bool_decide (fst entry ∈ OUTPUT_HEADERS))
             (map_to_list rowdict)
  then modify_state (fun b => {| batch_trace := batch_trace b;
                                 batch_rows := (batch_rows b ++ [rowdict])%list |})
  else lift (Raise ValueError).

Definition csv_cells (rowdict : pydict) : list pyval :=
  map (fun field => default (PStr EmptyString) (rowdict !! field)) OUTPUT_HEADERS.

(** A [for] loop over a list. *)
Fixpoint for_each {S A} (body : A -> St S unit) (items : list A) : St S unit :=
  match items with
  | [] => mret tt
  | item :: rest => _ ← body item; for_each body rest
  end.

(** A user id as [main] gets it from the block under [__main__]: an int
    when the argument of [-i] is a file of ids ([int(line.rstrip())]), the
    argument itself, a str, when it is not ([user_ids = [args.input]]).  An
    int and a str are never equal, and both can be members of a set. *)
Inductive UserId : Type :=
  | IntId (n : Z)
  | StrId (s : string).

Definition UserId_code (uid : UserId) : Z + string :=
  match uid with IntId n => inl n | StrId s => inr s end.

Definition UserId_of_code (code : Z + string) : UserId :=
  match code with inl n => IntId n | inr s => StrId s end.

#[global] Instance UserId_eq_dec : EqDecision UserId := fun x y =>
  match decide (UserId_code x = UserId_code y) with
  | left same =>
      left (eq_trans (eq_sym match x return UserId_of_code (UserId_code x) = x with
                             | IntId _ => eq_refl
                             | StrId _ => eq_refl
                             end)
              (eq_trans (f_equal UserId_of_code same)
                 match y return UserId_of_code (UserId_code y) = y with
                 | IntId _ => eq_refl
                 | StrId _ => eq_refl
                 end))
  | right differ => right (fun same => differ (f_equal UserId_code same))
  end.

#[global] Instance UserId_countable : Countable UserId :=
  inj_countable' UserId_code UserId_of_code
    (fun uid => match uid with IntId _ => eq_refl | StrId _ => eq_refl end).

Section Main.

Context (ext : Externals) (within_ma : Qc -> Qc -> bool).

(** The [geotweets] tables of the databases, in the order of [db_paths]. *)
Context (databases : list (list Tweet)).

(** What SQLite selects from one table when the text of a str id stands
    after [WHERE user_id =] in the query. *)
Context (sqlite_select : string -> list Tweet -> result (list Tweet)).

(** The order in which Python iterates over a set of user ids. *)
Context (set_iter : gset UserId -> list UserId).

(** [pandas.read_sql_query("SELECT * FROM geotweets WHERE user_id = {}"
    .format(user_id))] on the connection of [main]: one database is read
    through [sqlite3.connect], several through [db.MultiSqlite], whose
    cursor runs the query on every database, chains their rows in order and
    cannot be made without a connection.  An int id is written in the
    query as its digits and selects the rows with that id. *)
Definition read_sql_query (uid : UserId) : result (list Tweet) :=
  match databases with
  | [] => Raise (OtherError "no connections passed to MultiCursor instance")
  | _ :: _ =>
      match uid with
      | IntId n =>
          Ok (concat (map (List.filter (fun t => user_id t =? n)) databases))
      | StrId s =>
          tables ← result_map (sqlite_select s) databases;
          Ok (concat tables)
      end
  end.

(** The body of the loop of [main]. *)
Definition process_user (uid : UserId) : St Batch unit :=
  user_tweets_df ← lift (read_sql_query uid);
  if 0 <? Z.of_nat (length user_tweets_df) then
    result ← with_trace (run_all_measures user_tweets_df
                           (measures.ALL_MEASURES ext within_ma));
    if bool_decide (result = ∅) then mret tt else writerow result
  else mret tt.

(** main.py, [main]: [seen_ids] are the user ids read from the output file
    ([int(row["user_id"])]) when the file is there; without the file the
    ids are iterated as they are given. *)
Definition main (user_ids : list UserId) (seen_ids : option (list Z))
    : St Batch unit :=
  let user_ids :=
    match seen_ids with
    | Some seen_ids =>
        set_iter (list_to_set user_ids ∖ list_to_set (map IntId seen_ids))
    | None => user_ids
    end in
  for_each process_user user_ids.

End Main.

(** ** Compressed archives (db.py) *)

(** [COMPRESSED_ARCHIVE_SIGNATURES], in the order of the dict.  The key of
    xz is written [b"\xfd\x37\x7a\58\x5a\x00"] in the source: in a bytes
    literal [\5] is an octal escape and the [8] after it a character of its
    own, so the key has the seven bytes fd 37 7a 05 38 5a 00. *)
Definition COMPRESSED_ARCHIVE_SIGNATURES : list (list Byte.byte * string) :=
  [ ([Byte.x42; Byte.x5a; Byte.x68], "bz2");
    ([Byte.x1f; Byte.x8b], "gzip");
    ([Byte.xfd; Byte.x37; Byte.x7a; Byte.x05; Byte.x38; Byte.x5a; Byte.x00], "xz") ].

Definition MAX_SIGNATURE_LENGTH : nat :=
  fold_right Nat.max 0%nat
             (map (fun entry => length (fst entry)) COMPRESSED_ARCHIVE_SIGNATURES).

(** [bytes.startswith]. *)
Fixpoint startswith (s prefix : list Byte.byte) {struct prefix} : bool :=
  match prefix, s with
  | [], _ => true
  | p :: prefix, c :: s => Byte.eqb c p && startswith s prefix
  | _ :: _, [] => false
  end.

(** db.py, [detect_compression]; the files are a map from paths to contents,
    and opening a path that is not there raises FileNotFoundError. *)
Definition detect_compression (files : string -> option (list Byte.byte))
    (file : string) : result (option string) :=
  match files file with
  | None => Raise (OtherError "FileNotFoundError")
  | Some content =>
      let head := firstn MAX_SIGNATURE_LENGTH content in
      Ok (snd <$> List.find (fun entry => startswith head (fst entry))
                            COMPRESSED_ARCHIVE_SIGNATURES)
  end.

(** ** Several databases at once (db.py) *)

(** What is done to the connections of sqlite3; a connection is known by the
    number of the call of [sqlite3.connect] that made it. *)
Inductive sqlite_event : Type :=
  | SqlConnect (handle : nat) (path : string)
  | SqlCommit (handle : nat)
  | SqlClose (handle : nat).

Record SqliteWorld : Type := {
  next_handle : nat;
  sqlite_trace : list sqlite_event
}.

Definition sqlite_emit (e : sqlite_event) : St SqliteWorld unit :=
  modify_state (fun w => {| next_handle := next_handle w;
                            sqlite_trace := (sqlite_trace w ++ [e])%list |}).

(** [sqlite3.connect(path)]; [can_open] tells the paths that sqlite3 is able
    to open. *)
Definition sqlite3_connect (can_open : string -> bool) (path : string)
    : St SqliteWorld nat :=
  if can_open path then
    fun w => ({| next_handle := S (next_handle w);
                 sqlite_trace := (sqlite_trace w
                                  ++ [SqlConnect (next_handle w) path])%list |},
              Ok (next_handle w))
  else lift (Raise (OtherError "sqlite3.OperationalError")).

(** The argument [db_paths] of [MultiSqlite]: a list, a str, or anything
    else. *)
Inductive db_paths_arg : Type :=
  | PathList (paths : list string)
  | GlobPattern (pattern : string)
  | NotPaths.

(** The end of a [with] block: the exit runs whether the body raises or
    not, and the exception of the body is raised again after it. *)
Definition try_finally {S A B} (body : St S A) (cleanup : St S B) : St S A :=
  fun s =>
    match body s with
    | (s', r) =>
        match cleanup s' with
        | (s'', Ok _) => (s'', r)
        | (s'', Raise e) => (s'', Raise e)
        end
    end.

Module MultiSqlite.

Record t : Type := {
  db_paths : list string;
  connections : list nat
}.

Section Methods.

Context (can_open : string -> bool) (glob_glob : string -> list string).

(** db.py, [MultiSqlite.connect_all]. *)
Definition connect_all (self : t) : St SqliteWorld t :=
  connections ← df_apply (sqlite3_connect can_open) (db_paths self);
  mret {| db_paths := db_paths self; connections := connections |}.

(** db.py, [MultiSqlite.close_all]. *)
Definition close_all (commit : bool) (self : t) : St SqliteWorld t :=
  _ ← for_each (fun connection =>
                  _ ← (if commit then sqlite_emit (SqlCommit connection)
                       else mret tt);
                  sqlite_emit (SqlClose connection))
               (connections self);
  mret {| db_paths := db_paths self; connections := [] |}.

(** db.py, [MultiSqlite.__init__]. *)
Definition init (arg : db_paths_arg) : St SqliteWorld t :=
  db_paths ← lift (match arg with
                   | PathList paths => Ok paths
                   | GlobPattern pattern => Ok (glob_glob pattern)
                   | NotPaths => Raise ValueError
                   end);
  connect_all {| db_paths := db_paths; connections := [] |}.

(** db.py, [MultiSqlite.__enter__] and [MultiSqlite.__exit__]. *)
Definition enter (self : t) : St SqliteWorld t := connect_all self.
Definition exit (self : t) : St SqliteWorld t := close_all true self.

(** db.py, [MultiCursor.__init__], which [MultiSqlite.cursor] and
    [MultiSqlite.execute] call on the connections: the cursors are the
    connections they belong to. *)
Definition cursor (self : t) : result (list nat) :=
  if Nat.eqb (length (connections self)) 0
  then Raise (OtherError "no connections passed to MultiCursor instance")
  else Ok (connections self).

(** [with MultiSqlite(db_paths) as db: body]. *)
Definition with_block {A} (arg : db_paths_arg) (body : t -> St SqliteWorld A)
    : St SqliteWorld A :=
  self ← init arg;
  self ← enter self;
  try_finally (body self) (exit self).

End Methods.

End MultiSqlite.

(** * What the specification says, as predicates *)

(** [a] is the one row of [aggs] whose [column] beats that of every other
    row: a unique winner of a rule of the selector. *)
Definition unique_winner {V} (better : V -> V -> Prop)
    (column : ClusterAggregate -> V)
    (a : ClusterAggregate) (aggs : list ClusterAggregate) : Prop :=
  exists before after,
    aggs = (before ++ a :: after)%list /\
    forall b, In b (before ++ after)%list -> better (column a) (column b).

Definition busiest (aggs : list ClusterAggregate) (a : ClusterAggregate) : Prop :=
  unique_winner (fun x y => y < x) count a aggs.
Definition tightest (aggs : list ClusterAggregate) (a : ClusterAggregate) : Prop :=
  unique_winner (fun x y => (x < y)%R) max_dist_from_centroid a aggs.
Definition longest (aggs : list ClusterAggregate) (a : ClusterAggregate) : Prop :=
  unique_winner (fun x y => (y < x)%Qc) time_range a aggs.

(** Two tweets of one burst share the key. *)
Definition same_burst (a b : Tweet) : bool :=
  match key_compare (burst_key a) (burst_key b) with Eq => true | _ => false end.

(** The first non-null entry of a column. *)
Fixpoint first_non_null {A} (col : list (option A)) : option A :=
  match col with
  | [] => None
  | Some a :: _ => Some a
  | None :: rest => first_non_null rest
  end.

(** Burst removal as the specification words it: the first record of each
    group of records with the same (created_at, lon, lat), the kept records
    in their original order. *)
Definition first_of_each_group (df : list Tweet) : list Tweet :=
  fold_left (fun kept t => if existsb (same_burst t) kept then kept
                           else (kept ++ [t])%list)
            df [].

(** The weekday and hour window as the specification words it: Monday to
    Thursday, 21:00 or later. *)
Definition in_home_period_spec (d : datetime) : bool :=
  (weekday d <=? 3) && (21 <=? hour d).

(** The lookup finds no zone for the tweet's coordinates: timezonefinder
    raises, or pytz does not know the name it returned (a name met for the
    first time, or one already recorded as unknown). *)
Definition no_recognizable_zone (ext : Externals)
    (timezones : gmap (option string) (option pytz_tz)) (t : Tweet) : Prop :=
  (exists e, timezone_at ext (lon t) (lat t) = Raise e) \/
  (exists tz_name,
     timezone_at ext (lon t) (lat t) = Ok tz_name /\
     ((timezones !! tz_name = None /\ exists e, pytz_timezone ext tz_name = Raise e) \/
      timezones !! tz_name = Some None)).

(** A zone is found and the conversion to it raises. *)
Definition localization_fails (ext : Externals)
    (timezones : gmap (option string) (option pytz_tz)) (t : Tweet)
    (parsed : datetime) : Prop :=
  exists tz_name zone,
    timezone_at ext (lon t) (lat t) = Ok tz_name /\
    ((timezones !! tz_name = None /\ pytz_timezone ext tz_name = Ok zone) \/
     timezones !! tz_name = Some (Some zone)) /\
    exists e, astimezone ext parsed zone = Raise e.

(** The dispersion as the specification words it: the largest great-circle
    distance between the centroid (mean longitude, mean latitude) and a point
    (longitude, latitude) of the cluster; [haversine] takes the latitude
    before the longitude. *)
Definition great_circle (lon1 lat1 lon2 lat2 : R) : R :=
  haversine lat1 lon1 lat2 lon2.

Definition max_dist_spec (this_cluster : list (ClusterRow Z)) : result R :=
  let lons := map (fun r => lon (c_tweet r)) this_cluster in
  let lats := map (fun r => lat (c_tweet r)) this_cluster in
  np_max (map (fun r => great_circle (Q2R (mean lons)) (Q2R (mean lats))
                                     (Q2R (lon (c_tweet r)))
                                     (Q2R (lat (c_tweet r))))
              this_cluster).

(** The dict that a measure contributes: what it returns, a single value
    being filed under the name of the function. *)
Definition measure_dict (user_tweets_df : list Tweet) (measure : Measure)
    : St (list event) pydict :=
  return_value ← measure_call measure user_tweets_df;
  mret (match return_value with
        | MDict d => d
        | MScalar v => {[ measure_name measure := v ]}
        end).

(** The dicts of all the measures, in order. *)
Definition measure_dicts (user_tweets_df : list Tweet) (measures_ : list Measure)
    : St (list event) (list pydict) :=
  df_apply (measure_dict user_tweets_df) measures_.

(** Two of the dicts have a key in common. *)
Definition key_collision (outs : list pydict) : Prop :=
  exists (i j : nat) (oi oj : pydict) (k : string),
    (i < j)%nat /\ outs !! i = Some oi /\ outs !! j = Some oj /\
    is_Some (oi !! k) /\ is_Some (oj !! k).

(** The merge as the specification words it: whenever the measures return
    dicts with a key in common, [run_all_measures] ends in an error. *)
Definition collisions_are_errors : Prop :=
  forall (user_tweets_df : list Tweet) (measures_ : list Measure)
         (trace trace' : list event) (outs : list pydict),
    measure_dicts user_tweets_df measures_ trace = (trace', Ok outs) ->
    key_collision outs ->
    exists e, (run_all_measures user_tweets_df measures_ trace).2 = Raise e.

(** [v] is what the last dict with the key [k] holds for it. *)
Definition last_writer (outs : list pydict) (k : string) (v : pyval) : Prop :=
  exists (i : nat) (out : pydict),
    outs !! i = Some out /\ out !! k = Some v /\
    forall (j : nat) (out' : pydict),
      (i < j)%nat -> outs !! j = Some out' -> out' !! k = None.

(** * Intermediate values of [dbscan] *)

(** The directories created at the start of [dbscan]. *)
Definition made_dirs (ext : Externals) : list event :=
  ((if os_path_isdir ext CLUSTERS_OUTPUT then [] else [Makedirs CLUSTERS_OUTPUT])
   ++ (if os_path_isdir ext AGGREGATES_OUTPUT then []
       else [Makedirs AGGREGATES_OUTPUT]))%list.

(** [dbscan_debug_info] at the end of the preprocessing. *)
Definition debug_info_preprocessed (n_burst n_home_period : Z) : pydict :=
  <["n_home_period_tweets" := PInt n_home_period]>
    (<["n_burst_tweets" := PInt n_burst]>
       (dict_update {[ "clustering_attempted" := PInt 0 ]}
          (list_to_map (map (fun cluster_type => (counter_key cluster_type, PNone))
                            DBSCAN_CLUSTER_TYPES)))).

(** The number of rows of a clustering result with a given type. *)
Definition count_type (cluster_type : string) (results : list ClusterResult) : Z :=
  Z.of_nat (length (List.filter (fun r => String.eqb (res_type r) cluster_type)
                                results)).

(** [dbscan_debug_info] once the three counters are filled in. *)
Definition debug_info_clustered (results : list ClusterResult) (info : pydict)
    : pydict :=
  <["n_dbscan_noise_tweets" := PInt (count_type "noise" results)]>
    (<["n_dbscan_boundary_tweets" := PInt (count_type "boundary" results)]>
       (<["n_dbscan_core_tweets" := PInt (count_type "core" results)]> info)).

(** The three keys of the counters and the five keys of the decision. *)
Definition counter_keys : list string := map counter_key DBSCAN_CLUSTER_TYPES.
Definition decision_keys : list string :=
  ["home_cluster_id"; "home_cluster_reason"; "home_cluster_centroid_lon";
   "home_cluster_centroid_lat"; "home_cluster_count"].

(** * Auxiliary notions of the proofs *)

(** The same carrier with the order reversed: [max] is [min] for it. *)
Definition PyOrd_flip {V} (O : PyOrd V) : PyOrd V :=
  {| py_ltb := fun x y => @py_ltb V O y x; py_eqb := @py_eqb V O |}.

(** A comparison that decides equality and is a strict order. *)
Record GoodCmp {A} (cmp : A -> A -> comparison) : Prop := {
  cmp_eq : forall a b, cmp a b = Eq <-> a = b;
  cmp_antisym : forall a b, cmp b a = CompOpp (cmp a b);
  cmp_trans : forall a b c, cmp a b = Lt -> cmp b c = Lt -> cmp a c = Lt
}.

(** The strict order of the group keys. *)
Definition key_lt (a b : string * Qc * Qc) : Prop := key_compare a b = Lt.

(** The row of a key among sorted groups. *)
Definition find_group (k : string * Qc * Qc) (groups : list Tweet) : option Tweet :=
  List.find (fun g => match key_compare (burst_key g) k with Eq => true | _ => false end)
            groups.

(** Half of 0.0001 degrees, in radians. *)
Definition small_angle : R := (PI / 3600000)%R.

(** A datetime with a zone, and what subtraction compares: the instant of an
    aware value, the wall-clock reading of a naive one, in microseconds. *)
Definition aware (d : datetime) : bool :=
  match tz d with Some _ => true | None => false end.

Definition instant (d : datetime) : Z :=
  wall_us d - match tz d with
              | Some zone => utcoffset zone * 1000000
              | None => 0
              end.

(** The sum of a column of integers. *)
Definition Zsum (l : list Z) : Z := fold_right Z.add 0 l.

(** The rows of a cluster. *)
Definition rows_of_cluster (df_clusters : list (ClusterRow Z)) (id : Z)
    : list (ClusterRow Z) :=
  List.filter (fun r => c_cluster_id r =? id) df_clusters.

(** The three reasons that [determine_home_cluster] gives. *)
Definition home_reasons : list string := map rule_reason HOME_RULES.

(** The merge of the frame with the clusterer's table, row by row of the
    frame from the index [k] on. *)
Fixpoint merge_from (k : Z) (df : list LocalizedTweet) (results : list ClusterResult)
    : list (ClusterRow (option Z)) :=
  match df with
  | [] => []
  | r :: rest =>
      (map (fun res => {| c_tweet := tweet r; c_dt := dt r;
                          c_row_id := row_id res;
                          c_cluster_id := res_cluster_id res;
                          c_type := res_type res |})
           (List.filter (fun res => row_id res =? k) results)
       ++ merge_from (k + 1) rest results)%list
  end.

(** A core point before [astype(int)]. *)
Definition nullable_id (r : ClusterRow Z) : ClusterRow (option Z) :=
  {| c_tweet := c_tweet r; c_dt := c_dt r; c_row_id := c_row_id r;
     c_cluster_id := Some (c_cluster_id r); c_type := c_type r |}.

(** The keys of the dict that [dbscan] returns. *)
Definition dbscan_keys : list string :=
  (["clustering_attempted"; "n_burst_tweets"; "n_home_period_tweets"]
   ++ counter_keys ++ decision_keys)%list.

(** The values that [dbscan] builds on its way: the number of burst tweets,
    the debug information after the preprocessing and after the clustering,
    and the snapshot of the cluster ids. *)
Definition burst_count (tweets_df : list Tweet) : Z :=
  Z.of_nat (length tweets_df) - Z.of_nat (length (groupby_first tweets_df)).

Definition info_preprocessed (tweets_df : list Tweet) (df : list LocalizedTweet)
    : pydict :=
  debug_info_preprocessed (burst_count tweets_df) (Z.of_nat (length df)).

Definition info_clustered (tweets_df : list Tweet) (df : list LocalizedTweet)
    (results : list ClusterResult) : pydict :=
  debug_info_clustered results
    (<["clustering_attempted" := PInt 1]> (info_preprocessed tweets_df df)).

Definition snapshot (uid : Z) (df : list LocalizedTweet)
    (results : list ClusterResult) : event :=
  ToCsv CLUSTERS_OUTPUT uid
        (ClustersCsv (create_output_df (merge_results df results))).

(** The clusterer ran on the home-period frame [df] and returned [results]. *)
Definition clustered (ext : Externals) (tweets_df : list Tweet)
    (df : list LocalizedTweet) (results : list ClusterResult) : Prop :=
  preprocessing ext tweets_df = Ok df /\ df <> [] /\
  turicreate_dbscan_create ext (lon_lat_columns df) EPS MIN_POINTS = Ok results.

(** Some row of the clusterer's table has a cluster id. *)
Definition some_cluster (results : list ClusterResult) : Prop :=
  exists res, In res results /\ res_cluster_id res <> None.

(** The ways through [dbscan] on a frame with a first row of user [uid]:
    the events that follow the creation of the directories, and the
    outcome. *)
Inductive dbscan_outcome (ext : Externals) (tweets_df : list Tweet) (uid : Z)
    : list event -> result pydict -> Prop :=
  | parse_fails (e : exn) :
      localize_datetimes ext (groupby_first tweets_df) = Raise e ->
      dbscan_outcome ext tweets_df uid [] (Raise e)
  | no_tweets :
      preprocessing ext tweets_df = Ok [] ->
      dbscan_outcome ext tweets_df uid []
        (Ok (home_decision_dict (PInt (-1))
               (PStr "no tweets in desired time range") PNone PNone PNone
             ∪ info_preprocessed tweets_df []))
  | clusterer_fails (df : list LocalizedTweet) (e : exn) :
      preprocessing ext tweets_df = Ok df -> df <> [] ->
      turicreate_dbscan_create ext (lon_lat_columns df) EPS MIN_POINTS = Raise e ->
      dbscan_outcome ext tweets_df uid [DbscanCreate (lon_lat_columns df)] (Raise e)
  | no_clusters (df : list LocalizedTweet) (results : list ClusterResult) :
      clustered ext tweets_df df results ->
      (forall res, In res results -> res_cluster_id res = None) ->
      dbscan_outcome ext tweets_df uid [DbscanCreate (lon_lat_columns df)]
        (Ok (home_decision_dict (PInt (-1)) (PStr "no clusters") PNone PNone PNone
             ∪ info_clustered tweets_df df results))
  | core_fails (df : list LocalizedTweet) (results : list ClusterResult) (e : exn) :
      clustered ext tweets_df df results -> some_cluster results ->
      core_points (merge_results df results) = Raise e ->
      dbscan_outcome ext tweets_df uid
        [DbscanCreate (lon_lat_columns df); snapshot uid df results] (Raise e)
  | aggregates_fail (df : list LocalizedTweet) (results : list ClusterResult)
      (core : list (ClusterRow Z)) (e : exn) :
      clustered ext tweets_df df results -> some_cluster results ->
      core_points (merge_results df results) = Ok core ->
      create_cluster_aggregates core = Raise e ->
      dbscan_outcome ext tweets_df uid
        [DbscanCreate (lon_lat_columns df); snapshot uid df results] (Raise e)
  | decided (df : list LocalizedTweet) (results : list ClusterResult)
      (core : list (ClusterRow Z)) (aggs : list ClusterAggregate)
      (a : ClusterAggregate) (reason : string) :
      clustered ext tweets_df df results -> some_cluster results ->
      core_points (merge_results df results) = Ok core ->
      create_cluster_aggregates core = Ok aggs ->
      In a aggs -> In reason home_reasons ->
      determine_home_cluster aggs = Ok (Some (cluster_id a), Some reason) ->
      dbscan_outcome ext tweets_df uid
        [DbscanCreate (lon_lat_columns df); snapshot uid df results;
         ToCsv AGGREGATES_OUTPUT uid (AggregatesCsv aggs)]
        (Ok (home_decision_dict (PInt (cluster_id a)) (PStr reason)
               (PFloat (centroid_lon a)) (PFloat (centroid_lat a))
               (PInt (count a))
             ∪ info_clustered tweets_df df results))
  | undecided (df : list LocalizedTweet) (results : list ClusterResult)
      (core : list (ClusterRow Z)) (aggs : list ClusterAggregate) :
      clustered ext tweets_df df results -> some_cluster results ->
      core_points (merge_results df results) = Ok core ->
      create_cluster_aggregates core = Ok aggs ->
      determine_home_cluster aggs = Ok (None, None) ->
      dbscan_outcome ext tweets_df uid
        [DbscanCreate (lon_lat_columns df); snapshot uid df results;
         ToCsv AGGREGATES_OUTPUT uid (AggregatesCsv aggs)]
        (Ok (home_decision_dict PNone PNone PNone PNone PNone
             ∪ info_clustered tweets_df df results)).

(** The number of tweets of a frame with a given user name. *)
Definition name_count (df : list Tweet) (n : string) : nat :=
  length (List.filter (fun t => bool_decide (user_name t = Some n)) df).

(** The names of the measures that return a single value. *)
Definition scalar_keys : list string :=
  ["most_frequent_name"; "most_recent_name"; "n_tweets"; "n_tweets_in_ma";
   "unique_days"; "user_id"].

(** The dict that [run_all_measures] builds from the dict of [dbscan] with
    the measures of measures.py, the last measure outermost. *)
Definition all_measures_dict (within_ma : Qc -> Qc -> bool) (df : list Tweet)
    (dbscan_dict : pydict) : pydict :=
  {[ "user_id" := from_option (fun t => PInt (user_id t)) PNone (head df) ]}
  ∪ ({[ "unique_days" :=
          PInt (Z.of_nat (length (unique_values
                  (map (fun t => measures.day_key (created_at t)) df)))) ]}
  ∪ ({[ "n_tweets_in_ma" :=
          PInt (Z.of_nat (length
                  (List.filter (fun t => within_ma (lon t) (lat t)) df))) ]}
  ∪ ({[ "n_tweets" := PInt (Z.of_nat (length df)) ]}
  ∪ ({[ "most_recent_name" :=
          from_option (fun t => opt_pyval PStr (user_name t)) PNone (last df) ]}
  ∪ ({[ "most_frequent_name" :=
          opt_pyval PStr (head (series_mode (map user_name df))) ]}
  ∪ (dbscan_dict ∪ ∅)))))).

(** The query for the user id returns a tweet. *)
Definition has_tweets (databases : list (list Tweet))
    (sqlite_select : string -> list Tweet -> result (list Tweet))
    (uid : UserId) : bool :=
  match read_sql_query databases sqlite_select uid with
  | Ok (_ :: _) => true
  | _ => false
  end.

(** The user id of the first tweet that the query returns. *)
Definition answered_id (databases : list (list Tweet))
    (sqlite_select : string -> list Tweet -> result (list Tweet))
    (uid : UserId) : option pyval :=
  match read_sql_query databases sqlite_select uid with
  | Ok (t :: _) => Some (PInt (user_id t))
  | _ => None
  end.

(** The user ids in the column user_id of rows written by [main]. *)
Definition written_ids (rows : list pydict) : list Z :=
  omap (fun row : pydict => match row !! "user_id" with
                            | Some (PInt uid) => Some uid
                            | _ => None
                            end) rows.

(** The ids that [main] iterates over. *)
Definition pending_ids (set_iter : gset UserId -> list UserId)
    (user_ids : list UserId) (seen_ids : option (list Z)) : list UserId :=
  match seen_ids with
  | Some seen_ids =>
      set_iter (list_to_set user_ids ∖ list_to_set (map IntId seen_ids))
  | None => user_ids
  end.

(** The int ids of a list of user ids. *)
Definition int_ids (user_ids : list UserId) : list Z :=
  omap (fun uid => match uid with IntId n => Some n | StrId _ => None end)
       user_ids.

(** A database that rejects every query made with a str id. *)
Definition no_str_ids (s : string) (table : list Tweet) : result (list Tweet) :=
  Raise (OtherError "DatabaseError").

(** The first bytes of a bzip2, a gzip and an xz file. *)
Definition bz2_magic : list Byte.byte := [Byte.x42; Byte.x5a; Byte.x68].
Definition gzip_magic : list Byte.byte := [Byte.x1f; Byte.x8b].
Definition xz_magic : list Byte.byte :=
  [Byte.xfd; Byte.x37; Byte.x7a; Byte.x58; Byte.x5a; Byte.x00].

(** The key of xz in the table of the code. *)
Definition xz_key : list Byte.byte :=
  [Byte.xfd; Byte.x37; Byte.x7a; Byte.x05; Byte.x38; Byte.x5a; Byte.x00].

(** The connections that [sqlite3.connect] makes of [paths], from the
    handle [h] on, and the end of the connections [cs] in [close_all]. *)
Definition opened (h : nat) (paths : list string) : list sqlite_event :=
  imap (fun i path => SqlConnect (h + i) path) paths.



Definition is_close (e : sqlite_event) : bool :=
  match e with SqlClose _ => true | _ => false end.




(** * Example data *)

Definition qc (n : Z) (d : positive) : Qc := Q2Qc (n # d).

(** Two clusters with equal counts and dispersions of 25 m and 10 m. *)
Definition cluster_wide : ClusterAggregate :=
  {| cluster_id := 0; centroid_lon := qc (-71) 1; centroid_lat := qc 42 1;
     time_range := qc 3600 1; max_dist_from_centroid := 25%R; count := 5 |}.
Definition cluster_tight : ClusterAggregate :=
  {| cluster_id := 1; centroid_lon := qc (-70) 1; centroid_lat := qc 41 1;
     time_range := qc 7200 1; max_dist_from_centroid := 10%R; count := 5 |}.
Definition tied_counts : list ClusterAggregate := [cluster_wide; cluster_tight].

Definition utc : tzinfo := {| tzname := "UTC"; utcoffset := 0 |}.
Definition gmt : tzinfo := {| tzname := "GMT"; utcoffset := 0 |}.
Definition est : tzinfo := {| tzname := "EST"; utcoffset := -18000 |}.

(** January 2018 in UTC; the 1st is a Monday. *)
Definition jan2018 (d h : Z) : datetime :=
  {| year := 2018; month := 1; day := d; hour := h; minute := 0; second := 0;
     microsecond := 0; tz := Some utc |}.

(** Two tweets at a place in Boston, in the order the store returns them. *)
Definition tweet_tue : Tweet :=
  {| created_at := "Tue Jan 02 22:00:00 +0000 2018"; user_name := Some "ann";
     user_id := 7; lon := qc (-710589) 10000; lat := qc 423601 10000 |}.
Definition tweet_mon : Tweet :=
  {| created_at := "Mon Jan 08 22:00:00 +0000 2018"; user_name := Some "ann";
     user_id := 7; lon := qc (-710589) 10000; lat := qc 423601 10000 |}.

(** A tweet sent in London at 10:00 on Monday 1 January 2018, localized. *)
Definition tweet_morning : Tweet :=
  {| created_at := "Mon Jan 01 10:00:00 +0000 2018"; user_name := Some "ann";
     user_id := 7; lon := qc (-1278) 10000; lat := qc 515074 10000 |}.
Definition monday_morning : LocalizedTweet :=
  {| tweet := tweet_morning;
     dt := {| year := 2018; month := 1; day := 1; hour := 10; minute := 0;
              second := 0; microsecond := 0; tz := Some gmt |} |}.

(** A copy of the Tuesday tweet stored without a user name. *)
Definition tweet_tue_unnamed : Tweet :=
  {| created_at := "Tue Jan 02 22:00:00 +0000 2018"; user_name := None;
     user_id := 7; lon := qc (-710589) 10000; lat := qc 423601 10000 |}.

(** Stand-ins for the outside world on the few tweets used below: the parser
    knows seven timestamps; a point west of -60 degrees is in
    America/New_York, another point north of 50 degrees in Europe/London, any
    other point is at sea; pytz knows every name but [None]; January
    wall-clock times are moved by the winter offset; no directory exists; the
    clusterer finds only noise. *)
Definition demo_parse (s : string) : result datetime :=
  if String.eqb s "Mon Jan 01 10:00:00 +0000 2018" then Ok (jan2018 1 10)
  else if String.eqb s "Mon Jan 01 22:00:00 +0000 2018" then Ok (jan2018 1 22)
  else if String.eqb s "Tue Jan 02 22:00:00 +0000 2018" then Ok (jan2018 2 22)
  else if String.eqb s "Wed Jan 03 22:00:00 +0000 2018" then Ok (jan2018 3 22)
  else if String.eqb s "Thu Jan 04 22:00:00 +0000 2018" then Ok (jan2018 4 22)
  else if String.eqb s "Sat Jan 06 22:00:00 +0000 2018" then Ok (jan2018 6 22)
  else if String.eqb s "Mon Jan 08 22:00:00 +0000 2018" then Ok (jan2018 8 22)
  else Raise ValueError.

Definition demo_timezone_at (lng la : Qc) : result (option string) :=
  if Qcltb lng (qc (-60) 1) then Ok (Some "America/New_York")
  else if Qcltb (qc 50 1) la then Ok (Some "Europe/London")
  else Ok None.

Definition demo_pytz_timezone (name : option string) : result pytz_tz :=
  match name with
  | Some n => Ok (PytzTz n)
  | None => Raise AttributeError
  end.

Definition demo_astimezone (d : datetime) (zone : pytz_tz) : result datetime :=
  match zone with
  | PytzTz n =>
      if String.eqb n "Europe/London" then
        Ok {| year := year d; month := month d; day := day d; hour := hour d;
              minute := minute d; second := second d;
              microsecond := microsecond d; tz := Some gmt |}
      else if 5 <=? hour d then
        Ok {| year := year d; month := month d; day := day d;
              hour := hour d - 5; minute := minute d; second := second d;
              microsecond := microsecond d; tz := Some est |}
      else
        Ok {| year := year d; month := month d; day := day d - 1;
              hour := hour d + 19; minute := minute d; second := second d;
              microsecond := microsecond d; tz := Some est |}
  end.

Definition all_noise (points : list (Qc * Qc)) : list ClusterResult :=
  imap (fun i _ => {| row_id := Z.of_nat i; res_cluster_id := None;
                      res_type := "noise" |}) points.

Definition demo_ext : Externals :=
  {| dateutil_parse := demo_parse;
     timezone_at := demo_timezone_at;
     pytz_timezone := demo_pytz_timezone;
     astimezone := demo_astimezone;
     os_path_isdir := fun _ => false;
     turicreate_dbscan_create := fun points _ _ => Ok (all_noise points) |}.

(** 17:00 Eastern time on a day of January 2018, and the two Boston tweets
    once localized. *)
Definition evening_est (d : Z) : datetime :=
  {| year := 2018; month := 1; day := d; hour := 17; minute := 0; second := 0;
     microsecond := 0; tz := Some est |}.
Definition boston_rows : list LocalizedTweet :=
  [ {| tweet := tweet_mon; dt := evening_est 8 |};
    {| tweet := tweet_tue; dt := evening_est 2 |} ].

(** A tweet sent from the open sea, where timezonefinder has no zone. *)
Definition tweet_at_sea : Tweet :=
  {| created_at := "Tue Jan 02 22:00:00 +0000 2018"; user_name := Some "ann";
     user_id := 7; lon := qc 0 1; lat := qc 0 1 |}.

(** A tweet of a Saturday evening. *)
Definition tweet_sat : Tweet :=
  {| created_at := "Sat Jan 06 22:00:00 +0000 2018"; user_name := Some "ann";
     user_id := 7; lon := qc (-710589) 10000; lat := qc 423601 10000 |}.

(** A measure that returns a dict with the key of [n_tweets]. *)
Definition recount : Measure :=
  {| measure_name := "recount";
     measure_call := fun _ => mret (MDict {[ "n_tweets" := PInt 0 ]}) |}.

(** Four core points of one cluster at latitude 60, spread over 0.0002
    degrees of longitude around -71 (all within [EPS] of each other), on four
    evenings. *)
Definition core_point (row : Z) (created : string) (lo : Qc) (d : Z)
    : ClusterRow Z :=
  {| c_tweet := {| created_at := created; user_name := Some "ann"; user_id := 7;
                   lon := lo; lat := qc 60 1 |};
     c_dt := evening_est d;
     c_row_id := row;
     c_cluster_id := 0;
     c_type := "core" |}.

Definition northern_cluster : list (ClusterRow Z) :=
  [ core_point 0 "Mon Jan 01 22:00:00 +0000 2018" (qc (-710001) 10000) 1;
    core_point 1 "Tue Jan 02 22:00:00 +0000 2018" (qc (-71) 1) 2;
    core_point 2 "Wed Jan 03 22:00:00 +0000 2018" (qc (-71) 1) 3;
    core_point 3 "Thu Jan 04 22:00:00 +0000 2018" (qc (-709999) 10000) 4 ].

(** The same world with a clusterer that puts every point, as a core point,
    in cluster 0, and the tweets of [northern_cluster]. *)
Definition one_cluster (points : list (Qc * Qc)) : list ClusterResult :=
  imap (fun i _ => {| row_id := Z.of_nat i; res_cluster_id := Some 0;
                      res_type := "core" |}) points.

Definition one_cluster_ext : Externals :=
  {| dateutil_parse := demo_parse;
     timezone_at := demo_timezone_at;
     pytz_timezone := demo_pytz_timezone;
     astimezone := demo_astimezone;
     os_path_isdir := fun _ => false;
     turicreate_dbscan_create := fun points _ _ => Ok (one_cluster points) |}.

Definition northern_tweets : list Tweet := map c_tweet northern_cluster.

(** A tweet whose timestamp the stand-in parser rejects. *)
Definition tweet_unparsed : Tweet :=
  {| created_at := "yesterday evening"; user_name := Some "ann";
     user_id := 7; lon := qc (-710589) 10000; lat := qc 423601 10000 |}.








(** * Properties *)

(** Unfolds the operations of the state-and-exception monad. *)
Ltac st_unfold :=
  cbv [mbind mret St_bind St_ret result_bind result_ret lift get_state
       modify_state try_except emit].
Tactic Notation "st_unfold" "in" hyp(H) :=
  cbv [mbind mret St_bind St_ret result_bind result_ret lift get_state
       modify_state try_except emit] in H.

(** ** The orders on Python numbers *)

Lemma Qcltb_lt (x y : Qc) : Qcltb x y = true <-> (x < y)%Qc.
Proof.
  unfold Qcltb. rewrite Qclt_alt.
  destruct (x ?= y)%Qc; split; intro; congruence.
Qed.

Lemma Qceqb_eq (x y : Qc) : Qceqb x y = true <-> x = y.
Proof.
  unfold Qceqb. rewrite Qceq_alt.
  destruct (x ?= y)%Qc; split; intro; congruence.
Qed.

Lemma Rltb_lt (x y : R) : Rltb x y = true <-> (x < y)%R.
Proof. unfold Rltb. destruct (Rlt_dec x y); split; intro; congruence. Qed.

Lemma Reqb_eq (x y : R) : Reqb x y = true <-> x = y.
Proof. unfold Reqb. destruct (Req_dec_T x y); split; intro; congruence. Qed.

#[global] Instance PyOrdLaws_Z : PyOrdLaws Z.
Proof.
  split; simpl.
  - intros x y. apply Z.eqb_eq.
  - intros x. apply Z.ltb_irrefl.
  - intros x y z. rewrite !Z.ltb_lt. lia.
  - intros x y. rewrite !Z.ltb_lt. lia.
Qed.

#[global] Instance PyOrdLaws_Qc : PyOrdLaws Qc.
Proof.
  split; simpl.
  - apply Qceqb_eq.
  - intros x. destruct (Qcltb x x) eqn:E; [|reflexivity].
    apply Qcltb_lt, Qclt_not_le in E. exfalso. apply E, Qcle_refl.
  - intros x y z. rewrite !Qcltb_lt. apply Qclt_trans.
  - intros x y. rewrite !Qcltb_lt.
    destruct (Qclt_le_dec x y) as [Hlt|Hle]; [now left|right].
    destruct (Qcle_lt_or_eq _ _ Hle) as [Hlt|Heq]; [now right|now left].
Qed.

#[global] Instance PyOrdLaws_R : PyOrdLaws R.
Proof.
  split; simpl.
  - apply Reqb_eq.
  - intros x. destruct (Rltb x x) eqn:E; [|reflexivity].
    apply Rltb_lt in E. lra.
  - intros x y z. rewrite !Rltb_lt. lra.
  - intros x y. rewrite !Rltb_lt. lra.
Qed.

Lemma PyOrdLaws_flip {V} (O : PyOrd V) :
  @PyOrdLaws V O -> @PyOrdLaws V (PyOrd_flip O).
Proof.
  intros L. split; simpl.
  - apply py_eqb_eq.
  - apply py_ltb_irrefl.
  - intros x y z Hxy Hyz. exact (py_ltb_trans z y x Hyz Hxy).
  - intros x y. destruct (py_ltb_total x y) as [H|[H|H]]; auto.
Qed.

Lemma py_max_flip {V} (O : PyOrd V) (items : list V) :
  @py_max V O items = @py_min V (PyOrd_flip O) items.
Proof. reflexivity. Qed.

Section Selector.

Context {V : Type} `{PyOrdLaws V}.

Lemma py_ltb_asym (x y : V) : py_ltb x y = true -> py_ltb y x = false.
Proof.
  intros Hxy. destruct (py_ltb y x) eqn:Hyx; [|reflexivity].
  pose proof (py_ltb_trans _ _ _ Hxy Hyx) as Hxx.
  rewrite py_ltb_irrefl in Hxx. discriminate.
Qed.

Lemma py_eqb_refl (x : V) : py_eqb x x = true.
Proof. now apply py_eqb_eq. Qed.

Lemma py_ltb_neq (x y : V) : py_ltb x y = true -> py_eqb y x = false.
Proof.
  intros Hxy. destruct (py_eqb y x) eqn:E; [|reflexivity].
  apply py_eqb_eq in E. subst. rewrite py_ltb_irrefl in Hxy. discriminate.
Qed.

(** The running minimum of the loop of [min]. *)
Lemma fold_min_spec (rest : list V) (x : V) :
  let m := fold_left (fun minval item => if py_ltb item minval then item else minval)
                     rest x in
  In m (x :: rest) /\ forall w, In w (x :: rest) -> py_ltb w m = false.
Proof.
  revert x. induction rest as [|y rest IH]; intros x; simpl.
  - split; [now left|]. intros w [<-|[]]. apply py_ltb_irrefl.
  - specialize (IH (if py_ltb y x then y else x)). simpl in IH.
    destruct IH as [Hin Hmin]. split.
    + destruct Hin as [Hin|Hin]; [|now right; right].
      destruct (py_ltb y x); [right; now left | now left].
    + intros w Hw.
      set (c := if py_ltb y x then y else x) in *.
      set (m := fold_left _ rest c) in *.
      assert (Hcur : py_ltb c m = false) by (apply Hmin; now left).
      assert (Hle : forall u, py_ltb u c = false -> py_ltb u m = false).
      { intros u Hu. destruct (py_ltb u m) eqn:Hum; [|reflexivity].
        destruct (py_ltb_total c u) as [Hlt|[Heq|Hgt]].
        - pose proof (py_ltb_trans _ _ _ Hlt Hum). congruence.
        - subst u. congruence.
        - congruence. }
      destruct Hw as [<-|[<-|Hw]].
      * apply Hle. subst c. destruct (py_ltb y x) eqn:Hyx.
        -- now apply py_ltb_asym.
        -- apply py_ltb_irrefl.
      * apply Hle. subst c. destruct (py_ltb y x) eqn:Hyx.
        -- apply py_ltb_irrefl.
        -- exact Hyx.
      * apply Hmin. now right.
Qed.

Lemma py_min_spec (items : list V) :
  items <> [] ->
  exists m, py_min items = Ok m /\ In m items /\
            forall w, In w items -> py_ltb w m = false.
Proof.
  destruct items as [|x rest]; [congruence|]. intros _.
  eexists. split; [reflexivity|]. apply fold_min_spec.
Qed.

End Selector.

(** ** The home selector *)

Lemma filter_singleton {A} (f : A -> bool) (l : list A) (a : A) :
  List.filter f l = [a] ->
  exists before after,
    l = (before ++ a :: after)%list /\
    forall b, In b (before ++ after)%list -> f b = false.
Proof.
  induction l as [|x l IH]; simpl; [discriminate|].
  destruct (f x) eqn:Hx; intros Hsel.
  - injection Hsel as -> Hrest. exists [], l. split; [reflexivity|].
    simpl. intros b Hb. destruct (f b) eqn:Hb'; [|reflexivity].
    assert (In b (List.filter f l)) by (apply filter_In; auto).
    rewrite Hrest in *. contradiction.
  - destruct (IH Hsel) as (before & after & -> & Hothers).
    exists (x :: before), after. split; [reflexivity|].
    intros b [<-|Hb]; auto.
Qed.

Lemma filter_none {A} (f : A -> bool) (l : list A) :
  (forall b, In b l -> f b = false) -> List.filter f l = [].
Proof.
  induction l as [|x l IH]; simpl; intros Hall; [reflexivity|].
  rewrite (Hall x) by now left. apply IH. intros b Hb. apply Hall. now right.
Qed.

Section SelectorRule.

Context {V : Type} `{PyOrdLaws V}.
Variable column : ClusterAggregate -> V.

(** With [min] as the measure, a rule returns the row whose column is
    strictly below all others, and [None] when there is no such row; on a
    non-empty table it raises nothing. *)
Lemma unique_cluster_id_min (aggs : list ClusterAggregate) :
  aggs <> [] ->
  (forall a,
     unique_winner (fun x y => py_ltb x y = true) column a aggs ->
     unique_cluster_id aggs column py_min = Ok (Some (cluster_id a))) /\
  ((~ exists a, unique_winner (fun x y => py_ltb x y = true) column a aggs) ->
   unique_cluster_id aggs column py_min = Ok None) /\
  (exists o, unique_cluster_id aggs column py_min = Ok o).
Proof.
  intros Hne.
  destruct (py_min_spec (map column aggs)) as (m & Hm & Hin & Hmin).
  { destruct aggs; [congruence|discriminate]. }
  apply in_map_iff in Hin. destruct Hin as (am & Ham & Hamin).
  assert (Hsel : In am (List.filter (fun a => py_eqb (column a) m) aggs)).
  { apply filter_In. split; [assumption|]. apply py_eqb_eq. assumption. }
  assert (Hcount : List.filter (fun v => py_eqb v m) (map column aggs)
                   = map column (List.filter (fun a => py_eqb (column a) m) aggs)).
  { clear. induction aggs as [|x l IH]; simpl; [reflexivity|].
    destruct (py_eqb (column x) m); simpl; now rewrite IH. }
  unfold unique_cluster_id, value_counts_loc. rewrite Hm. simpl.
  rewrite Hcount, length_map.
  split; [|split].
  - intros a (before & after & -> & Hbest).
    assert (Hma : m = column a).
    { destruct (py_ltb_total m (column a)) as [Hlt|[Heq|Hgt]]; [|assumption|].
      - apply in_app_iff in Hamin. simpl in Hamin.
        assert (Hcase : am = a \/ In am (before ++ after)%list).
        { rewrite in_app_iff. destruct Hamin as [Hi|[Hi|Hi]]; auto. }
        destruct Hcase as [->|Hother]; [now symmetry|].
        apply Hbest in Hother. rewrite Ham in Hother.
        apply py_ltb_asym in Hother. congruence.
      - rewrite Hmin in Hgt; [discriminate|].
        apply in_map. apply in_app_iff. right. now left. }
    rewrite Hma. rewrite List.filter_app. simpl. rewrite py_eqb_refl.
    rewrite !filter_none.
    + reflexivity.
    + intros b Hb. apply py_ltb_neq, Hbest, in_app_iff. now right.
    + intros b Hb. apply py_ltb_neq, Hbest, in_app_iff. now left.
  - intros Hnone.
    destruct (List.filter (fun a => py_eqb (column a) m) aggs)
      as [|a [|a' sel]] eqn:Hfilter; [contradiction| |].
    2:{ assert (Hlen : 2 <= Z.of_nat (length (a :: a' :: sel)))
          by (cbn [length]; lia).
        destruct (Z.eqb_spec (Z.of_nat (length (a :: a' :: sel))) 0); [lia|].
        cbn [mbind result_bind].
        destruct (Z.eqb_spec (Z.of_nat (length (a :: a' :: sel))) 1); [lia|].
        reflexivity. }
    exfalso. apply Hnone. exists a.
    destruct (filter_singleton _ _ _ Hfilter) as (before & after & -> & Hothers).
    exists before, after. split; [reflexivity|].
    intros b Hb.
    assert (Ha : column a = m).
    { apply py_eqb_eq.
      assert (Hina : In a (List.filter (fun a => py_eqb (column a) m)
                                       (before ++ a :: after)%list))
        by (rewrite Hfilter; now left).
      apply filter_In in Hina. tauto. }
    rewrite Ha.
    destruct (py_ltb_total m (column b)) as [Hlt|[Heq|Hgt]]; [assumption| |].
    + apply Hothers in Hb. rewrite Heq, py_eqb_refl in Hb. discriminate.
    + rewrite Hmin in Hgt; [discriminate|].
      apply in_map. apply in_app_iff in Hb. apply in_app_iff. simpl. tauto.
  - destruct (List.filter (fun a => py_eqb (column a) m) aggs)
      as [|a sel] eqn:Hfilter; [contradiction|].
    destruct (Z.eqb_spec (Z.of_nat (length (a :: sel))) 0) as [Hz|Hz];
      [cbn [length] in Hz; lia|].
    cbn [mbind result_bind].
    destruct (Z.of_nat (length (a :: sel)) =? 1); eauto.
Qed.

End SelectorRule.

(** With [max] as the measure: the row strictly above all others. *)
Lemma unique_cluster_id_max {V} `{PyOrdLaws V}
    (column : ClusterAggregate -> V) (aggs : list ClusterAggregate) :
  aggs <> [] ->
  (forall a,
     unique_winner (fun x y => py_ltb y x = true) column a aggs ->
     unique_cluster_id aggs column py_max = Ok (Some (cluster_id a))) /\
  ((~ exists a, unique_winner (fun x y => py_ltb y x = true) column a aggs) ->
   unique_cluster_id aggs column py_max = Ok None) /\
  (exists o, unique_cluster_id aggs column py_max = Ok o).
Proof.
  intros Hne.
  exact (@unique_cluster_id_min V (PyOrd_flip _) (PyOrdLaws_flip _ _)
           column aggs Hne).
Qed.

Lemma busiest_ltb (aggs : list ClusterAggregate) (a : ClusterAggregate) :
  busiest aggs a <-> unique_winner (fun x y => py_ltb y x = true) count a aggs.
Proof.
  unfold busiest, unique_winner. simpl.
  split; intros (before & after & Heq & Hb); exists before, after;
    (split; [exact Heq|]); intros b Hin; specialize (Hb b Hin);
    now apply Z.ltb_lt.
Qed.

Lemma tightest_ltb (aggs : list ClusterAggregate) (a : ClusterAggregate) :
  tightest aggs a <->
  unique_winner (fun x y => py_ltb x y = true) max_dist_from_centroid a aggs.
Proof.
  unfold tightest, unique_winner. simpl.
  split; intros (before & after & Heq & Hb); exists before, after;
    (split; [exact Heq|]); intros b Hin; specialize (Hb b Hin);
    now apply Rltb_lt.
Qed.

Lemma longest_ltb (aggs : list ClusterAggregate) (a : ClusterAggregate) :
  longest aggs a <-> unique_winner (fun x y => py_ltb y x = true) time_range a aggs.
Proof.
  unfold longest, unique_winner. simpl.
  split; intros (before & after & Heq & Hb); exists before, after;
    (split; [exact Heq|]); intros b Hin; specialize (Hb b Hin);
    now apply Qcltb_lt.
Qed.

Lemma not_ex_iff {A} (P Q : A -> Prop) :
  (forall a, P a <-> Q a) -> (~ exists a, P a) -> ~ exists a, Q a.
Proof. intros Hiff Hn [a Ha]. apply Hn. exists a. now apply Hiff. Qed.

(** C1: on a non-empty table of cluster aggregates the selector tries, in
    order, the strictly largest count, the strictly smallest
    max_dist_from_centroid and the strictly largest time_range; the first
    rule with a unique winner returns that cluster and the rule's reason, and
    when no rule has one the result is the pair (None, None), not an
    exception; in every case the selector returns and raises nothing. *)
Theorem determine_home_cluster_policy (aggs : list ClusterAggregate) :
  aggs <> [] ->
  (forall a, busiest aggs a ->
     determine_home_cluster aggs
     = Ok (Some (cluster_id a), Some "only one max cluster")) /\
  ((~ exists a, busiest aggs a) ->
   forall a, tightest aggs a ->
     determine_home_cluster aggs
     = Ok (Some (cluster_id a), Some "cluster with minimum distance")) /\
  ((~ exists a, busiest aggs a) -> (~ exists a, tightest aggs a) ->
   forall a, longest aggs a ->
     determine_home_cluster aggs
     = Ok (Some (cluster_id a), Some "cluster with maximum time range")) /\
  ((~ exists a, busiest aggs a) -> (~ exists a, tightest aggs a) ->
   (~ exists a, longest aggs a) ->
   determine_home_cluster aggs = Ok (None, None)) /\
  (exists decision, determine_home_cluster aggs = Ok decision).
Proof.
  intros Hne.
  destruct (unique_cluster_id_max count aggs Hne) as (Hc1 & Hc0 & oc & Hoc).
  destruct (unique_cluster_id_min max_dist_from_centroid aggs Hne)
    as (Hd1 & Hd0 & od & Hod).
  destruct (unique_cluster_id_max time_range aggs Hne) as (Ht1 & Ht0 & ot & Hot).
  assert (Hnc : (~ exists a, busiest aggs a) ->
                unique_cluster_id aggs count py_max = Ok None).
  { intros Hn. apply Hc0. revert Hn. apply not_ex_iff, busiest_ltb. }
  assert (Hnd : (~ exists a, tightest aggs a) ->
                unique_cluster_id aggs max_dist_from_centroid py_min = Ok None).
  { intros Hn. apply Hd0. revert Hn. apply not_ex_iff, tightest_ltb. }
  assert (Hnt : (~ exists a, longest aggs a) ->
                unique_cluster_id aggs time_range py_max = Ok None).
  { intros Hn. apply Ht0. revert Hn. apply not_ex_iff, longest_ltb. }
  unfold determine_home_cluster, HOME_RULES. cbn [determine_home_cluster_from
    rule_ord rule_column rule_measure rule_reason rule_type].
  repeat split.
  - intros a Ha. apply busiest_ltb in Ha. rewrite (Hc1 a Ha). reflexivity.
  - intros Hb a Ha. apply tightest_ltb in Ha.
    rewrite (Hnc Hb). cbn. rewrite (Hd1 a Ha). reflexivity.
  - intros Hb Hd a Ha. apply longest_ltb in Ha.
    rewrite (Hnc Hb). cbn. rewrite (Hnd Hd). cbn. rewrite (Ht1 a Ha). reflexivity.
  - intros Hb Hd Ht.
    rewrite (Hnc Hb). cbn. rewrite (Hnd Hd). cbn. rewrite (Hnt Ht). reflexivity.
  - rewrite Hoc. cbn. destruct oc; [eauto|].
    rewrite Hod. cbn. destruct od; [eauto|].
    rewrite Hot. cbn. destruct ot; eauto.
Qed.

(** The policy on two clusters tied on count: the tighter one is home. *)
Lemma determine_home_cluster_policy_witness :
  determine_home_cluster tied_counts
  = Ok (Some 1, Some "cluster with minimum distance").
Proof.
  destruct (determine_home_cluster_policy tied_counts) as (_ & Hdist & _).
  { discriminate. }
  refine (Hdist _ cluster_tight _); clear Hdist.
  - intros (a & before & after & Heq & Hbest). unfold tied_counts in Heq.
    destruct before as [|x [|y before]]; cbn [app] in Heq.
    + injection Heq as <- <-. specialize (Hbest _ (or_introl eq_refl)).
      cbn in Hbest. lia.
    + injection Heq as <- <- <-.
      specialize (Hbest _ (or_introl eq_refl)). cbn in Hbest. lia.
    + injection Heq as _ _ Heq. now apply app_cons_not_nil in Heq.
  - exists [cluster_wide], []. split; [reflexivity|].
    intros b [<-|[]]. cbn. lra.
Defined.

(** ** The home-period filter *)

Lemma home_period_In (df : list LocalizedTweet) (r : LocalizedTweet) :
  In r (home_period df) <-> In r df /\ weekday (dt r) <= 3 /\ 9 <= hour (dt r).
Proof.
  unfold home_period. rewrite !filter_In, Z.leb_le, Z.leb_le. tauto.
Qed.

(** The half of the specified window that the code does implement: a record
    from Monday to Thursday at 21:00 or later is kept. *)
Lemma home_period_keeps_evening (df : list LocalizedTweet) (r : LocalizedTweet) :
  In r df -> in_home_period_spec (dt r) = true -> In r (home_period df).
Proof.
  unfold in_home_period_spec. rewrite andb_true_iff, !Z.leb_le.
  intros Hin [Hday Hhour]. apply home_period_In. repeat split; [assumption|lia..].
Qed.

Lemma home_period_idempotent (df : list LocalizedTweet) :
  home_period (home_period df) = home_period df.
Proof.
  unfold home_period.
  induction df as [|r df IH]; simpl; [reflexivity|].
  destruct (weekday (dt r) <=? 3) eqn:Hd; simpl; [|exact IH].
  destruct (9 <=? hour (dt r)) eqn:Hh; simpl; [|exact IH].
  rewrite Hd. simpl. rewrite Hh. now rewrite IH.
Qed.

(** C3 (the code departs from the claim): a tweet sent in London at 10:00 on
    a Monday passes the home-period filter and reaches the clustering,
    although 10:00 is before the late-evening cutoff of 21:00; the test of
    the code is hour >= 9 on the 24-hour clock. *)
Theorem home_period_keeps_morning :
  preprocessing demo_ext [tweet_morning] = Ok [monday_morning] /\
  home_period [monday_morning] = [monday_morning] /\
  weekday (dt monday_morning) = 0 /\
  hour (dt monday_morning) = 10 /\
  in_home_period_spec (dt monday_morning) = false.
Proof. repeat split. Qed.

(** ** Burst removal *)

Lemma GoodCmp_string : GoodCmp String_as_OT.cmp.
Proof.
  split.
  - apply String_as_OT.cmp_eq.
  - intros a b. apply String_as_OT.cmp_antisym.
  - intros a b c. rewrite !String_as_OT.cmp_lt. apply String_as_OT.lt_trans.
Qed.

Lemma GoodCmp_Qc : GoodCmp Qccompare.
Proof.
  split.
  - intros a b. symmetry. apply Qceq_alt.
  - intros a b. unfold Qccompare. symmetry. apply Qcompare_antisym.
  - intros a b c. rewrite <- !Qclt_alt. apply Qclt_trans.
Qed.

Lemma GoodCmp_lex {A B} (ca : A -> A -> comparison) (cb : B -> B -> comparison) :
  GoodCmp ca -> GoodCmp cb ->
  GoodCmp (fun x y : A * B => lex (ca x.1 y.1) (cb x.2 y.2)).
Proof.
  intros [Ea Aa Ta] [Eb Ab Tb]. split.
  - intros [a1 b1] [a2 b2]. simpl. unfold lex.
    destruct (ca a1 a2) eqn:Hc.
    + apply Ea in Hc. subst. rewrite Eb. split; [now intros ->|congruence].
    + split; [discriminate|]. intros [= -> ->].
      assert (ca a2 a2 = Eq) by now apply Ea. congruence.
    + split; [discriminate|]. intros [= -> ->].
      assert (ca a2 a2 = Eq) by now apply Ea. congruence.
  - intros [a1 b1] [a2 b2]. simpl. unfold lex.
    rewrite (Aa a1 a2), (Ab b1 b2). now destruct (ca a1 a2).
  - intros [a1 b1] [a2 b2] [a3 b3]. simpl. unfold lex.
    destruct (ca a1 a2) eqn:H12; try discriminate;
      destruct (ca a2 a3) eqn:H23; try discriminate.
    + apply Ea in H12, H23. subst.
      replace (ca a3 a3) with Eq by (symmetry; now apply Ea). apply Tb.
    + apply Ea in H12. subst. now rewrite H23.
    + apply Ea in H23. subst. now rewrite H12.
    + now rewrite (Ta _ _ _ H12 H23).
Qed.

Lemma GoodCmp_key : GoodCmp key_compare.
Proof.
  pose proof (GoodCmp_lex _ _ GoodCmp_string
                (GoodCmp_lex _ _ GoodCmp_Qc GoodCmp_Qc)) as [E A T].
  split.
  - intros [[s x] y] [[s' x'] y']. specialize (E (s, (x, y)) (s', (x', y'))).
    unfold key_compare. simpl in *. rewrite E. split; congruence.
  - intros [[s x] y] [[s' x'] y']. exact (A (s, (x, y)) (s', (x', y'))).
  - intros [[s x] y] [[s' x'] y'] [[s'' x''] y''].
    exact (T (s, (x, y)) (s', (x', y')) (s'', (x'', y''))).
Qed.


Lemma key_lt_trans a b c : key_lt a b -> key_lt b c -> key_lt a c.
Proof. apply (cmp_trans _ GoodCmp_key). Qed.

Lemma key_compare_refl a : key_compare a a = Eq.
Proof. now apply (cmp_eq _ GoodCmp_key). Qed.

Lemma key_compare_gt a b : key_compare a b = Gt -> key_lt b a.
Proof.
  intros Hgt. unfold key_lt. rewrite (cmp_antisym _ GoodCmp_key a b), Hgt.
  reflexivity.
Qed.

Lemma same_burst_iff (a b : Tweet) : same_burst a b = true <-> burst_key a = burst_key b.
Proof.
  unfold same_burst. rewrite <- (cmp_eq _ GoodCmp_key).
  destruct (key_compare _ _); split; congruence.
Qed.

Lemma burst_key_first_merge (g t : Tweet) : burst_key (first_merge g t) = burst_key g.
Proof. reflexivity. Qed.

(** The rows after an insertion carry the new key or a key that was there. *)
Lemma groupby_insert_keys (t : Tweet) (groups : list Tweet) (k : string * Qc * Qc) :
  In k (map burst_key (groupby_insert t groups)) <->
  k = burst_key t \/ In k (map burst_key groups).
Proof.
  induction groups as [|g groups IH]; simpl.
  - intuition.
  - destruct (key_compare (burst_key t) (burst_key g)) eqn:Hc; simpl.
    + apply (cmp_eq _ GoodCmp_key) in Hc. rewrite Hc. intuition.
    + intuition.
    + rewrite IH. intuition.
Qed.

Lemma groupby_insert_sorted (t : Tweet) (groups : list Tweet) :
  StronglySorted key_lt (map burst_key groups) ->
  StronglySorted key_lt (map burst_key (groupby_insert t groups)).
Proof.
  induction groups as [|g groups IH]; simpl; intros Hs.
  - repeat constructor.
  - apply StronglySorted_inv in Hs. destruct Hs as [Hs Hall].
    destruct (key_compare (burst_key t) (burst_key g)) eqn:Hc; simpl.
    + constructor; assumption.
    + constructor; [constructor; assumption|].
      constructor; [exact Hc|].
      eapply List.Forall_impl; [|exact Hall]. intros k. now apply key_lt_trans.
    + constructor; [now apply IH|].
      apply List.Forall_forall. intros k Hk. apply groupby_insert_keys in Hk.
      destruct Hk as [->|Hk]; [now apply key_compare_gt|].
      rewrite List.Forall_forall in Hall. now apply Hall.
Qed.

Lemma groupby_first_snoc (df : list Tweet) (t : Tweet) :
  groupby_first (df ++ [t]) = groupby_insert t (groupby_first df).
Proof. unfold groupby_first. now rewrite fold_left_app. Qed.

Lemma groupby_first_sorted (df : list Tweet) :
  StronglySorted key_lt (map burst_key (groupby_first df)).
Proof.
  induction df as [|t df IH] using rev_ind.
  - constructor.
  - rewrite groupby_first_snoc. now apply groupby_insert_sorted.
Qed.

Lemma find_group_none (k : string * Qc * Qc) (groups : list Tweet) :
  Forall (key_lt k) (map burst_key groups) -> find_group k groups = None.
Proof.
  induction groups as [|g groups IH]; simpl; intros Hall; [reflexivity|].
  inversion Hall as [|? ? Hg Hrest]; subst.
  unfold key_lt in Hg. rewrite (cmp_antisym _ GoodCmp_key), Hg. simpl.
  now apply IH.
Qed.

Lemma find_group_insert (t : Tweet) (groups : list Tweet) (k : string * Qc * Qc) :
  StronglySorted key_lt (map burst_key groups) ->
  find_group k (groupby_insert t groups) =
  if decide (burst_key t = k)
  then Some (match find_group k groups with
             | Some g => first_merge g t
             | None => t
             end)
  else find_group k groups.
Proof.
  induction groups as [|g groups IH]; simpl; intros Hs.
  - destruct (decide (burst_key t = k)) as [<-|Hne].
    + now rewrite key_compare_refl.
    + destruct (key_compare (burst_key t) k) eqn:Hc; try reflexivity.
      now apply (cmp_eq _ GoodCmp_key) in Hc.
  - apply StronglySorted_inv in Hs. destruct Hs as [Hs Hall].
    destruct (key_compare (burst_key t) (burst_key g)) eqn:Hc; simpl.
    + apply (cmp_eq _ GoodCmp_key) in Hc.
      rewrite burst_key_first_merge, <- Hc.
      destruct (decide (burst_key t = k)) as [<-|Hne].
      * now rewrite key_compare_refl.
      * destruct (key_compare (burst_key t) k) eqn:Hk; try reflexivity.
        now apply (cmp_eq _ GoodCmp_key) in Hk.
    + destruct (decide (burst_key t = k)) as [<-|Hne].
      * rewrite key_compare_refl.
        rewrite (cmp_antisym _ GoodCmp_key), Hc. simpl.
        fold (find_group (burst_key t) groups).
        rewrite find_group_none; [reflexivity|].
        eapply List.Forall_impl; [|exact Hall]. intros k'. now apply key_lt_trans.
      * destruct (key_compare (burst_key t) k) eqn:Hk; try reflexivity.
        now apply (cmp_eq _ GoodCmp_key) in Hk.
    + fold (find_group k (groupby_insert t groups)).
      fold (find_group k groups). rewrite (IH Hs).
      destruct (key_compare (burst_key g) k) eqn:Hg; try reflexivity.
      apply (cmp_eq _ GoodCmp_key) in Hg. subst k.
      destruct (decide (burst_key t = burst_key g)) as [Heq|Hne]; [|reflexivity].
      rewrite Heq, key_compare_refl in Hc. discriminate.
Qed.

Lemma find_group_In (groups : list Tweet) (g : Tweet) :
  StronglySorted key_lt (map burst_key groups) ->
  In g groups -> find_group (burst_key g) groups = Some g.
Proof.
  induction groups as [|h groups IH]; simpl; intros Hs Hin; [contradiction|].
  apply StronglySorted_inv in Hs. destruct Hs as [Hs Hall].
  destruct Hin as [->|Hin].
  - now rewrite key_compare_refl.
  - rewrite List.Forall_forall in Hall.
    rewrite (Hall (burst_key g)) by now apply in_map.
    now apply IH.
Qed.

Lemma fold_first_merge (more : list Tweet) (t0 : Tweet) :
  fold_left first_merge more t0 =
  {| created_at := created_at t0;
     user_name := first_non_null (map user_name (t0 :: more));
     user_id := user_id t0;
     lon := lon t0;
     lat := lat t0 |}.
Proof.
  revert t0. induction more as [|m more IH]; intros t0; simpl.
  - destruct t0 as [c [n|] u lo la]; reflexivity.
  - rewrite IH. simpl. destruct (user_name t0); reflexivity.
Qed.

(** The row that [groupby_first] holds for a key: the first record of the
    group, its nulls filled from the later records of the group. *)
Lemma find_group_groupby_first (df : list Tweet) (k : string * Qc * Qc) :
  find_group k (groupby_first df) =
  match List.filter (fun t => bool_decide (burst_key t = k)) df with
  | [] => None
  | t0 :: more => Some (fold_left first_merge more t0)
  end.
Proof.
  induction df as [|t df IH] using rev_ind; [reflexivity|].
  rewrite groupby_first_snoc, find_group_insert by apply groupby_first_sorted.
  rewrite List.filter_app, IH. simpl.
  destruct (decide (burst_key t = k)) as [Heq|Hne].
  - rewrite bool_decide_eq_true_2 by assumption.
    destruct (List.filter _ df) as [|t0 more]; simpl; [reflexivity|].
    now rewrite fold_left_app.
  - rewrite bool_decide_eq_false_2 by assumption. now rewrite app_nil_r.
Qed.

Lemma groupby_first_keys (df : list Tweet) (k : string * Qc * Qc) :
  In k (map burst_key (groupby_first df)) <-> In k (map burst_key df).
Proof.
  induction df as [|t df IH] using rev_ind; [reflexivity|].
  rewrite groupby_first_snoc, groupby_insert_keys, IH, map_app, in_app_iff.
  simpl. intuition.
Qed.

Lemma groupby_insert_length (t : Tweet) (groups : list Tweet) :
  (length (groupby_insert t groups) <= S (length groups))%nat.
Proof.
  induction groups as [|g groups IH]; simpl; [lia|].
  destruct (key_compare _ _); simpl; lia.
Qed.

Lemma groupby_first_length (df : list Tweet) :
  (length (groupby_first df) <= length df)%nat.
Proof.
  induction df as [|t df IH] using rev_ind; [reflexivity|].
  rewrite groupby_first_snoc, length_app. simpl.
  pose proof (groupby_insert_length t (groupby_first df)). lia.
Qed.

Lemma same_burst_decide (g t : Tweet) :
  same_burst g t = bool_decide (burst_key t = burst_key g).
Proof.
  destruct (same_burst g t) eqn:Hs.
  - apply same_burst_iff in Hs. now rewrite bool_decide_eq_true_2.
  - rewrite bool_decide_eq_false_2; [reflexivity|].
    intros Heq. symmetry in Heq. apply same_burst_iff in Heq. congruence.
Qed.

(** What burst removal does: one row per key, ascending by key, each row the
    first record of its group with nulls filled from the group. *)
Lemma groupby_first_groups (df : list Tweet) :
  StronglySorted key_lt (map burst_key (groupby_first df)) /\
  (forall t, In t df ->
     exists g, In g (groupby_first df) /\ burst_key g = burst_key t) /\
  (forall g, In g (groupby_first df) ->
     exists t0 more,
       List.filter (same_burst g) df = t0 :: more /\
       burst_key g = burst_key t0 /\
       user_id g = user_id t0 /\
       user_name g = first_non_null (map user_name (t0 :: more)) /\
       (user_name t0 <> None -> g = t0)) /\
  (length (groupby_first df) <= length df)%nat.
Proof.
  split; [apply groupby_first_sorted|].
  split; [|split; [|apply groupby_first_length]].
  - intros t Hin.
    assert (Hk : In (burst_key t) (map burst_key (groupby_first df)))
      by (apply groupby_first_keys; now apply in_map).
    apply in_map_iff in Hk. destruct Hk as (g & Hg & Hing). now exists g.
  - intros g Hin.
    pose proof (find_group_In _ _ (groupby_first_sorted df) Hin) as Hfind.
    rewrite find_group_groupby_first in Hfind.
    rewrite (filter_ext _ _ (same_burst_decide g)).
    destruct (List.filter _ df) as [|t0 more]; [discriminate|].
    injection Hfind as Hg. rewrite fold_first_merge in Hg.
    exists t0, more. split; [reflexivity|]. subst g.
    repeat split. simpl. intros Hname.
    destruct t0 as [c [n|] u lo la]; [reflexivity|]. now contradiction Hname.
Qed.

(** C4 as stated fails.  The store returns the tweet of Tuesday 2 January
    before that of Monday 8 January; burst removal returns them ordered by
    the text of created_at, the Monday one first, where keeping the first
    record of each group in the original order would leave the list as it
    is.  And of two records of one burst, the first without a user name,
    burst removal returns a row with the name of the second, which is not the
    first record. *)
Lemma groupby_first_reorders :
  (groupby_first [tweet_tue; tweet_mon] = [tweet_mon; tweet_tue] /\
   first_of_each_group [tweet_tue; tweet_mon] = [tweet_tue; tweet_mon] /\
   groupby_first [tweet_tue; tweet_mon]
   <> first_of_each_group [tweet_tue; tweet_mon]) /\
  (groupby_first [tweet_tue_unnamed; tweet_tue] = [tweet_tue] /\
   first_of_each_group [tweet_tue_unnamed; tweet_tue] = [tweet_tue_unnamed] /\
   groupby_first [tweet_tue_unnamed; tweet_tue]
   <> first_of_each_group [tweet_tue_unnamed; tweet_tue]).
Proof.
  assert (H1 : groupby_first [tweet_tue; tweet_mon] = [tweet_mon; tweet_tue])
    by reflexivity.
  assert (H2 : first_of_each_group [tweet_tue; tweet_mon] = [tweet_tue; tweet_mon])
    by reflexivity.
  assert (H3 : groupby_first [tweet_tue_unnamed; tweet_tue] = [tweet_tue])
    by reflexivity.
  assert (H4 : first_of_each_group [tweet_tue_unnamed; tweet_tue]
               = [tweet_tue_unnamed]) by reflexivity.
  split; (split; [assumption|split; [assumption|]]).
  - rewrite H1, H2. now intros [=].
  - rewrite H3, H4. now intros [=].
Qed.

(** ** Localization *)

Lemma lookup_tz_eq (ext : Externals) (lo la : Qc)
    (timezones : gmap (option string) (option pytz_tz)) :
  lookup_tz ext lo la timezones =
  match timezone_at ext lo la with
  | Raise e => (timezones, Raise e)
  | Ok tz_name =>
      match timezones !! tz_name with
      | Some cached => (timezones, Ok cached)
      | None =>
          match pytz_timezone ext tz_name with
          | Ok zone => (<[tz_name := Some zone]> timezones, Ok (Some zone))
          | Raise AttributeError => (<[tz_name := None]> timezones, Ok None)
          | Raise e => (timezones, Raise e)
          end
      end
  end.
Proof.
  unfold lookup_tz.
  destruct (timezone_at ext lo la) as [tz_name|e]; [|reflexivity].
  st_unfold. destruct (timezones !! tz_name) as [cached|] eqn:Hc.
  - rewrite bool_decide_eq_false_2 by congruence. now rewrite Hc.
  - rewrite bool_decide_eq_true_2 by reflexivity.
    destruct (pytz_timezone ext tz_name) as [zone|e].
    + now rewrite lookup_insert_eq.
    + destruct e; try reflexivity. now rewrite lookup_insert_eq.
Qed.

Lemma get_localized_dt_eq (ext : Externals) (t : Tweet) (parsed : datetime)
    (timezones : gmap (option string) (option pytz_tz)) :
  dateutil_parse ext (created_at t) = Ok parsed ->
  get_localized_dt ext t timezones =
  match lookup_tz ext (lon t) (lat t) timezones with
  | (timezones', Ok (Some zone)) =>
      (timezones', Ok match astimezone ext parsed zone with
                      | Ok d => d
                      | Raise _ => parsed
                      end)
  | (timezones', _) => (timezones', Ok parsed)
  end.
Proof.
  intros Hparse. unfold get_localized_dt. rewrite Hparse. st_unfold.
  destruct (lookup_tz ext (lon t) (lat t) timezones) as [timezones' [[zone|]|e]];
    try reflexivity.
  destruct (astimezone ext parsed zone); reflexivity.
Qed.

(** With every timestamp parsed, the localization step returns a row for
    every tweet whatever the time-zone routines do. *)
Lemma df_apply_localize_total (ext : Externals) (df : list Tweet)
    (timezones : gmap (option string) (option pytz_tz)) :
  (forall t, In t df -> is_ok (dateutil_parse ext (created_at t)) = true) ->
  exists rows,
    (df_apply (fun t => d ← get_localized_dt ext t;
                        mret {| tweet := t; dt := d |}) df timezones).2 = Ok rows /\
    map tweet rows = df.
Proof.
  revert timezones. induction df as [|t df IH]; intros timezones Hparse.
  - exists []. split; reflexivity.
  - st_unfold in IH.
    assert (Ht : is_ok (dateutil_parse ext (created_at t)) = true)
      by (apply Hparse; now left).
    destruct (dateutil_parse ext (created_at t)) as [parsed|] eqn:Hp;
      [|discriminate].
    cbn [df_apply]. st_unfold.
    rewrite (get_localized_dt_eq _ _ _ _ Hp).
    assert (Hstep : exists timezones' d,
               match lookup_tz ext (lon t) (lat t) timezones with
               | (timezones', Ok (Some zone)) =>
                   (timezones', Ok match astimezone ext parsed zone with
                                   | Ok d => d
                                   | Raise _ => parsed
                                   end)
               | (timezones', _) => (timezones', Ok parsed)
               end = (timezones', Ok d)).
    { destruct (lookup_tz ext (lon t) (lat t) timezones)
        as [timezones' [[zone|]|e]]; eauto. }
    destruct Hstep as (timezones' & d & ->). cbn.
    destruct (IH timezones') as (rows & Hrows & Hmap).
    { intros t' Hin. apply Hparse. now right. }
    destruct (df_apply _ df timezones') as [s r]. simpl in Hrows. subst r.
    exists ({| tweet := t; dt := d |} :: rows). split; [reflexivity|].
    simpl. now rewrite Hmap.
Qed.

Lemma localize_datetimes_total (ext : Externals) (df : list Tweet) :
  (forall t, In t df -> is_ok (dateutil_parse ext (created_at t)) = true) ->
  exists rows, localize_datetimes ext df = Ok rows /\ map tweet rows = df.
Proof. intros Hparse. now apply df_apply_localize_total. Qed.

(** Once the timestamp of a tweet is parsed, get_localized_dt returns a
    datetime and never raises; it returns the parsed, unlocalized timestamp
    whenever the lookup finds no recognizable zone or the conversion to the
    zone raises; and the localization of a whole frame fails for no tweet on
    account of its time zone. *)
Theorem get_localized_dt_falls_back (ext : Externals) (t : Tweet)
    (parsed : datetime) (timezones : gmap (option string) (option pytz_tz)) :
  dateutil_parse ext (created_at t) = Ok parsed ->
  (exists timezones' d, get_localized_dt ext t timezones = (timezones', Ok d)) /\
  (no_recognizable_zone ext timezones t \/ localization_fails ext timezones t parsed ->
   exists timezones', get_localized_dt ext t timezones = (timezones', Ok parsed)) /\
  (forall df,
     (forall t', In t' df -> is_ok (dateutil_parse ext (created_at t')) = true) ->
     exists rows, localize_datetimes ext df = Ok rows /\ map tweet rows = df).
Proof.
  intros Hparse. rewrite (get_localized_dt_eq _ _ _ _ Hparse), lookup_tz_eq.
  split; [|split].
  - destruct (timezone_at ext (lon t) (lat t)) as [tz_name|e]; [|eauto].
    destruct (timezones !! tz_name) as [[zone|]|]; eauto.
    destruct (pytz_timezone ext tz_name) as [zone|[]]; eauto.
  - intros [[(e & He)|(tz_name & Hname & Hcase)]
           |(tz_name & zone & Hname & Hcase & e & He)].
    + rewrite He. eauto.
    + rewrite Hname.
      destruct Hcase as [(Hnew & e & He)|Hold].
      * rewrite Hnew, He. destruct e; eauto.
      * rewrite Hold. eauto.
    + rewrite Hname.
      destruct Hcase as [(Hnew & Hzone)|Hold].
      * rewrite Hnew, Hzone, He. eauto.
      * rewrite Hold, He. eauto.
  - apply localize_datetimes_total.
Qed.

(** At sea the lookup has no zone and the parsed timestamp comes back. *)
Lemma get_localized_dt_falls_back_witness :
  exists timezones',
    get_localized_dt demo_ext tweet_at_sea ∅ = (timezones', Ok (jan2018 2 22)).
Proof.
  destruct (get_localized_dt_falls_back demo_ext tweet_at_sea (jan2018 2 22) ∅)
    as (_ & Hback & _).
  { reflexivity. }
  apply Hback. left. right. exists None. split; [reflexivity|].
  left. split; [reflexivity|]. exists AttributeError. reflexivity.
Defined.

(** ** The function [dbscan] *)

Lemma made_dirs_only_dirs (ext : Externals) (e : event) :
  In e (made_dirs ext) -> exists directory, e = Makedirs directory.
Proof.
  unfold made_dirs. rewrite in_app_iff.
  destruct (os_path_isdir ext CLUSTERS_OUTPUT),
           (os_path_isdir ext AGGREGATES_OUTPUT); simpl; intuition eauto.
Qed.

(** The start of [dbscan] and its preprocessing, executed. *)
Lemma dbscan_eq (ext : Externals) (t : Tweet) (rest : list Tweet)
    (trace : list event) :
  dbscan ext (t :: rest) trace =
  match localize_datetimes ext (groupby_first (t :: rest)) with
  | Raise e => ((trace ++ made_dirs ext)%list, Raise e)
  | Ok rows =>
      let n_burst := Z.of_nat (length (t :: rest))
                     - Z.of_nat (length (groupby_first (t :: rest))) in
      let df := home_period rows in
      let info := debug_info_preprocessed n_burst (Z.of_nat (length df)) in
      if Z.of_nat (length df) =? 0 then
        ((trace ++ made_dirs ext)%list,
         Ok (home_decision_dict (PInt (-1))
               (PStr "no tweets in desired time range") PNone PNone PNone
             ∪ info))
      else
        dbscan_cluster ext (user_id t) df
          (<["clustering_attempted" := PInt 1]> info)
          (trace ++ made_dirs ext)%list
  end.
Proof.
  unfold dbscan, makedirs_if_missing, made_dirs, debug_info_preprocessed.
  st_unfold.
  destruct (os_path_isdir ext CLUSTERS_OUTPUT),
           (os_path_isdir ext AGGREGATES_OUTPUT);
    rewrite ?app_nil_r, <- ?app_assoc; simpl app;
    destruct (localize_datetimes ext (groupby_first (t :: rest))) as [rows|e];
    try reflexivity;
    destruct (Z.of_nat (length (home_period rows)) =? 0); reflexivity.
Qed.

Lemma value_counts_snoc (values : list string) (v : string) :
  value_counts (values ++ [v]) =
  <[v := default 0 (value_counts values !! v) + 1]> (value_counts values).
Proof. unfold value_counts. now rewrite fold_left_app. Qed.

(** A type that occurs is counted, one that does not occur is absent. *)
Lemma value_counts_lookup (values : list string) (s : string) :
  value_counts values !! s =
  let n := Z.of_nat (length (List.filter (fun v => String.eqb v s) values)) in
  if n =? 0 then None else Some n.
Proof.
  induction values as [|v values IH] using rev_ind; [reflexivity|].
  rewrite value_counts_snoc, List.filter_app, length_app. cbn zeta in *.
  set (n := length (List.filter (fun v => String.eqb v s) values)) in *.
  simpl List.filter.
  destruct (String.eqb_spec v s) as [->|Hne].
  - rewrite lookup_insert_eq, IH. simpl length.
    destruct (Z.eqb_spec (Z.of_nat n) 0) as [Hz|Hz];
      destruct (Z.eqb_spec (Z.of_nat (n + 1)) 0) as [Hz'|Hz'];
      try lia; simpl; f_equal; lia.
  - rewrite lookup_insert_ne by assumption. rewrite IH. simpl length.
    now rewrite Nat.add_0_r.
Qed.

Lemma value_counts_count_type (results : list ClusterResult) (s : string) :
  match value_counts (map res_type results) !! s with
  | Some n => n
  | None => 0
  end = count_type s results.
Proof.
  rewrite value_counts_lookup. cbn zeta. unfold count_type.
  assert (Hlen : length (List.filter (fun v => String.eqb v s) (map res_type results))
                 = length (List.filter (fun r => String.eqb (res_type r) s) results)).
  { induction results as [|r results IH]; simpl; [reflexivity|].
    destruct (String.eqb (res_type r) s); simpl; now rewrite IH. }
  rewrite Hlen.
  destruct (Z.eqb_spec (Z.of_nat (length (List.filter
              (fun r => String.eqb (res_type r) s) results))) 0) as [Hz|Hz];
    congruence.
Qed.

(** When every row has one of the three types, the three counts add up to
    the number of rows. *)
Lemma count_type_sum (results : list ClusterResult) :
  (forall r, In r results -> In (res_type r) DBSCAN_CLUSTER_TYPES) ->
  count_type "core" results + count_type "boundary" results
  + count_type "noise" results = Z.of_nat (length results).
Proof.
  unfold count_type.
  induction results as [|r results IH]; intros Htypes; [reflexivity|].
  assert (Hr : In (res_type r) DBSCAN_CLUSTER_TYPES) by (apply Htypes; now left).
  assert (IH' := IH (fun r' Hin => Htypes r' (or_intror Hin))).
  simpl in Hr. simpl List.filter.
  destruct Hr as [<-|[<-|[<-|[]]]]; simpl; lia.
Qed.

Lemma count_type_nonneg (s : string) (results : list ClusterResult) :
  0 <= count_type s results.
Proof. unfold count_type. lia. Qed.

(** The section "DBSCAN", executed. *)
Lemma dbscan_cluster_eq (ext : Externals) (uid : Z) (df : list LocalizedTweet)
    (info : pydict) (trace : list event) :
  dbscan_cluster ext uid df info trace =
  let trace1 := (trace ++ [DbscanCreate (lon_lat_columns df)])%list in
  match turicreate_dbscan_create ext (lon_lat_columns df) EPS MIN_POINTS with
  | Raise e => (trace1, Raise e)
  | Ok results =>
      let info1 := debug_info_clustered results info in
      if forallb (fun res => bool_decide (res_cluster_id res = None)) results then
        (trace1, Ok (home_decision_dict (PInt (-1)) (PStr "no clusters")
                       PNone PNone PNone ∪ info1))
      else dbscan_decide uid df results info1 trace1
  end.
Proof.
  unfold dbscan_cluster. st_unfold.
  destruct (turicreate_dbscan_create ext (lon_lat_columns df) EPS MIN_POINTS)
    as [results|e]; [|reflexivity].
  cbn [fold_left DBSCAN_CLUSTER_TYPES].
  rewrite !value_counts_count_type.
  change (counter_key "core") with "n_dbscan_core_tweets".
  change (counter_key "boundary") with "n_dbscan_boundary_tweets".
  change (counter_key "noise") with "n_dbscan_noise_tweets".
  fold (debug_info_clustered results info).
  destruct (forallb _ results); reflexivity.
Qed.

(** Whatever the last two sections decide, the dict returned is a decision
    dict laid over the debug information. *)
Lemma dbscan_decide_inv (uid : Z) (df : list LocalizedTweet)
    (results : list ClusterResult) (info : pydict) (trace trace' : list event)
    (d : pydict) :
  dbscan_decide uid df results info trace = (trace', Ok d) ->
  (exists id reason lo la n, d = home_decision_dict id reason lo la n ∪ info) /\
  (exists more, trace' = (trace ++ more)%list).
Proof.
  unfold dbscan_decide. st_unfold.
  destruct (core_points (merge_results df results)) as [core|e]; [|discriminate].
  destruct (create_cluster_aggregates core) as [aggs|e]; [|discriminate].
  destruct (determine_home_cluster aggs) as [[hid reason]|e]; [|discriminate].
  destruct hid as [id|].
  - destruct (List.filter _ aggs) as [|home others]; [discriminate|].
    cbn [merge_dicts fold_left]. unfold dict_update.
    intros Heq. injection Heq as <- <-. split.
    + do 5 eexists. reflexivity.
    + rewrite <- app_assoc. eexists. reflexivity.
  - cbn [merge_dicts fold_left]. unfold dict_update.
    intros Heq. injection Heq as <- <-. split.
    + do 5 eexists. reflexivity.
    + rewrite <- app_assoc. eexists. reflexivity.
Qed.

Lemma home_decision_dict_lookup (id reason lo la n : pyval) :
  let hd := home_decision_dict id reason lo la n in
  hd !! "home_cluster_id" = Some id /\
  hd !! "home_cluster_reason" = Some reason /\
  hd !! "home_cluster_centroid_lon" = Some lo /\
  hd !! "home_cluster_centroid_lat" = Some la /\
  hd !! "home_cluster_count" = Some n /\
  hd !! "clustering_attempted" = None /\
  hd !! "n_burst_tweets" = None /\
  hd !! "n_home_period_tweets" = None /\
  hd !! "n_dbscan_core_tweets" = None /\
  hd !! "n_dbscan_boundary_tweets" = None /\
  hd !! "n_dbscan_noise_tweets" = None.
Proof. cbv zeta. repeat split; vm_compute; reflexivity. Qed.

Lemma debug_info_preprocessed_lookup (n_burst n_home : Z) :
  let info := debug_info_preprocessed n_burst n_home in
  info !! "clustering_attempted" = Some (PInt 0) /\
  info !! "n_burst_tweets" = Some (PInt n_burst) /\
  info !! "n_home_period_tweets" = Some (PInt n_home) /\
  info !! "n_dbscan_core_tweets" = Some PNone /\
  info !! "n_dbscan_boundary_tweets" = Some PNone /\
  info !! "n_dbscan_noise_tweets" = Some PNone /\
  (forall k, In k decision_keys -> info !! k = None).
Proof.
  cbv zeta. repeat split; try (vm_compute; reflexivity).
  intros k Hk. simpl in Hk.
  destruct Hk as [<-|[<-|[<-|[<-|[<-|[]]]]]]; vm_compute; reflexivity.
Qed.

Lemma preprocessing_inv (ext : Externals) (tweets_df : list Tweet)
    (df : list LocalizedTweet) :
  preprocessing ext tweets_df = Ok df <->
  exists rows, localize_datetimes ext (groupby_first tweets_df) = Ok rows /\
               df = home_period rows.
Proof.
  unfold preprocessing.
  destruct (localize_datetimes ext (groupby_first tweets_df)) as [rows|e]; cbn.
  - split.
    + intros [= <-]. now exists rows.
    + intros (rows' & [= <-] & ->). reflexivity.
  - split; [discriminate|]. intros (rows' & Hrows & _). discriminate.
Qed.

Lemma length_zero_iff {A} (l : list A) :
  (Z.of_nat (length l) =? 0) = true <-> l = [].
Proof.
  rewrite Z.eqb_eq. destruct l; simpl; split; try reflexivity; try lia.
  discriminate.
Qed.

(** Every dict that [dbscan] returns, with the trace it leaves. *)
Lemma dbscan_inv (ext : Externals) (tweets_df : list Tweet)
    (trace trace' : list event) (d : pydict) :
  dbscan ext tweets_df trace = (trace', Ok d) ->
  exists df,
    tweets_df <> [] /\
    preprocessing ext tweets_df = Ok df /\
    let n_burst := Z.of_nat (length tweets_df)
                   - Z.of_nat (length (groupby_first tweets_df)) in
    let info := debug_info_preprocessed n_burst (Z.of_nat (length df)) in
    ((df = [] /\
      trace' = (trace ++ made_dirs ext)%list /\
      d = home_decision_dict (PInt (-1))
            (PStr "no tweets in desired time range") PNone PNone PNone ∪ info)
     \/
     (df <> [] /\
      exists results more id reason lo la n,
        turicreate_dbscan_create ext (lon_lat_columns df) EPS MIN_POINTS
        = Ok results /\
        trace' = (trace ++ made_dirs ext
                  ++ DbscanCreate (lon_lat_columns df) :: more)%list /\
        d = home_decision_dict id reason lo la n
            ∪ debug_info_clustered results
                (<["clustering_attempted" := PInt 1]> info))).
Proof.
  destruct tweets_df as [|t rest]; [discriminate|].
  rewrite dbscan_eq.
  destruct (localize_datetimes ext (groupby_first (t :: rest))) as [rows|e] eqn:Hl;
    [|discriminate].
  cbv zeta. intros Hrun. exists (home_period rows).
  split; [discriminate|]. split; [apply preprocessing_inv; eauto|].
  destruct (Z.of_nat (length (home_period rows)) =? 0) eqn:Hlen.
  - left. apply length_zero_iff in Hlen. injection Hrun as <- <-.
    rewrite Hlen. auto.
  - right. split.
    { intros Hnil. apply length_zero_iff in Hnil. congruence. }
    rewrite dbscan_cluster_eq in Hrun. cbv zeta in Hrun.
    destruct (turicreate_dbscan_create ext _ EPS MIN_POINTS) as [results|e];
      [|discriminate].
    exists results.
    destruct (forallb _ results).
    + injection Hrun as <- <-. exists []. do 5 eexists.
      split; [reflexivity|]. split; [now rewrite <- app_assoc|reflexivity].
    + apply dbscan_decide_inv in Hrun.
      destruct Hrun as ((id & reason & lo & la & n & ->) & more & ->).
      exists more, id, reason, lo, la, n.
      split; [reflexivity|]. split; [|reflexivity].
      now rewrite <- !app_assoc.
Qed.

Lemma debug_info_clustered_lookup (results : list ClusterResult) (info : pydict) :
  let info1 := debug_info_clustered results info in
  info1 !! "n_dbscan_core_tweets" = Some (PInt (count_type "core" results)) /\
  info1 !! "n_dbscan_boundary_tweets" = Some (PInt (count_type "boundary" results)) /\
  info1 !! "n_dbscan_noise_tweets" = Some (PInt (count_type "noise" results)) /\
  (forall k, ~ In k counter_keys -> info1 !! k = info !! k).
Proof.
  cbv zeta. unfold debug_info_clustered. repeat split.
  - rewrite lookup_insert_ne by discriminate.
    rewrite lookup_insert_ne by discriminate. apply lookup_insert_eq.
  - rewrite lookup_insert_ne by discriminate. apply lookup_insert_eq.
  - apply lookup_insert_eq.
  - intros k Hk. unfold counter_keys in Hk. simpl in Hk.
    rewrite !lookup_insert_ne; [reflexivity|intros <-; apply Hk; vm_compute; tauto..].
Qed.

(** C5: when no tweet is left by burst removal, localization and the
    home-period filter, dbscan returns home_cluster_id = -1 with the reason
    "no tweets in desired time range" and null centroid longitude, centroid
    latitude and count; the only events it adds to the trace are the
    directories it creates, so the clusterer is not invoked. *)
Theorem dbscan_no_tweets_in_range (ext : Externals) (tweets_df : list Tweet)
    (trace : list event) :
  tweets_df <> [] ->
  preprocessing ext tweets_df = Ok [] ->
  exists d,
    dbscan ext tweets_df trace = ((trace ++ made_dirs ext)%list, Ok d) /\
    d !! "home_cluster_id" = Some (PInt (-1)) /\
    d !! "home_cluster_reason" = Some (PStr "no tweets in desired time range") /\
    d !! "home_cluster_centroid_lon" = Some PNone /\
    d !! "home_cluster_centroid_lat" = Some PNone /\
    d !! "home_cluster_count" = Some PNone /\
    forall points, ~ In (DbscanCreate points) (made_dirs ext).
Proof.
  intros Hne Hpre. destruct tweets_df as [|t rest]; [congruence|].
  apply preprocessing_inv in Hpre. destruct Hpre as (rows & Hrows & Hnil).
  rewrite dbscan_eq, Hrows. cbv zeta. rewrite <- Hnil.
    change (Z.of_nat (length (@nil LocalizedTweet)) =? 0) with true. cbv iota.
  eexists. split; [reflexivity|].
  pose proof (home_decision_dict_lookup (PInt (-1))
                (PStr "no tweets in desired time range") PNone PNone PNone)
    as (H1 & H2 & H3 & H4 & H5 & _).
  repeat split; try (now apply lookup_union_Some_l).
  intros points Hin. apply made_dirs_only_dirs in Hin.
  destruct Hin as [directory Hin]. discriminate.
Qed.

(** C6: when tweets are left, the clusterer runs and gives every point a null
    cluster id, dbscan returns home_cluster_id = -1 with the reason
    "no clusters" and null centroid longitude, centroid latitude and count. *)
Theorem dbscan_no_clusters (ext : Externals) (tweets_df : list Tweet)
    (trace : list event) (df : list LocalizedTweet)
    (results : list ClusterResult) :
  tweets_df <> [] ->
  preprocessing ext tweets_df = Ok df ->
  df <> [] ->
  turicreate_dbscan_create ext (lon_lat_columns df) EPS MIN_POINTS = Ok results ->
  (forall r, In r results -> res_cluster_id r = None) ->
  exists d,
    dbscan ext tweets_df trace
    = ((trace ++ made_dirs ext ++ [DbscanCreate (lon_lat_columns df)])%list, Ok d) /\
    d !! "home_cluster_id" = Some (PInt (-1)) /\
    d !! "home_cluster_reason" = Some (PStr "no clusters") /\
    d !! "home_cluster_centroid_lon" = Some PNone /\
    d !! "home_cluster_centroid_lat" = Some PNone /\
    d !! "home_cluster_count" = Some PNone.
Proof.
  intros Hne Hpre Hdf Hres Hnull. destruct tweets_df as [|t rest]; [congruence|].
  apply preprocessing_inv in Hpre. destruct Hpre as (rows & Hrows & ->).
  rewrite dbscan_eq, Hrows. cbv zeta.
  destruct (Z.of_nat (length (home_period rows)) =? 0) eqn:Hlen.
  { apply length_zero_iff in Hlen. congruence. }
  rewrite dbscan_cluster_eq. cbv zeta. rewrite Hres.
  assert (Hall : forallb (fun res => bool_decide (res_cluster_id res = None)) results
                 = true).
  { apply forallb_forall. intros r Hr. apply bool_decide_eq_true_2. auto. }
  rewrite Hall, <- app_assoc.
  eexists. split; [reflexivity|].
  pose proof (home_decision_dict_lookup (PInt (-1)) (PStr "no clusters")
                PNone PNone PNone) as (H1 & H2 & H3 & H4 & H5 & _).
  repeat split; now apply lookup_union_Some_l.
Qed.

(** C7: whenever dbscan returns with clustering attempted, the clusterer was
    invoked on the coordinates of the home-period frame and returned a table,
    and the three counters of the returned dict are integers, the number of
    rows of that table of the types core, boundary and noise (0 when a type
    does not occur); when the table has one row per point, each of one of
    the three types, they add up to the number of points passed to the
    clusterer. *)
Theorem dbscan_counters (ext : Externals) (tweets_df : list Tweet)
    (trace trace' : list event) (d : pydict) :
  dbscan ext tweets_df trace = (trace', Ok d) ->
  d !! "clustering_attempted" = Some (PInt 1) ->
  exists df results more,
    preprocessing ext tweets_df = Ok df /\
    trace' = (trace ++ made_dirs ext
              ++ DbscanCreate (lon_lat_columns df) :: more)%list /\
    turicreate_dbscan_create ext (lon_lat_columns df) EPS MIN_POINTS = Ok results /\
    d !! "n_dbscan_core_tweets" = Some (PInt (count_type "core" results)) /\
    d !! "n_dbscan_boundary_tweets" = Some (PInt (count_type "boundary" results)) /\
    d !! "n_dbscan_noise_tweets" = Some (PInt (count_type "noise" results)) /\
    0 <= count_type "core" results /\
    0 <= count_type "boundary" results /\
    0 <= count_type "noise" results /\
    (length results = length (lon_lat_columns df) ->
     (forall r, In r results -> In (res_type r) DBSCAN_CLUSTER_TYPES) ->
     count_type "core" results + count_type "boundary" results
     + count_type "noise" results = Z.of_nat (length (lon_lat_columns df))).
Proof.
  intros Hrun Hflag. apply dbscan_inv in Hrun.
  destruct Hrun as (df & Hne & Hpre & Hcases). cbv zeta in Hcases.
  destruct Hcases as [(-> & _ & ->)
                     |(Hdf & results & more & id & reason & lo & la & n
                       & Hres & -> & ->)].
  - exfalso.
    pose proof (home_decision_dict_lookup (PInt (-1))
                  (PStr "no tweets in desired time range") PNone PNone PNone)
      as (_ & _ & _ & _ & _ & Hnone & _).
    rewrite lookup_union_r in Hflag by exact Hnone.
    pose proof (debug_info_preprocessed_lookup
                  (Z.of_nat (length tweets_df)
                   - Z.of_nat (length (groupby_first tweets_df)))
                  (Z.of_nat (@length LocalizedTweet []))) as (H0 & _).
    rewrite H0 in Hflag. discriminate Hflag.
  - exists df, results, more.
    pose proof (home_decision_dict_lookup id reason lo la n)
      as (_ & _ & _ & _ & _ & _ & _ & _ & Hc & Hb & Hn).
    pose proof (debug_info_clustered_lookup results
                  (<["clustering_attempted" := PInt 1]>
                     (debug_info_preprocessed
                        (Z.of_nat (length tweets_df)
                         - Z.of_nat (length (groupby_first tweets_df)))
                        (Z.of_nat (length df))))) as (Hc' & Hb' & Hn' & _).
    split; [exact Hpre|]. split; [reflexivity|]. split; [exact Hres|].
    split; [rewrite lookup_union_r by exact Hc; exact Hc'|].
    split; [rewrite lookup_union_r by exact Hb; exact Hb'|].
    split; [rewrite lookup_union_r by exact Hn; exact Hn'|].
    repeat (split; [apply count_type_nonneg|]).
    intros Hlen Htypes. rewrite <- Hlen. now apply count_type_sum.
Qed.

(** C10: when the home-period frame is empty, dbscan returns a dict with
    clustering_attempted = 0 and the three counters null; and in every dict
    that dbscan returns, clustering_attempted is 1 exactly when a tweet was
    left by the home-period filter, and 0 otherwise. *)
Theorem dbscan_clustering_attempted (ext : Externals) (tweets_df : list Tweet)
    (trace : list event) :
  (tweets_df <> [] -> preprocessing ext tweets_df = Ok [] ->
   exists trace' d,
     dbscan ext tweets_df trace = (trace', Ok d) /\
     d !! "clustering_attempted" = Some (PInt 0) /\
     d !! "n_dbscan_core_tweets" = Some PNone /\
     d !! "n_dbscan_boundary_tweets" = Some PNone /\
     d !! "n_dbscan_noise_tweets" = Some PNone) /\
  (forall trace' d,
     dbscan ext tweets_df trace = (trace', Ok d) ->
     exists df flag,
       preprocessing ext tweets_df = Ok df /\
       d !! "clustering_attempted" = Some (PInt flag) /\
       (flag = 1 <-> df <> []) /\
       (flag = 0 <-> df = [])).
Proof.
  split.
  - intros Hne Hpre. destruct tweets_df as [|t rest]; [congruence|].
    apply preprocessing_inv in Hpre. destruct Hpre as (rows & Hrows & Hnil).
    rewrite dbscan_eq, Hrows. cbv zeta. rewrite <- Hnil.
    change (Z.of_nat (length (@nil LocalizedTweet)) =? 0) with true. cbv iota.
    do 2 eexists. split; [reflexivity|].
    pose proof (home_decision_dict_lookup (PInt (-1))
                  (PStr "no tweets in desired time range") PNone PNone PNone)
      as (_ & _ & _ & _ & _ & Ha & _ & _ & Hc & Hb & Hn).
    pose proof (debug_info_preprocessed_lookup
                  (Z.of_nat (length (t :: rest))
                   - Z.of_nat (length (groupby_first (t :: rest))))
                  (Z.of_nat (@length LocalizedTweet [])))
      as (Ha' & _ & _ & Hc' & Hb' & Hn' & _).
    split; [rewrite lookup_union_r by exact Ha; exact Ha'|].
    split; [rewrite lookup_union_r by exact Hc; exact Hc'|].
    split; [rewrite lookup_union_r by exact Hb; exact Hb'|].
    rewrite lookup_union_r by exact Hn. exact Hn'.
  - intros trace' d Hrun. apply dbscan_inv in Hrun.
    destruct Hrun as (df & Hne & Hpre & Hcases). cbv zeta in Hcases.
    exists df.
    destruct Hcases as [(-> & _ & ->)
                       |(Hdf & results & more & id & reason & lo & la & n
                         & Hres & -> & ->)].
    + exists 0. split; [exact Hpre|].
      pose proof (home_decision_dict_lookup (PInt (-1))
                    (PStr "no tweets in desired time range") PNone PNone PNone)
        as (_ & _ & _ & _ & _ & Ha & _).
      pose proof (debug_info_preprocessed_lookup
                    (Z.of_nat (length tweets_df)
                     - Z.of_nat (length (groupby_first tweets_df)))
                    (Z.of_nat (@length LocalizedTweet []))) as (Ha' & _).
      split; [rewrite lookup_union_r by exact Ha; exact Ha'|].
      split; split; intros; congruence.
    + exists 1. split; [exact Hpre|].
      pose proof (home_decision_dict_lookup id reason lo la n)
        as (_ & _ & _ & _ & _ & Ha & _).
      pose proof (debug_info_clustered_lookup results
                    (<["clustering_attempted" := PInt 1]>
                       (debug_info_preprocessed
                          (Z.of_nat (length tweets_df)
                           - Z.of_nat (length (groupby_first tweets_df)))
                          (Z.of_nat (length df)))))
        as (_ & _ & _ & Hother).
      split.
      * rewrite lookup_union_r by exact Ha.
        rewrite Hother by (vm_compute; intuition discriminate).
        apply lookup_insert_eq.
      * split; split; intros; congruence.
Qed.

(** C4, amended: burst removal leaves one row for each (created_at, lon, lat)
    that occurs, the rows in ascending order of that tuple (so no two rows
    share it, and the original order is not kept); each row has the tuple and
    the user id of the first record of its group and the first non-null user
    name of the group, so it is that first record whenever the record has a
    user name; the result is no longer than the input, and every dict that
    dbscan returns has n_burst_tweets = n_original - n_deduplicated. *)
Theorem groupby_first_spec (ext : Externals) (df : list Tweet) :
  StronglySorted key_lt (map burst_key (groupby_first df)) /\
  (forall t, In t df ->
     exists g, In g (groupby_first df) /\ burst_key g = burst_key t) /\
  (forall g, In g (groupby_first df) ->
     exists t0 more,
       List.filter (same_burst g) df = t0 :: more /\
       burst_key g = burst_key t0 /\
       user_id g = user_id t0 /\
       user_name g = first_non_null (map user_name (t0 :: more)) /\
       (user_name t0 <> None -> g = t0)) /\
  (length (groupby_first df) <= length df)%nat /\
  (forall trace trace' d,
     dbscan ext df trace = (trace', Ok d) ->
     d !! "n_burst_tweets"
     = Some (PInt (Z.of_nat (length df) - Z.of_nat (length (groupby_first df))))).
Proof.
  destruct (groupby_first_groups df) as (Hsorted & Hcover & Hrows & Hlen).
  repeat split; try assumption.
  intros trace trace' d Hrun. apply dbscan_inv in Hrun.
  destruct Hrun as (rows & Hne & Hpre & Hcases). cbv zeta in Hcases.
  destruct Hcases as [(-> & _ & ->)
                     |(Hdf & results & more & id & reason & lo & la & n
                       & Hres & -> & ->)].
  - pose proof (home_decision_dict_lookup (PInt (-1))
                  (PStr "no tweets in desired time range") PNone PNone PNone)
      as (_ & _ & _ & _ & _ & _ & Hb & _).
    rewrite lookup_union_r by exact Hb.
    exact (proj1 (proj2 (debug_info_preprocessed_lookup _ _))).
  - pose proof (home_decision_dict_lookup id reason lo la n)
      as (_ & _ & _ & _ & _ & _ & Hb & _).
    rewrite lookup_union_r by exact Hb.
    pose proof (debug_info_clustered_lookup results
                  (<["clustering_attempted" := PInt 1]>
                     (debug_info_preprocessed
                        (Z.of_nat (length df)
                         - Z.of_nat (length (groupby_first df)))
                        (Z.of_nat (length rows)))))
      as (_ & _ & _ & Hother).
    rewrite Hother by (vm_compute; intuition discriminate).
    rewrite lookup_insert_ne by discriminate.
    exact (proj1 (proj2 (debug_info_preprocessed_lookup _ _))).
Qed.

(** A Saturday tweet alone: nothing is left and nothing is clustered. *)
Lemma dbscan_no_tweets_in_range_witness :
  exists d,
    dbscan demo_ext [tweet_sat] []
    = ([Makedirs CLUSTERS_OUTPUT; Makedirs AGGREGATES_OUTPUT], Ok d) /\
    d !! "home_cluster_id" = Some (PInt (-1)) /\
    d !! "home_cluster_reason" = Some (PStr "no tweets in desired time range").
Proof.
  destruct (dbscan_no_tweets_in_range demo_ext [tweet_sat] [])
    as (d & Hrun & Hid & Hreason & _).
  - discriminate.
  - vm_compute. reflexivity.
  - exists d. split; [exact Hrun|]. split; assumption.
Defined.

(** Two evening tweets that the clusterer labels noise. *)
Lemma dbscan_no_clusters_witness :
  exists d,
    (dbscan demo_ext [tweet_tue; tweet_mon] []).2 = Ok d /\
    d !! "home_cluster_id" = Some (PInt (-1)) /\
    d !! "home_cluster_reason" = Some (PStr "no clusters").
Proof.
  destruct (dbscan_no_clusters demo_ext [tweet_tue; tweet_mon] [] boston_rows
              (all_noise (lon_lat_columns boston_rows)))
    as (d & Hrun & Hid & Hreason & _).
  - discriminate.
  - vm_compute. reflexivity.
  - discriminate.
  - reflexivity.
  - intros r [<-|[<-|[]]]; reflexivity.
  - exists d. rewrite Hrun. split; [reflexivity|]. split; assumption.
Defined.

(** On the two Boston tweets the counters read 0 core, 0 boundary and 2 noise
    points, which add up to the 2 points clustered. *)
Lemma dbscan_counters_witness :
  exists d,
    (dbscan demo_ext [tweet_tue; tweet_mon] []).2 = Ok d /\
    d !! "n_dbscan_core_tweets"
    = Some (PInt (count_type "core" (all_noise (lon_lat_columns boston_rows)))) /\
    d !! "n_dbscan_boundary_tweets"
    = Some (PInt (count_type "boundary" (all_noise (lon_lat_columns boston_rows)))) /\
    d !! "n_dbscan_noise_tweets"
    = Some (PInt (count_type "noise" (all_noise (lon_lat_columns boston_rows)))) /\
    count_type "core" (all_noise (lon_lat_columns boston_rows))
    + count_type "boundary" (all_noise (lon_lat_columns boston_rows))
    + count_type "noise" (all_noise (lon_lat_columns boston_rows)) = 2.
Proof.
  pose (d := home_decision_dict (PInt (-1)) (PStr "no clusters") PNone PNone PNone
             ∪ debug_info_clustered (all_noise (lon_lat_columns boston_rows))
                 (<["clustering_attempted" := PInt 1]>
                    (debug_info_preprocessed 0 2))).
  assert (Hloc : localize_datetimes demo_ext (groupby_first [tweet_tue; tweet_mon])
                 = Ok boston_rows) by (vm_compute; reflexivity).
  assert (Hpre' : preprocessing demo_ext [tweet_tue; tweet_mon] = Ok boston_rows)
    by (unfold preprocessing; rewrite Hloc; reflexivity).
  assert (Hrun : dbscan demo_ext [tweet_tue; tweet_mon] []
                 = ([Makedirs CLUSTERS_OUTPUT; Makedirs AGGREGATES_OUTPUT;
                     DbscanCreate (lon_lat_columns boston_rows)], Ok d)).
  { rewrite dbscan_eq, Hloc. cbv zeta.
    change (home_period boston_rows) with boston_rows.
    change (Z.of_nat (length boston_rows) =? 0) with false. cbv iota.
    rewrite dbscan_cluster_eq. reflexivity. }
  exists d. split; [now rewrite Hrun|].
  destruct (dbscan_counters demo_ext [tweet_tue; tweet_mon] [] _ d Hrun)
    as (df & results & more & Hpre & _ & Hres & Hc & Hb & Hn & _ & _ & _ & Hsum).
  - vm_compute. reflexivity.
  - rewrite Hpre' in Hpre. injection Hpre as <-.
    assert (Hresults : results = all_noise (lon_lat_columns boston_rows)).
    { cbn [turicreate_dbscan_create demo_ext] in Hres. now injection Hres as <-. }
    subst results.
    repeat (split; [assumption|]).
    apply Hsum; [reflexivity|].
    intros r [<-|[<-|[]]]; vm_compute; tauto.
Defined.

(** A Saturday tweet alone: clustering is not attempted. *)
Lemma dbscan_clustering_attempted_witness :
  exists trace' d,
    dbscan demo_ext [tweet_sat] [] = (trace', Ok d) /\
    d !! "clustering_attempted" = Some (PInt 0) /\
    d !! "n_dbscan_core_tweets" = Some PNone /\
    d !! "n_dbscan_boundary_tweets" = Some PNone /\
    d !! "n_dbscan_noise_tweets" = Some PNone.
Proof.
  apply (proj1 (dbscan_clustering_attempted demo_ext [tweet_sat] [])).
  - discriminate.
  - vm_compute. reflexivity.
Defined.

(** On the two Boston tweets: two rows, the Monday one first. *)
Lemma groupby_first_spec_witness :
  StronglySorted key_lt (map burst_key (groupby_first [tweet_tue; tweet_mon])) /\
  (length (groupby_first [tweet_tue; tweet_mon]) <= 2)%nat.
Proof.
  destruct (groupby_first_spec demo_ext [tweet_tue; tweet_mon])
    as (Hsorted & _ & _ & Hlen & _).
  split; assumption.
Defined.

(** ** The merge of the measures *)

Lemma df_apply_cons {S A B} (f : A -> St S B) (row : A) (rest : list A) (s : S) :
  df_apply f (row :: rest) s =
  match f row s with
  | (s1, Ok b) =>
      match df_apply f rest s1 with
      | (s2, Ok bs) => (s2, Ok (b :: bs))
      | (s2, Raise e) => (s2, Raise e)
      end
  | (s1, Raise e) => (s1, Raise e)
  end.
Proof.
  cbn [df_apply]. st_unfold.
  destruct (f row s) as [s1 [b|e]]; [|reflexivity].
  destruct (df_apply f rest s1) as [s2 [bs|e]]; reflexivity.
Qed.

Lemma run_measures_from_cons (results : pydict) (m : Measure)
    (ms : list Measure) (df : list Tweet) (trace : list event) :
  run_measures_from results (m :: ms) df trace =
  match measure_dict df m trace with
  | (trace1, Ok out) => run_measures_from (out ∪ results) ms df trace1
  | (trace1, Raise e) => (trace1, Raise e)
  end.
Proof.
  cbn [run_measures_from]. unfold measure_dict. st_unfold.
  destruct (measure_call m df trace) as [trace1 [rv|e]]; reflexivity.
Qed.

Lemma run_measures_from_eq (results : pydict) (measures_ : list Measure)
    (df : list Tweet) (trace : list event) :
  run_measures_from results measures_ df trace =
  match measure_dicts df measures_ trace with
  | (trace', Ok outs) =>
      (trace', Ok (fold_left (fun acc out => out ∪ acc) outs results))
  | (trace', Raise e) => (trace', Raise e)
  end.
Proof.
  revert results trace. unfold measure_dicts.
  induction measures_ as [|m ms IH]; intros results trace; [reflexivity|].
  rewrite run_measures_from_cons, df_apply_cons.
  destruct (measure_dict df m trace) as [trace1 [out|e]]; [|reflexivity].
  rewrite IH.
  destruct (df_apply (measure_dict df) ms trace1) as [trace2 [outs|e]];
    reflexivity.
Qed.

(** The value of a key after the merge: that of the last dict that has the
    key, or the one held before when no dict has it. *)
Lemma fold_union_lookup (outs : list pydict) (results : pydict)
    (k : string) (v : pyval) :
  fold_left (fun acc out => out ∪ acc) outs results !! k = Some v <->
  last_writer outs k v \/
  (results !! k = Some v /\ forall out, In out outs -> out !! k = None).
Proof.
  revert results. induction outs as [|o outs IH]; intros results.
  - simpl. split.
    + intros Hk. right. split; [assumption|]. intros out [].
    + intros [(i & out & Hi & _)|[Hk _]]; [|assumption].
      rewrite lookup_nil in Hi. discriminate.
  - cbn [fold_left]. rewrite IH. split.
    + intros [(i & out & Hi & Hv & Hlast)|[Hk Hnone]].
      * left. exists (S i), out. split; [exact Hi|]. split; [exact Hv|].
        intros [|j] out' Hlt Hj; [lia|]. apply (Hlast j); [lia|exact Hj].
      * destruct (o !! k) as [w|] eqn:Ho.
        -- left. exists 0%nat, o. split; [reflexivity|].
           rewrite (lookup_union_Some_l _ _ _ _ Ho) in Hk.
           split; [congruence|].
           intros [|j] out' Hlt Hj; [lia|]. apply Hnone.
           apply list_elem_of_In, list_elem_of_lookup. eauto.
        -- right. rewrite lookup_union_r in Hk by assumption.
           split; [assumption|]. intros out [<-|Hin]; auto.
    + intros [(i & out & Hi & Hv & Hlast)|[Hk Hnone]].
      * destruct i as [|i].
        -- injection Hi as ->. right. split.
           ++ now apply lookup_union_Some_l.
           ++ intros out' Hin. apply list_elem_of_In, list_elem_of_lookup in Hin.
              destruct Hin as [j Hj]. apply (Hlast (S j)); [lia|exact Hj].
        -- left. exists i, out. split; [exact Hi|]. split; [exact Hv|].
           intros j out' Hlt Hj. apply (Hlast (S j)); [lia|exact Hj].
      * right. split.
        -- rewrite lookup_union_r by (apply Hnone; now left). assumption.
        -- intros out Hin. apply Hnone. now right.
Qed.

(** C9 as stated fails: [n_tweets] files 1 under "n_tweets", [recount] then
    returns a dict with that key, and [run_all_measures] returns the later
    value without any error. *)
Lemma run_all_measures_overwrites : ~ collisions_are_errors.
Proof.
  intros Hclaim.
  destruct (Hclaim [tweet_tue] [n_tweets; recount] [] []
              [ {[ "n_tweets" := PInt 1 ]}; {[ "n_tweets" := PInt 0 ]} ])
    as [e He].
  - reflexivity.
  - exists 0%nat, 1%nat, {[ "n_tweets" := PInt 1 ]}, {[ "n_tweets" := PInt 0 ]},
      "n_tweets".
    repeat split; try lia; eexists; reflexivity.
  - discriminate He.
Qed.

(** C9, amended: [run_all_measures] raises only when a measure raises, and
    then with that exception; when the measures return their dicts, the merge
    returns a dict in which every key has the value of the last measure that
    produced it: a later measure overwrites the key of an earlier one and no
    error is raised for the collision. *)
Theorem run_all_measures_last_writer_wins (user_tweets_df : list Tweet)
    (measures_ : list Measure) (trace : list event) :
  match measure_dicts user_tweets_df measures_ trace with
  | (trace', Raise e) =>
      run_all_measures user_tweets_df measures_ trace = (trace', Raise e)
  | (trace', Ok outs) =>
      exists d,
        run_all_measures user_tweets_df measures_ trace = (trace', Ok d) /\
        forall k v, d !! k = Some v <-> last_writer outs k v
  end.
Proof.
  unfold run_all_measures. rewrite run_measures_from_eq.
  destruct (measure_dicts user_tweets_df measures_ trace) as [trace' [outs|e]];
    [|reflexivity].
  eexists. split; [reflexivity|].
  intros k v. rewrite fold_union_lookup. split.
  - intros [Hlast|[Hk _]]; [assumption|]. rewrite lookup_empty in Hk. discriminate.
  - intros Hlast. now left.
Qed.

(** ** The dispersion of a cluster *)

Lemma Q2R_qc (n : Z) (d : positive) : Q2R (qc n d) = (IZR n / IZR (Z.pos d))%R.
Proof.
  unfold qc, Q2Qc. cbn [this].
  rewrite (Qeq_eqR _ _ (Qred_correct (n # d))). reflexivity.
Qed.

(** Two points on one "latitude" argument line: only the first pair of
    arguments contributes. *)
Lemma haversine_same_second (x1 y x2 : R) :
  haversine x1 y x2 y
  = (RADIUS_OF_EARTH * (2 * asin (sqrt (sin (np_radians (x2 - x1) / 2) ^ 2))))%R.
Proof.
  unfold haversine. cbv zeta.
  replace (np_radians (y - y) / 2)%R with 0%R by (unfold np_radians; field).
  rewrite sin_0.
  replace (sin (np_radians (x2 - x1) / 2) ^ 2
           + cos (np_radians x1) * cos (np_radians x2) * 0 ^ 2)%R
    with (sin (np_radians (x2 - x1) / 2) ^ 2)%R by ring.
  reflexivity.
Qed.

(** Two points of one latitude: the longitudes contribute, scaled by the
    cosine of the latitude. *)
Lemma haversine_same_first (x y1 y2 : R) :
  haversine x y1 x y2
  = (RADIUS_OF_EARTH
     * (2 * asin (sqrt ((cos (np_radians x) * sin (np_radians (y2 - y1) / 2)) ^ 2))))%R.
Proof.
  unfold haversine. cbv zeta.
  replace (np_radians (x - x) / 2)%R with 0%R by (unfold np_radians; field).
  rewrite sin_0.
  replace (0 ^ 2 + cos (np_radians x) * cos (np_radians x)
                   * sin (np_radians (y2 - y1) / 2) ^ 2)%R
    with ((cos (np_radians x) * sin (np_radians (y2 - y1) / 2)) ^ 2)%R by ring.
  reflexivity.
Qed.


Lemma small_angle_bounds : (0 < small_angle < PI / 2)%R.
Proof. unfold small_angle. pose proof PI_RGT_0. split; lra. Qed.

Lemma sin_small_angle_pos : (0 < sin small_angle)%R.
Proof.
  pose proof small_angle_bounds. pose proof PI_RGT_0.
  apply sin_gt_0; lra.
Qed.

Lemma sin_small_angle_le_1 : (sin small_angle <= 1)%R.
Proof. apply SIN_bound. Qed.

Lemma asin_sqrt_sin_sq (x : R) :
  (0 <= x <= PI / 2)%R -> asin (sqrt (sin x ^ 2)) = x.
Proof.
  intros Hx. pose proof PI_RGT_0.
  rewrite sqrt_pow2.
  - apply asin_sin. lra.
  - destruct (Req_dec x 0) as [->|Hne]; [rewrite sin_0; lra|].
    left. apply sin_gt_0; lra.
Qed.

(** Half the sine has a smaller arcsine than the angle itself. *)
Lemma asin_half_sin_lt : (asin (sin small_angle / 2) < small_angle)%R.
Proof.
  pose proof small_angle_bounds as Hb. pose proof sin_small_angle_pos as Hs.
  pose proof sin_small_angle_le_1 as H1. pose proof PI_RGT_0.
  pose proof (asin_bound (sin small_angle / 2)) as Ha.
  apply sin_increasing_0; try lra.
  rewrite sin_asin by lra. lra.
Qed.

Lemma asin_half_sin_pos : (0 < asin (sin small_angle / 2))%R.
Proof.
  pose proof sin_small_angle_pos as Hs. pose proof sin_small_angle_le_1 as H1.
  pose proof PI_RGT_0.
  pose proof (asin_bound (sin small_angle / 2)) as Ha.
  apply sin_increasing_0; try lra.
  rewrite sin_0, sin_asin by lra. lra.
Qed.

(** The distances that the code computes for the points of
    [northern_cluster]: the difference of longitudes is taken for a
    difference of latitudes. *)
Lemma code_distance_off_centre (lo : R) :
  (lo - -71 = 1 / 10000 \/ lo - -71 = - (1 / 10000))%R ->
  haversine (-71) 60 lo 60 = (RADIUS_OF_EARTH * (2 * small_angle))%R.
Proof.
  intros Hlo. rewrite haversine_same_second.
  pose proof small_angle_bounds as Hb.
  destruct Hlo as [Hlo|Hlo]; rewrite Hlo.
  - replace (np_radians (1 / 10000) / 2)%R with small_angle
      by (unfold np_radians, small_angle; field).
    rewrite asin_sqrt_sin_sq by lra. reflexivity.
  - replace (np_radians (- (1 / 10000)) / 2)%R with (- small_angle)%R
      by (unfold np_radians, small_angle; field).
    rewrite sin_neg.
    replace ((- sin small_angle) ^ 2)%R with (sin small_angle ^ 2)%R by ring.
    rewrite asin_sqrt_sin_sq by lra. reflexivity.
Qed.

Lemma code_distance_centre : haversine (-71) 60 (-71) 60 = 0%R.
Proof.
  rewrite haversine_same_second.
  replace (np_radians (-71 - -71) / 2)%R with 0%R by (unfold np_radians; field).
  pose proof PI_RGT_0.
  rewrite asin_sqrt_sin_sq by lra. ring.
Qed.

Lemma cos_60_degrees : cos (np_radians 60) = (1 / 2)%R.
Proof.
  replace (np_radians 60) with (PI / 3)%R by (unfold np_radians; field).
  apply cos_PI3.
Qed.

(** The great-circle distances of the same points. *)
Lemma great_circle_off_centre (lo : R) :
  (lo - -71 = 1 / 10000 \/ lo - -71 = - (1 / 10000))%R ->
  great_circle (-71) 60 lo 60
  = (RADIUS_OF_EARTH * (2 * asin (sin small_angle / 2)))%R.
Proof.
  intros Hlo. unfold great_circle. rewrite haversine_same_first, cos_60_degrees.
  pose proof sin_small_angle_pos as Hs.
  destruct Hlo as [Hlo|Hlo]; rewrite Hlo.
  - replace (np_radians (1 / 10000) / 2)%R with small_angle
      by (unfold np_radians, small_angle; field).
    replace (1 / 2 * sin small_angle)%R with (sin small_angle / 2)%R by field.
    rewrite sqrt_pow2 by lra. reflexivity.
  - replace (np_radians (- (1 / 10000)) / 2)%R with (- small_angle)%R
      by (unfold np_radians, small_angle; field).
    rewrite sin_neg.
    replace ((1 / 2 * - sin small_angle) ^ 2)%R
      with ((sin small_angle / 2) ^ 2)%R by field.
    rewrite sqrt_pow2 by lra. reflexivity.
Qed.

Lemma great_circle_centre : great_circle (-71) 60 (-71) 60 = 0%R.
Proof.
  unfold great_circle. rewrite haversine_same_first.
  replace (np_radians (-71 - -71) / 2)%R with 0%R by (unfold np_radians; field).
  rewrite sin_0, Rmult_0_r.
  replace (0 ^ 2)%R with 0%R by ring.
  rewrite sqrt_0, asin_0. ring.
Qed.

Lemma Rmax_four (d : R) : (0 <= d)%R -> Rmax (Rmax (Rmax d 0) 0) d = d.
Proof.
  intros Hd. rewrite (Rmax_left d 0) by assumption.
  rewrite (Rmax_left d 0) by assumption. apply Rmax_left. lra.
Qed.

Lemma northern_cluster_coordinates :
  Q2R (qc (-71) 1) = (-71)%R /\ Q2R (qc 60 1) = 60%R /\
  (Q2R (qc (-710001) 10000) - -71 = - (1 / 10000))%R /\
  (Q2R (qc (-709999) 10000) - -71 = 1 / 10000)%R.
Proof. rewrite !Q2R_qc. repeat split; field. Qed.

(** C2 (the code departs from the claim): for four core points at latitude
    60 spread over 0.0002 degrees of longitude, the aggregator returns
    max_dist_from_centroid = 6372800 * pi / 1800000 (about 11.1 m), the
    haversine formula applied with longitudes in the place of latitudes,
    while the largest great-circle distance between the centroid and a point
    is 6372800 * 2 * asin (sin (pi / 3600000) / 2) (about 5.6 m), which is
    strictly smaller. *)
Theorem max_dist_from_centroid_transposed :
  exists agg,
    create_cluster_aggregates northern_cluster = Ok [agg] /\
    max_dist_from_centroid agg = (RADIUS_OF_EARTH * (2 * small_angle))%R /\
    max_dist_spec northern_cluster
    = Ok (RADIUS_OF_EARTH * (2 * asin (sin small_angle / 2)))%R /\
    (RADIUS_OF_EARTH * (2 * asin (sin small_angle / 2))
     < RADIUS_OF_EARTH * (2 * small_angle))%R.
Proof.
  destruct northern_cluster_coordinates as (Hc & Hl & Hw & He).
  pose proof small_angle_bounds as Hb. pose proof asin_half_sin_pos as Hp.
  assert (Hlons : mean (map (fun r => lon (c_tweet r)) northern_cluster)
                  = qc (-71) 1) by (apply Qc_is_canon; vm_compute; reflexivity).
  assert (Hlats : mean (map (fun r => lat (c_tweet r)) northern_cluster)
                  = qc 60 1) by (apply Qc_is_canon; vm_compute; reflexivity).
  assert (Hcode :
    np_max (map (fun r => haversine (Q2R (qc (-71) 1)) (Q2R (qc 60 1))
                                    (Q2R (lon (c_tweet r))) (Q2R (lat (c_tweet r))))
                northern_cluster)
    = Ok (RADIUS_OF_EARTH * (2 * small_angle))%R).
  { unfold northern_cluster.
    cbn [map np_max fold_left core_point c_tweet lon lat].
    rewrite Hc, Hl.
    rewrite (code_distance_off_centre (Q2R (qc (-710001) 10000))) by (right; exact Hw).
    rewrite (code_distance_off_centre (Q2R (qc (-709999) 10000))) by (left; exact He).
    rewrite code_distance_centre. f_equal. apply Rmax_four.
    unfold RADIUS_OF_EARTH. lra. }
  assert (Hspec :
    np_max (map (fun r => great_circle (Q2R (qc (-71) 1)) (Q2R (qc 60 1))
                                       (Q2R (lon (c_tweet r))) (Q2R (lat (c_tweet r))))
                northern_cluster)
    = Ok (RADIUS_OF_EARTH * (2 * asin (sin small_angle / 2)))%R).
  { unfold northern_cluster.
    cbn [map np_max fold_left core_point c_tweet lon lat].
    rewrite Hc, Hl.
    rewrite (great_circle_off_centre (Q2R (qc (-710001) 10000))) by (right; exact Hw).
    rewrite (great_circle_off_centre (Q2R (qc (-709999) 10000))) by (left; exact He).
    rewrite great_circle_centre. f_equal. apply Rmax_four.
    unfold RADIUS_OF_EARTH. lra. }
  exists {| cluster_id := 0; centroid_lon := qc (-71) 1; centroid_lat := qc 60 1;
            time_range := total_seconds 259200000000;
            max_dist_from_centroid := (RADIUS_OF_EARTH * (2 * small_angle))%R;
            count := 4 |}.
  split; [|split; [reflexivity|split]].
  - unfold create_cluster_aggregates.
    change (unique (map c_cluster_id northern_cluster)) with [0].
    cbn [result_map]. unfold cluster_aggregate. cbv zeta.
    change (List.filter (fun r => c_cluster_id r =? 0) northern_cluster)
      with northern_cluster.
    rewrite Hlons, Hlats. cbn [fst snd].
    change (dt_max (map c_dt northern_cluster)) with (Ok (evening_est 4)).
    change (dt_min (map c_dt northern_cluster)) with (Ok (evening_est 1)).
    cbn [mbind result_bind].
    change (dt_sub (evening_est 4) (evening_est 1))
      with (@Ok Z 259200000000).
    cbn [mbind result_bind]. rewrite Hcode. reflexivity.
  - unfold max_dist_spec. cbv zeta. rewrite Hlons, Hlats. exact Hspec.
  - pose proof asin_half_sin_lt. unfold RADIUS_OF_EARTH. lra.
Qed.

(** ** A run of the whole pipeline *)

(** Four evening tweets that form one cluster: that cluster is home by the
    first rule, with its centroid at (-71, 60) and its 4 core points. *)
Example dbscan_one_cluster :
  match snd (dbscan one_cluster_ext northern_tweets []) with
  | Ok d =>
      [ d !! "clustering_attempted"; d !! "n_burst_tweets";
        d !! "n_home_period_tweets"; d !! "n_dbscan_core_tweets";
        d !! "n_dbscan_boundary_tweets"; d !! "n_dbscan_noise_tweets";
        d !! "home_cluster_id"; d !! "home_cluster_reason";
        d !! "home_cluster_count" ]
      = [ Some (PInt 1); Some (PInt 0); Some (PInt 4); Some (PInt 4);
          Some (PInt 0); Some (PInt 0); Some (PInt 0);
          Some (PStr "only one max cluster"); Some (PInt 4) ] /\
      (exists lo la,
         d !! "home_cluster_centroid_lon" = Some (PFloat lo) /\
         d !! "home_cluster_centroid_lat" = Some (PFloat la) /\
         Qceqb lo (qc (-71) 1) && Qceqb la (qc 60 1) = true)
  | Raise _ => False
  end.
Proof.
  vm_compute. split; [reflexivity|]. do 2 eexists. repeat split.
Qed.

(** * Further properties of the code *)

(** ** More on [merge_dicts] *)

Lemma last_writer_cons (d0 : pydict) (rest : list pydict) (k : string) (v : pyval) :
  last_writer (d0 :: rest) k v <->
  last_writer rest k v \/
  (d0 !! k = Some v /\ forall out, In out rest -> out !! k = None).
Proof.
  split.
  - intros (i & out & Hi & Hk & Hlater). destruct i as [|i].
    + right. injection Hi as <-. split; [exact Hk|].
      intros out' Hin. apply list_elem_of_In, list_elem_of_lookup_1 in Hin.
      destruct Hin as [j Hj]. apply (Hlater (S j) out'); [lia|exact Hj].
    + left. exists i, out. split; [exact Hi|]. split; [exact Hk|].
      intros j out' Hlt Hj. apply (Hlater (S j) out'); [lia|exact Hj].
  - intros [(i & out & Hi & Hk & Hlater)|[Hk Hnone]].
    + exists (S i), out. split; [exact Hi|]. split; [exact Hk|].
      intros j out' Hlt Hj. destruct j as [|j]; [lia|].
      apply (Hlater j out'); [lia|exact Hj].
    + exists 0%nat, d0. split; [reflexivity|]. split; [exact Hk|].
      intros j out' Hlt Hj. destruct j as [|j]; [lia|].
      apply Hnone, list_elem_of_In. eapply list_elem_of_lookup_2, Hj.
Qed.

(** X1: merge_dicts raises IndexError when it is called without a dict;
    otherwise it returns a dict in which every key holds the value of the
    last argument that has the key. *)
Theorem merge_dicts_last_wins (dicts : list pydict) :
  match dicts with
  | [] => merge_dicts dicts = Raise IndexError
  | _ :: _ =>
      exists d, merge_dicts dicts = Ok d /\
                forall k v, d !! k = Some v <-> last_writer dicts k v
  end.
Proof.
  destruct dicts as [|d0 rest]; [reflexivity|].
  eexists. split; [reflexivity|]. intros k v.
  rewrite last_writer_cons. apply fold_union_lookup.
Qed.

(** ** More on the localization *)

(** X2: a lookup of a time zone never removes or changes an entry of the
    cache; when it returns, the answer is in the cache under the name that
    timezonefinder gave, and a later lookup at the same coordinates gives the
    same answer from the cache alone, whatever pytz would say then; when it
    raises, the cache is as it was. *)
Theorem lookup_tz_cache (ext : Externals) (lo la : Qc)
    (timezones timezones' : gmap (option string) (option pytz_tz))
    (r : result (option pytz_tz)) :
  lookup_tz ext lo la timezones = (timezones', r) ->
  timezones ⊆ timezones' /\
  match r with
  | Ok zone =>
      exists tz_name,
        timezone_at ext lo la = Ok tz_name /\
        timezones' !! tz_name = Some zone /\
        forall ext', timezone_at ext' lo la = Ok tz_name ->
          lookup_tz ext' lo la timezones' = (timezones', Ok zone)
  | Raise _ => timezones' = timezones
  end.
Proof.
  rewrite lookup_tz_eq.
  destruct (timezone_at ext lo la) as [tz_name|e] eqn:Hat.
  - destruct (timezones !! tz_name) as [cached|] eqn:Hc.
    + intros [= <- <-]. split; [reflexivity|].
      exists tz_name. split; [reflexivity|]. split; [exact Hc|].
      intros ext' Hat'. rewrite lookup_tz_eq, Hat', Hc. reflexivity.
    + destruct (pytz_timezone ext tz_name) as [zone|e].
      * intros [= <- <-]. split; [now apply insert_subseteq|].
        exists tz_name. split; [reflexivity|].
        split; [apply lookup_insert_eq|].
        intros ext' Hat'. rewrite lookup_tz_eq, Hat', lookup_insert_eq. reflexivity.
      * destruct e; intros [= <- <-]; try (split; reflexivity).
        split; [now apply insert_subseteq|].
        exists tz_name. split; [reflexivity|].
        split; [apply lookup_insert_eq|].
        intros ext' Hat'. rewrite lookup_tz_eq, Hat', lookup_insert_eq. reflexivity.
  - intros [= <- <-]. split; reflexivity.
Qed.

Lemma lookup_tz_cache_witness :
  exists timezones',
    (∅ : gmap (option string) (option pytz_tz)) ⊆ timezones' /\
    timezones' !! Some "America/New_York" = Some (Some (PytzTz "America/New_York")) /\
    lookup_tz demo_ext (lon tweet_tue) (lat tweet_tue) timezones'
    = (timezones', Ok (Some (PytzTz "America/New_York"))).
Proof.
  exists (<[Some "America/New_York" := Some (PytzTz "America/New_York")]> ∅).
  destruct (lookup_tz_cache demo_ext (lon tweet_tue) (lat tweet_tue) ∅
              (<[Some "America/New_York" := Some (PytzTz "America/New_York")]> ∅)
              (Ok (Some (PytzTz "America/New_York"))))
    as (Hsub & tz_name & Hat & Hin & Hagain).
  - rewrite lookup_tz_eq. reflexivity.
  - injection Hat as <-.
    split; [exact Hsub|]. split; [exact Hin|]. apply Hagain. reflexivity.
Defined.

(** What one row does to the cache and the frame. *)
Lemma get_localized_dt_raise (ext : Externals) (t : Tweet) (e : exn)
    (timezones : gmap (option string) (option pytz_tz)) :
  dateutil_parse ext (created_at t) = Raise e ->
  get_localized_dt ext t timezones = (timezones, Raise e).
Proof. intros Hp. unfold get_localized_dt. st_unfold. now rewrite Hp. Qed.

Lemma get_localized_dt_ok (ext : Externals) (t : Tweet) (parsed : datetime)
    (timezones : gmap (option string) (option pytz_tz)) :
  dateutil_parse ext (created_at t) = Ok parsed ->
  exists timezones' d,
    get_localized_dt ext t timezones = (timezones', Ok d) /\
    (d = parsed \/ exists zone, astimezone ext parsed zone = Ok d).
Proof.
  intros Hp. rewrite (get_localized_dt_eq _ _ _ _ Hp).
  destruct (lookup_tz ext (lon t) (lat t) timezones) as [timezones' [[zone|]|e]];
    try (do 2 eexists; split; [reflexivity|now left]).
  destruct (astimezone ext parsed zone) as [d|e] eqn:Has.
  - do 2 eexists. split; [reflexivity|]. right. now exists zone.
  - do 2 eexists. split; [reflexivity|now left].
Qed.

Lemma df_apply_localize (ext : Externals) (df : list Tweet)
    (timezones : gmap (option string) (option pytz_tz)) :
  match (df_apply (fun t => d ← get_localized_dt ext t;
                            mret {| tweet := t; dt := d |}) df timezones).2 with
  | Ok rows =>
      map tweet rows = df /\
      forall r, In r rows ->
        exists parsed,
          dateutil_parse ext (created_at (tweet r)) = Ok parsed /\
          (dt r = parsed \/ exists zone, astimezone ext parsed zone = Ok (dt r))
  | Raise e =>
      exists before t after,
        df = (before ++ t :: after)%list /\
        (forall t', In t' before ->
           is_ok (dateutil_parse ext (created_at t')) = true) /\
        dateutil_parse ext (created_at t) = Raise e
  end.
Proof.
  revert timezones. induction df as [|t df IH]; intros timezones.
  - cbn. split; [reflexivity|]. intros r [].
  - rewrite df_apply_cons. st_unfold.
    destruct (dateutil_parse ext (created_at t)) as [parsed|e] eqn:Hp.
    + destruct (get_localized_dt_ok ext t parsed timezones Hp)
        as (timezones' & d & -> & Hd).
      specialize (IH timezones'). st_unfold in IH.
      destruct (df_apply _ df timezones') as [s [rows|e]]; cbn in IH |- *.
      * destruct IH as [Hmap Hrows]. split; [now rewrite Hmap|].
        intros r [<-|Hin]; [|now apply Hrows].
        exists parsed. split; [exact Hp|exact Hd].
      * destruct IH as (before & t' & after & -> & Hbefore & Ht').
        exists (t :: before), t', after. split; [reflexivity|].
        split; [|exact Ht'].
        intros t'' [<-|Hin]; [now rewrite Hp|now apply Hbefore].
    + rewrite (get_localized_dt_raise _ _ _ _ Hp). cbn.
      exists [], t, df. split; [reflexivity|]. split; [intros t' []|exact Hp].
Qed.

(** X3: the localization of a frame returns one row per tweet, in order,
    each with the parsed timestamp or its conversion to a zone, exactly when
    every timestamp parses; otherwise it raises the exception of the first
    timestamp, in frame order, that dateutil rejects. *)
Theorem localize_datetimes_parse_errors (ext : Externals) (df : list Tweet) :
  match localize_datetimes ext df with
  | Ok rows =>
      map tweet rows = df /\
      forall r, In r rows ->
        exists parsed,
          dateutil_parse ext (created_at (tweet r)) = Ok parsed /\
          (dt r = parsed \/ exists zone, astimezone ext parsed zone = Ok (dt r))
  | Raise e =>
      exists before t after,
        df = (before ++ t :: after)%list /\
        (forall t', In t' before ->
           is_ok (dateutil_parse ext (created_at t')) = true) /\
        dateutil_parse ext (created_at t) = Raise e
  end.
Proof. apply df_apply_localize. Qed.

(** ** The table of cluster aggregates *)

Lemma dt_sub_eq (a b : datetime) :
  dt_sub a b = if Bool.eqb (aware a) (aware b) then Ok (instant a - instant b)
               else Raise TypeError.
Proof.
  unfold dt_sub, aware, instant.
  destruct (tz a), (tz b); cbn; try reflexivity. f_equal. lia.
Qed.

Lemma dt_extreme_spec (later : bool) (items : list datetime) (cur : datetime) :
  match dt_extreme later cur items with
  | Ok m =>
      In m (cur :: items) /\
      forall i, In i (cur :: items) ->
        aware i = aware cur /\
        if later then instant i <= instant m else instant m <= instant i
  | Raise e =>
      e = TypeError /\ exists i, In i items /\ aware i <> aware cur
  end.
Proof.
  revert cur. induction items as [|item rest IH]; intros cur.
  - cbn. split; [now left|]. intros i [<-|[]]. split; [reflexivity|].
    destruct later; lia.
  - cbn [dt_extreme]. rewrite dt_sub_eq.
    destruct (Bool.eqb (aware item) (aware cur)) eqn:Haw.
    + apply Bool.eqb_prop in Haw. cbn.
      set (cur' := if (if later then 0 <? instant item - instant cur
                       else instant item - instant cur <? 0)
                   then item else cur).
      assert (Hcur' : aware cur' = aware cur
                      /\ (cur' = item \/ cur' = cur)
                      /\ (if later
                          then instant cur <= instant cur'
                               /\ instant item <= instant cur'
                          else instant cur' <= instant cur
                               /\ instant cur' <= instant item)).
      { unfold cur'. destruct later.
        - destruct (Z.ltb_spec 0 (instant item - instant cur));
            (split; [auto|split; [auto|lia]]).
        - destruct (Z.ltb_spec (instant item - instant cur) 0);
            (split; [auto|split; [auto|lia]]). }
      clearbody cur'. destruct Hcur' as (Haw' & Hwhich & Hord).
      specialize (IH cur').
      destruct (dt_extreme later cur' rest) as [m|e].
      * destruct IH as [Hin Hall]. split.
        { destruct Hin as [<-|Hin]; [|now right; right].
          destruct Hwhich as [->| ->]; [right; now left|now left]. }
        intros i Hi.
        assert (Hm := Hall cur' (or_introl eq_refl)).
        destruct Hi as [<-|[<-|Hi]].
        -- split; [reflexivity|]. destruct later; lia.
        -- split; [exact Haw|]. destruct later; lia.
        -- destruct (Hall i (or_intror Hi)) as [Hai Hoi].
           split; [congruence|exact Hoi].
      * destruct IH as [-> (i & Hi & Hne)]. split; [reflexivity|].
        exists i. split; [now right|congruence].
    + cbn. split; [reflexivity|]. exists item. split; [now left|].
      intros Heq. rewrite Heq in Haw. now destruct (aware cur).
Qed.

Lemma total_seconds_nonneg (us : Z) : 0 <= us -> (Q2Qc 0 <= total_seconds us)%Qc.
Proof.
  intros Hus. unfold total_seconds, Qcle. cbn [this Q2Qc].
  rewrite !Qred_correct. unfold Qle. cbn. lia.
Qed.

Lemma fold_Rmax_spec (rest : list R) (x : R) :
  In (fold_left Rmax rest x) (x :: rest) /\
  forall y, In y (x :: rest) -> (y <= fold_left Rmax rest x)%R.
Proof.
  revert x. induction rest as [|z rest IH]; intros x.
  - cbn. split; [now left|]. intros y [<-|[]]. lra.
  - cbn [fold_left]. destruct (IH (Rmax x z)) as [Hin Hall]. split.
    + destruct Hin as [Hin|Hin]; [|now right; right].
      rewrite <- Hin. unfold Rmax. destruct (Rle_dec x z); [right|]; now left.
    + intros y Hy.
      assert (Hm := Hall (Rmax x z) (or_introl eq_refl)).
      destruct Hy as [<-|[<-|Hy]].
      * pose proof (Rmax_l x z). lra.
      * pose proof (Rmax_r x z). lra.
      * apply Hall. now right.
Qed.

Lemma existsb_Zeqb (x : Z) (l : list Z) : existsb (Z.eqb x) l = true <-> In x l.
Proof.
  rewrite existsb_exists. split.
  - intros (y & Hy & Heq). apply Z.eqb_eq in Heq. now subst.
  - intros Hin. exists x. split; [exact Hin|apply Z.eqb_refl].
Qed.

Lemma unique_from_spec (ids seen : list Z) :
  List.NoDup seen ->
  let u := fold_left (fun seen x => if existsb (Z.eqb x) seen then seen
                                    else (seen ++ [x])%list) ids seen in
  List.NoDup u /\ forall x, In x u <-> In x seen \/ In x ids.
Proof.
  revert seen. induction ids as [|y ids IH]; intros seen Hnd.
  - cbn. split; [exact Hnd|]. tauto.
  - cbn [fold_left]. destruct (existsb (Z.eqb y) seen) eqn:Hy.
    + destruct (IH seen Hnd) as [Hu Hin]. split; [exact Hu|].
      intros x. rewrite Hin. apply existsb_Zeqb in Hy. cbn.
      split; [tauto|]. intros [H|[<-|H]]; tauto.
    + assert (Hnot : ~ In y seen).
      { intros Hin. apply existsb_Zeqb in Hin. congruence. }
      destruct (IH (seen ++ [y])%list) as [Hu Hin].
      { apply List.NoDup_app. repeat split.
        - exact Hnd.
        - constructor; [intros []|constructor].
        - intros a Ha [<-|[]]. contradiction. }
      split; [exact Hu|].
      intros x. rewrite Hin, in_app_iff. cbn. tauto.
Qed.

Lemma unique_spec (ids : list Z) :
  List.NoDup (unique ids) /\ forall x, In x (unique ids) <-> In x ids.
Proof.
  destruct (unique_from_spec ids [] (List.NoDup_nil _)) as [Hu Hin].
  split; [exact Hu|]. intros x. rewrite (Hin x). cbn. tauto.
Qed.

Lemma result_map_spec {A B} (f : A -> result B) (l : list A) :
  match result_map f l with
  | Ok ys => List.Forall2 (fun x y => f x = Ok y) l ys
  | Raise e => exists x, In x l /\ f x = Raise e
  end.
Proof.
  induction l as [|x l IH]; cbn; [constructor|].
  destruct (f x) as [y|e] eqn:Hx; cbn.
  - destruct (result_map f l) as [ys|e]; cbn.
    + now constructor.
    + destruct IH as (x' & Hin & Hx'). exists x'. split; [now right|exact Hx'].
  - exists x. split; [now left|exact Hx].
Qed.

Lemma insert_by_cluster_id_In (a b : ClusterAggregate) (l : list ClusterAggregate) :
  In b (insert_by_cluster_id a l) <-> b = a \/ In b l.
Proof.
  induction l as [|c l IH]; cbn.
  - intuition congruence.
  - destruct (cluster_id a <? cluster_id c); cbn; [intuition congruence|].
    rewrite IH. intuition congruence.
Qed.

Lemma insert_by_cluster_id_sorted (a : ClusterAggregate) (l : list ClusterAggregate) :
  StronglySorted Z.lt (map cluster_id l) ->
  ~ In (cluster_id a) (map cluster_id l) ->
  StronglySorted Z.lt (map cluster_id (insert_by_cluster_id a l)).
Proof.
  induction l as [|c l IH]; intros Hs Hnot; cbn.
  - constructor; constructor.
  - cbn in Hs. apply StronglySorted_inv in Hs as [Hs Hc].
    destruct (Z.ltb_spec (cluster_id a) (cluster_id c)) as [Hlt|Hge]; cbn.
    + constructor.
      * constructor; assumption.
      * constructor; [exact Hlt|].
        eapply List.Forall_impl; [|exact Hc]. cbn. intros; lia.
    + assert (Hne : cluster_id c <> cluster_id a).
      { intros Heq. apply Hnot. left. exact Heq. }
      constructor.
      * apply IH; [exact Hs|]. intros Hin. apply Hnot. now right.
      * apply List.Forall_forall. intros x Hx.
        apply in_map_iff in Hx as (b & <- & Hb).
        apply insert_by_cluster_id_In in Hb as [->|Hb]; [lia|].
        rewrite List.Forall_forall in Hc. apply Hc. now apply in_map.
Qed.

Lemma sort_by_cluster_id_In (b : ClusterAggregate) (l : list ClusterAggregate) :
  In b (sort_by_cluster_id l) <-> In b l.
Proof.
  induction l as [|a l IH]; cbn; [tauto|].
  rewrite insert_by_cluster_id_In, IH. intuition congruence.
Qed.

Lemma sort_by_cluster_id_sorted (l : list ClusterAggregate) :
  List.NoDup (map cluster_id l) ->
  StronglySorted Z.lt (map cluster_id (sort_by_cluster_id l)).
Proof.
  induction l as [|a l IH]; cbn; intros Hnd; [constructor|].
  apply List.NoDup_cons_iff in Hnd as [Hnot Hnd].
  apply insert_by_cluster_id_sorted; [now apply IH|].
  intros Hin. apply Hnot. apply in_map_iff in Hin as (b & Hb & Hin).
  apply (proj1 (sort_by_cluster_id_In b l)) in Hin. apply in_map_iff. now exists b.
Qed.

Lemma Zsum_cons (x : Z) (l : list Z) : Zsum (x :: l) = x + Zsum l.
Proof. reflexivity. Qed.

Lemma Zsum_insert_by_cluster_id (a : ClusterAggregate) (l : list ClusterAggregate) :
  Zsum (map count (insert_by_cluster_id a l)) = count a + Zsum (map count l).
Proof.
  induction l as [|c l IH]; [reflexivity|].
  cbn [insert_by_cluster_id].
  destruct (cluster_id a <? cluster_id c); [reflexivity|].
  cbn [map]. rewrite !Zsum_cons, IH. lia.
Qed.

Lemma Zsum_sort_by_cluster_id (l : list ClusterAggregate) :
  Zsum (map count (sort_by_cluster_id l)) = Zsum (map count l).
Proof.
  induction l as [|a l IH]; [reflexivity|].
  change (sort_by_cluster_id (a :: l))
    with (insert_by_cluster_id a (sort_by_cluster_id l)).
  rewrite Zsum_insert_by_cluster_id, IH. reflexivity.
Qed.

(** Each row is counted by exactly one of a list of distinct ids that
    contains its id. *)
Lemma Zsum_indicator (x : Z) (ids : list Z) :
  List.NoDup ids ->
  Zsum (map (fun id => if x =? id then 1 else 0) ids)
  = if existsb (Z.eqb x) ids then 1 else 0.
Proof.
  induction ids as [|y ids IH]; intros Hnd; [reflexivity|].
  apply List.NoDup_cons_iff in Hnd as [Hnot Hnd].
  cbn [map existsb]. rewrite Zsum_cons, (IH Hnd).
  destruct (Z.eqb_spec x y) as [->|Hne]; cbn [orb]; [|lia].
  destruct (existsb (Z.eqb y) ids) eqn:Hy; [|lia].
  apply existsb_Zeqb in Hy. contradiction.
Qed.

Lemma rows_of_cluster_cons (r : ClusterRow Z) (df : list (ClusterRow Z)) (id : Z) :
  rows_of_cluster (r :: df) id
  = if c_cluster_id r =? id then r :: rows_of_cluster df id
    else rows_of_cluster df id.
Proof. reflexivity. Qed.

Lemma Zsum_rows_of_cluster (df : list (ClusterRow Z)) (ids : list Z) :
  List.NoDup ids ->
  (forall r, In r df -> In (c_cluster_id r) ids) ->
  Zsum (map (fun id => Z.of_nat (length (rows_of_cluster df id))) ids)
  = Z.of_nat (length df).
Proof.
  intros Hnd. induction df as [|r df IH]; intros Hall.
  - clear. induction ids as [|y ids IHi]; [reflexivity|].
    cbn [map]. rewrite Zsum_cons, IHi. reflexivity.
  - assert (Hsplit : forall l,
               Zsum (map (fun id => Z.of_nat (length (rows_of_cluster (r :: df) id))) l)
               = Zsum (map (fun id => if c_cluster_id r =? id then 1 else 0) l)
                 + Zsum (map (fun id => Z.of_nat (length (rows_of_cluster df id))) l)).
    { induction l as [|y l IHl]; [reflexivity|].
      cbn [map]. rewrite !Zsum_cons, IHl, rows_of_cluster_cons.
      destruct (c_cluster_id r =? y); cbn [length]; lia. }
    rewrite Hsplit, (Zsum_indicator _ _ Hnd), IH.
    + assert (Hr : existsb (Z.eqb (c_cluster_id r)) ids = true).
      { apply existsb_Zeqb, Hall. now left. }
      rewrite Hr. cbn [length]. lia.
    + intros r' Hr'. apply Hall. now right.
Qed.

(** One row of the table. *)
Lemma cluster_aggregate_spec (df : list (ClusterRow Z)) (id : Z) :
  rows_of_cluster df id <> [] ->
  match cluster_aggregate df id with
  | Ok a =>
      cluster_id a = id /\
      count a = Z.of_nat (length (rows_of_cluster df id)) /\
      centroid_lon a = mean (map (fun r => lon (c_tweet r)) (rows_of_cluster df id)) /\
      centroid_lat a = mean (map (fun r => lat (c_tweet r)) (rows_of_cluster df id)) /\
      (exists latest earliest,
         In latest (rows_of_cluster df id) /\
         In earliest (rows_of_cluster df id) /\
         time_range a
         = total_seconds (instant (c_dt latest) - instant (c_dt earliest)) /\
         forall r, In r (rows_of_cluster df id) ->
           aware (c_dt r) = aware (c_dt latest) /\
           instant (c_dt earliest) <= instant (c_dt r) <= instant (c_dt latest)) /\
      (exists far,
         In far (rows_of_cluster df id) /\
         max_dist_from_centroid a
         = haversine (Q2R (centroid_lon a)) (Q2R (centroid_lat a))
                     (Q2R (lon (c_tweet far))) (Q2R (lat (c_tweet far))) /\
         forall r, In r (rows_of_cluster df id) ->
           (haversine (Q2R (centroid_lon a)) (Q2R (centroid_lat a))
                      (Q2R (lon (c_tweet r))) (Q2R (lat (c_tweet r)))
            <= max_dist_from_centroid a)%R)
  | Raise e =>
      e = TypeError /\
      exists r1 r2, In r1 (rows_of_cluster df id) /\ In r2 (rows_of_cluster df id) /\
                    aware (c_dt r1) <> aware (c_dt r2)
  end.
Proof.
  unfold cluster_aggregate. fold (rows_of_cluster df id).
  destruct (rows_of_cluster df id) as [|r0 rows] eqn:Hrows; [congruence|].
  intros _. cbn [map dt_max dt_min].
  pose proof (dt_extreme_spec true (map c_dt rows) (c_dt r0)) as Hmax.
  pose proof (dt_extreme_spec false (map c_dt rows) (c_dt r0)) as Hmin.
  destruct (dt_extreme true (c_dt r0) (map c_dt rows)) as [latest|e].
  2:{ destruct Hmax as [-> (i & Hi & Hne)]. cbn. split; [reflexivity|].
      apply in_map_iff in Hi as (r & <- & Hr).
      exists r, r0. split; [now right|]. split; [now left|exact Hne]. }
  destruct (dt_extreme false (c_dt r0) (map c_dt rows)) as [earliest|e].
  2:{ destruct Hmin as [-> (i & Hi & Hne)]. cbn. split; [reflexivity|].
      apply in_map_iff in Hi as (r & <- & Hr).
      exists r, r0. split; [now right|]. split; [now left|exact Hne]. }
  destruct Hmax as [Hlin Hlall]. destruct Hmin as [Hein Heall].
  change (c_dt r0 :: map c_dt rows) with (map c_dt (r0 :: rows)) in *.
  apply in_map_iff in Hlin as (rl & Hrl & Hlin).
  apply in_map_iff in Hein as (re & Hre & Hein).
  assert (Hal : aware latest = aware (c_dt r0))
    by (apply Hlall, in_map_iff; eauto).
  assert (Hae : aware earliest = aware (c_dt r0))
    by (apply Heall, in_map_iff; eauto).
  cbn [mbind result_bind]. rewrite dt_sub_eq, Hal, Hae, Bool.eqb_reflx.
  cbn [np_max map]. cbn [mbind result_bind fst snd].
  split; [reflexivity|]. split; [reflexivity|]. split; [reflexivity|].
  split; [reflexivity|]. split.
  - exists rl, re. split; [exact Hlin|]. split; [exact Hein|].
    cbn [time_range]. rewrite Hrl, Hre. split; [reflexivity|].
    intros r Hr.
    destruct (Hlall (c_dt r)) as [Har Hor]; [now apply in_map|].
    destruct (Heall (c_dt r)) as [_ Hor']; [now apply in_map|].
    split; [congruence|lia].
  - cbn [max_dist_from_centroid centroid_lon centroid_lat].
    set (dist := fun r : ClusterRow Z =>
                   haversine _ _ (Q2R (lon (c_tweet r))) (Q2R (lat (c_tweet r)))).
    destruct (fold_Rmax_spec (map dist rows) (dist r0)) as [Hin Hall].
    change (dist r0 :: map dist rows) with (map dist (r0 :: rows)) in *.
    apply in_map_iff in Hin as (far & Hfar & Hin).
    exists far. split; [exact Hin|]. split; [symmetry; exact Hfar|].
    intros r Hr. apply Hall. exact (in_map dist _ _ Hr).
Qed.

Lemma Forall2_In_l {A B} (P : A -> B -> Prop) (l : list A) (ys : list B) (x : A) :
  List.Forall2 P l ys -> In x l -> exists y, In y ys /\ P x y.
Proof.
  induction 1 as [|x' y' l ys Hxy _ IH]; intros Hin; [destruct Hin|].
  destruct Hin as [<-|Hin].
  - exists y'. split; [now left|exact Hxy].
  - destruct (IH Hin) as (y & Hy & HP). exists y. split; [now right|exact HP].
Qed.

Lemma Forall2_In_r {A B} (P : A -> B -> Prop) (l : list A) (ys : list B) (y : B) :
  List.Forall2 P l ys -> In y ys -> exists x, In x l /\ P x y.
Proof.
  induction 1 as [|x' y' l ys Hxy _ IH]; intros Hin; [destruct Hin|].
  destruct Hin as [<-|Hin].
  - exists x'. split; [now left|exact Hxy].
  - destruct (IH Hin) as (x & Hx & HP). exists x. split; [now right|exact HP].
Qed.

Lemma Forall2_map_eq {A B C} (P : A -> B -> Prop) (f : B -> C) (g : A -> C)
    (l : list A) (ys : list B) :
  List.Forall2 P l ys -> (forall x y, In x l -> P x y -> f y = g x) ->
  map f ys = map g l.
Proof.
  induction 1 as [|x y l ys Hxy _ IH]; intros Hfg; [reflexivity|].
  cbn [map]. rewrite (Hfg x y (or_introl eq_refl) Hxy), IH; [reflexivity|].
  intros x' y' Hin. apply Hfg. now right.
Qed.

Lemma rows_of_cluster_In (df : list (ClusterRow Z)) (id : Z) (r : ClusterRow Z) :
  In r (rows_of_cluster df id) <-> In r df /\ c_cluster_id r = id.
Proof. unfold rows_of_cluster. rewrite filter_In, Z.eqb_eq. reflexivity. Qed.

Lemma rows_of_cluster_nonempty (df : list (ClusterRow Z)) (id : Z) :
  In id (map c_cluster_id df) -> rows_of_cluster df id <> [].
Proof.
  intros Hin Hnil. apply in_map_iff in Hin as (r & Hid & Hr).
  assert (Hrow : In r (rows_of_cluster df id)) by now apply rows_of_cluster_In.
  rewrite Hnil in Hrow. destruct Hrow.
Qed.

(** The table as a whole: what [create_cluster_aggregates] returns in terms
    of the rows that [cluster_aggregate] builds. *)
Lemma create_cluster_aggregates_inv (df : list (ClusterRow Z)) :
  match create_cluster_aggregates df with
  | Ok aggs =>
      df <> [] /\
      StronglySorted Z.lt (map cluster_id aggs) /\
      (forall a, In a aggs <->
         exists id, In id (map c_cluster_id df) /\ cluster_aggregate df id = Ok a) /\
      (forall id, In id (map c_cluster_id df) ->
         exists a, cluster_aggregate df id = Ok a) /\
      Zsum (map count aggs) = Z.of_nat (length df)
  | Raise e =>
      (df = [] /\ e = KeyError) \/
      (exists id, In id (map c_cluster_id df) /\ cluster_aggregate df id = Raise e)
  end.
Proof.
  unfold create_cluster_aggregates.
  destruct (unique_spec (map c_cluster_id df)) as [Hnd Hids].
  pose proof (result_map_spec (cluster_aggregate df) (unique (map c_cluster_id df)))
    as Hmap.
  destruct (result_map _ _) as [clusters|e]; cbn [mbind result_bind].
  - assert (Hid : forall id a, In id (unique (map c_cluster_id df)) ->
                   cluster_aggregate df id = Ok a ->
                   cluster_id a = id
                   /\ count a = Z.of_nat (length (rows_of_cluster df id))).
    { intros id a Hin Ha.
      pose proof (cluster_aggregate_spec df id) as Hspec. rewrite Ha in Hspec.
      destruct Hspec as (H1 & H2 & _); [|now split].
      apply rows_of_cluster_nonempty, Hids, Hin. }
    destruct clusters as [|c clusters].
    + left. split; [|reflexivity]. inversion Hmap as [Hu|]. 
      destruct df as [|r df]; [reflexivity|].
      assert (Hin : In (c_cluster_id r) (unique (map c_cluster_id (r :: df))))
        by (apply Hids; now left).
      rewrite <- Hu in Hin. destruct Hin.
    + set (cs := c :: clusters) in *.
      assert (Hcids : map cluster_id cs = unique (map c_cluster_id df)).
      { rewrite <- (map_id (unique _)).
        apply (Forall2_map_eq _ _ _ _ _ Hmap).
        intros id a Hin Ha. now apply Hid. }
      split; [|split; [|split; [|split]]].
      * intros ->. cbn in Hcids. discriminate.
      * apply sort_by_cluster_id_sorted. now rewrite Hcids.
      * intros a. rewrite sort_by_cluster_id_In. split.
        -- intros Hin. destruct (Forall2_In_r _ _ _ _ Hmap Hin) as (id & Hi & Ha).
           exists id. split; [now apply Hids|exact Ha].
        -- intros (id & Hi & Ha). apply Hids in Hi.
           destruct (Forall2_In_l _ _ _ _ Hmap Hi) as (a' & Hin & Ha').
           congruence.
      * intros id Hi. apply Hids in Hi.
        destruct (Forall2_In_l _ _ _ _ Hmap Hi) as (a & _ & Ha). now exists a.
      * rewrite Zsum_sort_by_cluster_id.
        rewrite (Forall2_map_eq _ count
                   (fun id => Z.of_nat (length (rows_of_cluster df id))) _ _ Hmap).
        -- apply Zsum_rows_of_cluster; [exact Hnd|].
           intros r Hr. apply Hids. now apply in_map.
        -- intros id a Hin Ha. now apply Hid.
  - right. destruct Hmap as (id & Hin & He). exists id.
    split; [now apply Hids|exact He].
Qed.

(** X6: the table of [create_cluster_aggregates] has one row for each
    distinct cluster id of the core points, in strictly ascending order of
    the id; [count] is the number of core points of the cluster, at least 1,
    and the counts add up to the number of core points; the datetimes of a
    cluster all have a zone or all have none.  The function raises in two
    cases only: KeyError when there is no core point at all, TypeError when a
    cluster holds a datetime with a zone and one without. *)
Theorem create_cluster_aggregates_table (df_clusters : list (ClusterRow Z)) :
  match create_cluster_aggregates df_clusters with
  | Ok aggs =>
      df_clusters <> [] /\
      StronglySorted Z.lt (map cluster_id aggs) /\
      (forall id, In id (map cluster_id aggs) <-> In id (map c_cluster_id df_clusters)) /\
      (forall a, In a aggs ->
         count a = Z.of_nat (length (rows_of_cluster df_clusters (cluster_id a))) /\
         1 <= count a) /\
      Zsum (map count aggs) = Z.of_nat (length df_clusters) /\
      (forall r1 r2,
         In r1 df_clusters -> In r2 df_clusters ->
         c_cluster_id r1 = c_cluster_id r2 ->
         aware (c_dt r1) = aware (c_dt r2))
  | Raise e =>
      (df_clusters = [] /\ e = KeyError) \/
      (e = TypeError /\
       exists r1 r2,
         In r1 df_clusters /\ In r2 df_clusters /\
         c_cluster_id r1 = c_cluster_id r2 /\
         aware (c_dt r1) <> aware (c_dt r2))
  end.
Proof.
  pose proof (create_cluster_aggregates_inv df_clusters) as Hinv.
  destruct (create_cluster_aggregates df_clusters) as [aggs|e].
  - destruct Hinv as (Hne & Hsorted & Hrows & Hall & Hsum).
    assert (Hrow : forall a, In a aggs ->
              In (cluster_id a) (map c_cluster_id df_clusters) /\
              count a = Z.of_nat (length (rows_of_cluster df_clusters (cluster_id a)))).
    { intros a Ha. apply Hrows in Ha as (id & Hid & Ha).
      pose proof (cluster_aggregate_spec df_clusters id
                    (rows_of_cluster_nonempty _ _ Hid)) as Hspec.
      rewrite Ha in Hspec. destruct Hspec as (-> & Hcount & _). now split. }
    split; [exact Hne|]. split; [exact Hsorted|].
    split; [|split; [|split; [exact Hsum|]]].
    + intros id. split.
      * intros Hin. apply in_map_iff in Hin as (a & <- & Ha). now apply Hrow.
      * intros Hin. destruct (Hall id Hin) as [a Ha].
        pose proof (cluster_aggregate_spec df_clusters id
                      (rows_of_cluster_nonempty _ _ Hin)) as Hspec.
        rewrite Ha in Hspec. destruct Hspec as (Hida & _). rewrite <- Hida.
        apply in_map, Hrows. exists id. now split.
    + intros a Ha. destruct (Hrow a Ha) as [Hid Hcount]. split; [exact Hcount|].
      rewrite Hcount.
      pose proof (rows_of_cluster_nonempty _ _ Hid) as Hnonempty.
      destruct (rows_of_cluster df_clusters (cluster_id a)); [congruence|].
      cbn [length]. lia.
    + intros r1 r2 H1 H2 Hsame.
      assert (Hid : In (c_cluster_id r1) (map c_cluster_id df_clusters))
        by now apply in_map.
      destruct (Hall _ Hid) as [a Ha].
      pose proof (cluster_aggregate_spec df_clusters _
                    (rows_of_cluster_nonempty _ _ Hid)) as Hspec.
      rewrite Ha in Hspec.
      destruct Hspec as (_ & _ & _ & _ & (latest & earliest & _ & _ & _ & Haware) & _).
      destruct (Haware r1) as [Ha1 _]; [now apply rows_of_cluster_In|].
      destruct (Haware r2) as [Ha2 _]; [now apply rows_of_cluster_In|].
      congruence.
  - destruct Hinv as [[-> ->]|(id & Hid & He)]; [now left|]. right.
    pose proof (cluster_aggregate_spec df_clusters id
                  (rows_of_cluster_nonempty _ _ Hid)) as Hspec.
    rewrite He in Hspec. destruct Hspec as (-> & r1 & r2 & H1 & H2 & Hmixed).
    apply rows_of_cluster_In in H1 as [H1 Hc1].
    apply rows_of_cluster_In in H2 as [H2 Hc2].
    split; [reflexivity|]. exists r1, r2. repeat split; congruence.
Qed.

Lemma create_cluster_aggregates_ok (df : list (ClusterRow Z)) :
  df <> [] ->
  (forall r1 r2, In r1 df -> In r2 df -> c_cluster_id r1 = c_cluster_id r2 ->
                 aware (c_dt r1) = aware (c_dt r2)) ->
  exists aggs a, create_cluster_aggregates df = Ok aggs /\ In a aggs.
Proof.
  intros Hne Haware.
  pose proof (create_cluster_aggregates_inv df) as Hinv.
  destruct (create_cluster_aggregates df) as [aggs|e].
  - destruct Hinv as (_ & _ & Hrows & Hall & _).
    destruct df as [|r df]; [congruence|].
    destruct (Hall (c_cluster_id r)) as [a Ha]; [now left|].
    exists aggs, a. split; [reflexivity|]. apply Hrows.
    exists (c_cluster_id r). split; [now left|exact Ha].
  - exfalso. destruct Hinv as [[-> _]|(id & Hid & He)]; [congruence|].
    pose proof (cluster_aggregate_spec df id (rows_of_cluster_nonempty _ _ Hid))
      as Hspec.
    rewrite He in Hspec. destruct Hspec as (_ & r1 & r2 & H1 & H2 & Hmixed).
    apply rows_of_cluster_In in H1 as [H1 Hc1].
    apply rows_of_cluster_In in H2 as [H2 Hc2].
    apply Hmixed, Haware; congruence.
Qed.

(** X7: in every row of the table, [time_range] is the time in seconds
    between the earliest and the latest datetime of the core points of the
    cluster, both of them datetimes of such points and every other one
    between them; it is never negative; and the datetimes of the cluster
    are all aware or all naive. *)
Theorem create_cluster_aggregates_time_range (df_clusters : list (ClusterRow Z))
    (aggs : list ClusterAggregate) (a : ClusterAggregate) :
  create_cluster_aggregates df_clusters = Ok aggs ->
  In a aggs ->
  let rows := rows_of_cluster df_clusters (cluster_id a) in
  (Q2Qc 0 <= time_range a)%Qc /\
  exists latest earliest,
    In latest rows /\ In earliest rows /\
    time_range a = total_seconds (instant (c_dt latest) - instant (c_dt earliest)) /\
    forall r, In r rows ->
      aware (c_dt r) = aware (c_dt latest) /\
      instant (c_dt earliest) <= instant (c_dt r) <= instant (c_dt latest).
Proof.
  intros Hcreate Ha rows.
  pose proof (create_cluster_aggregates_inv df_clusters) as Hinv.
  rewrite Hcreate in Hinv. destruct Hinv as (_ & _ & Hrows & _ & _).
  apply Hrows in Ha as (id & Hid & Hagg).
  pose proof (rows_of_cluster_nonempty _ _ Hid) as Hnonempty.
  pose proof (cluster_aggregate_spec df_clusters id Hnonempty) as Hspec.
  rewrite Hagg in Hspec.
  destruct Hspec as (Hida & _ & _ & _ & Htime & _).
  unfold rows. rewrite Hida. clear rows.
  destruct Htime as (latest & earliest & Hl & He & Heq & Hall).
  split.
  - rewrite Heq. apply total_seconds_nonneg.
    destruct (Hall latest Hl) as [_ Hord]. lia.
  - exists latest, earliest. now repeat split; try apply Hall.
Qed.

Lemma create_cluster_aggregates_time_range_witness :
  exists aggs a,
    create_cluster_aggregates northern_cluster = Ok aggs /\ In a aggs /\
    (Q2Qc 0 <= time_range a)%Qc.
Proof.
  destruct (create_cluster_aggregates_ok northern_cluster) as (aggs & a & Hc & Ha).
  - discriminate.
  - intros r1 r2 H1 H2 _.
    cbn in H1, H2.
    destruct H1 as [<-|[<-|[<-|[<-|[]]]]]; destruct H2 as [<-|[<-|[<-|[<-|[]]]]];
      reflexivity.
  - exists aggs, a. split; [exact Hc|]. split; [exact Ha|].
    exact (proj1 (create_cluster_aggregates_time_range northern_cluster aggs a Hc Ha)).
Defined.

(** ** The decision of [dbscan] *)

Lemma unique_cluster_id_In {V} `{PyOrd V} (aggs : list ClusterAggregate)
    (column : ClusterAggregate -> V) (measure : list V -> result V) (id : Z) :
  unique_cluster_id aggs column measure = Ok (Some id) ->
  exists a, In a aggs /\ cluster_id a = id.
Proof.
  unfold unique_cluster_id.
  destruct (measure (map column aggs)) as [value|e]; [|discriminate].
  cbn [mbind result_bind].
  destruct (value_counts_loc (map column aggs) value) as [n|e]; [|discriminate].
  cbn [mbind result_bind].
  destruct (n =? 1); [|discriminate].
  destruct (List.filter _ aggs) as [|a others] eqn:Hf; [discriminate|].
  intros [= <-]. exists a. split; [|reflexivity].
  assert (Hin : In a (List.filter (fun a => py_eqb (column a) value) aggs))
    by (rewrite Hf; now left).
  now apply filter_In in Hin.
Qed.

(** What the selector returns on a table with a row: a row of the table
    with one of the three reasons, or nothing. *)
Lemma determine_home_cluster_shape (aggs : list ClusterAggregate) :
  aggs <> [] ->
  (exists a reason,
     In a aggs /\ In reason home_reasons /\
     determine_home_cluster aggs = Ok (Some (cluster_id a), Some reason)) \/
  determine_home_cluster aggs = Ok (None, None).
Proof.
  intros Hne.
  destruct (unique_cluster_id_max count aggs Hne) as (_ & _ & oc & Hoc).
  destruct (unique_cluster_id_min max_dist_from_centroid aggs Hne)
    as (_ & _ & od & Hod).
  destruct (unique_cluster_id_max time_range aggs Hne) as (_ & _ & ot & Hot).
  unfold determine_home_cluster, HOME_RULES. cbn [determine_home_cluster_from
    rule_ord rule_column rule_measure rule_reason rule_type].
  rewrite Hoc. cbn [mbind result_bind]. destruct oc as [id|].
  { left. destruct (unique_cluster_id_In _ _ _ _ Hoc) as (a & Ha & <-).
    exists a, "only one max cluster". split; [exact Ha|].
    split; [now left|reflexivity]. }
  rewrite Hod. cbn [mbind result_bind]. destruct od as [id|].
  { left. destruct (unique_cluster_id_In _ _ _ _ Hod) as (a & Ha & <-).
    exists a, "cluster with minimum distance". split; [exact Ha|].
    split; [right; now left|reflexivity]. }
  rewrite Hot. cbn [mbind result_bind]. destruct ot as [id|].
  { left. destruct (unique_cluster_id_In _ _ _ _ Hot) as (a & Ha & <-).
    exists a, "cluster with maximum time range". split; [exact Ha|].
    split; [right; right; now left|reflexivity]. }
  now right.
Qed.

Lemma filter_cluster_id_sorted (aggs : list ClusterAggregate) (a : ClusterAggregate) :
  StronglySorted Z.lt (map cluster_id aggs) -> In a aggs ->
  List.filter (fun b => cluster_id b =? cluster_id a) aggs = [a].
Proof.
  induction aggs as [|b aggs IH]; intros Hs Hin; [destruct Hin|].
  cbn in Hs. apply StronglySorted_inv in Hs as [Hs Hb].
  rewrite List.Forall_forall in Hb. cbn [List.filter].
  destruct Hin as [->|Hin].
  - rewrite Z.eqb_refl. f_equal. apply filter_none.
    intros c Hc. apply Z.eqb_neq.
    assert (cluster_id a < cluster_id c); [|lia].
    apply Hb. now apply in_map.
  - assert (Hlt : cluster_id b < cluster_id a) by (apply Hb; now apply in_map).
    destruct (Z.eqb_spec (cluster_id b) (cluster_id a)); [lia|].
    now apply IH.
Qed.

Lemma home_decision_dict_other (id reason lo la n : pyval) (k : string) :
  ~ In k decision_keys -> home_decision_dict id reason lo la n !! k = None.
Proof.
  intros Hk. unfold home_decision_dict. cbn in Hk.
  rewrite !lookup_insert_ne by (intros <-; tauto).
  apply lookup_singleton_ne. intros <-; tauto.
Qed.

(** X8: the last two sections of [dbscan].  The snapshot of the cluster ids
    is written first; when the core points cannot be typed or aggregated the
    function raises that exception and nothing else is written; otherwise
    the aggregates are written and a dict is returned, the selector never
    raising on them.  A home cluster is a row of the table: the dict holds
    its id, one of the three reasons, its centroid and its count, which is
    the number of core points of that cluster; with no home cluster the five
    entries are None.  All other keys are those of the debug information. *)
Theorem dbscan_decide_outcome (uid : Z) (df : list LocalizedTweet)
    (results : list ClusterResult) (info : pydict) (trace : list event) :
  let snapshot :=
    ToCsv CLUSTERS_OUTPUT uid
          (ClustersCsv (create_output_df (merge_results df results))) in
  match core_points (merge_results df results) with
  | Raise e =>
      dbscan_decide uid df results info trace = ((trace ++ [snapshot])%list, Raise e)
  | Ok core =>
      match create_cluster_aggregates core with
      | Raise e =>
          dbscan_decide uid df results info trace
          = ((trace ++ [snapshot])%list, Raise e)
      | Ok aggs =>
          exists d,
            dbscan_decide uid df results info trace
            = ((trace ++ [snapshot;
                          ToCsv AGGREGATES_OUTPUT uid (AggregatesCsv aggs)])%list,
               Ok d) /\
            (forall k, ~ In k decision_keys -> d !! k = info !! k) /\
            match determine_home_cluster aggs with
            | Ok (Some id, Some reason) =>
                exists a,
                  In a aggs /\ cluster_id a = id /\ In reason home_reasons /\
                  d !! "home_cluster_id" = Some (PInt id) /\
                  d !! "home_cluster_reason" = Some (PStr reason) /\
                  d !! "home_cluster_centroid_lon" = Some (PFloat (centroid_lon a)) /\
                  d !! "home_cluster_centroid_lat" = Some (PFloat (centroid_lat a)) /\
                  d !! "home_cluster_count" = Some (PInt (count a)) /\
                  count a = Z.of_nat (length (rows_of_cluster core id))
            | Ok (None, None) =>
                d !! "home_cluster_id" = Some PNone /\
                d !! "home_cluster_reason" = Some PNone /\
                d !! "home_cluster_centroid_lon" = Some PNone /\
                d !! "home_cluster_centroid_lat" = Some PNone /\
                d !! "home_cluster_count" = Some PNone
            | _ => False
            end
      end
  end.
Proof.
  cbv zeta. unfold dbscan_decide. st_unfold.
  destruct (core_points (merge_results df results)) as [core|e]; [|reflexivity].
  pose proof (create_cluster_aggregates_inv core) as Hinv.
  destruct (create_cluster_aggregates core) as [aggs|e]; [|reflexivity].
  destruct Hinv as (Hcore & Hsorted & Hrows & Hall & _).
  assert (Hne : aggs <> []).
  { intros ->. destruct core as [|r core]; [congruence|].
    destruct (Hall (c_cluster_id r)) as [a Ha]; [now left|].
    assert (Hin : In a []) by (apply Hrows; eexists; split; [now left|exact Ha]).
    destruct Hin. }
  destruct (determine_home_cluster_shape aggs Hne)
    as [(a & reason & Ha & Hreason & ->)| ->].
  - rewrite (filter_cluster_id_sorted aggs a Hsorted Ha).
    cbn [merge_dicts fold_left opt_pyval]. unfold dict_update.
    rewrite <- app_assoc. eexists. split; [reflexivity|].
    pose proof (home_decision_dict_lookup (PInt (cluster_id a)) (PStr reason)
                  (PFloat (centroid_lon a)) (PFloat (centroid_lat a))
                  (PInt (count a))) as Hd.
    cbv zeta in Hd. destruct Hd as (H1 & H2 & H3 & H4 & H5 & _).
    split.
    { intros k Hk. apply lookup_union_r. now apply home_decision_dict_other. }
    exists a. split; [exact Ha|]. split; [reflexivity|]. split; [exact Hreason|].
    split; [now apply lookup_union_Some_l|].
    split; [now apply lookup_union_Some_l|].
    split; [now apply lookup_union_Some_l|].
    split; [now apply lookup_union_Some_l|].
    split; [now apply lookup_union_Some_l|].
    apply Hrows in Ha as (id & Hid & Hagg).
    pose proof (cluster_aggregate_spec core id (rows_of_cluster_nonempty _ _ Hid))
      as Hspec.
    rewrite Hagg in Hspec. destruct Hspec as (-> & Hcount & _). exact Hcount.
  - cbn [merge_dicts fold_left opt_pyval]. unfold dict_update.
    rewrite <- app_assoc. eexists. split; [reflexivity|].
    pose proof (home_decision_dict_lookup PNone PNone PNone PNone PNone) as Hd.
    cbv zeta in Hd. destruct Hd as (H1 & H2 & H3 & H4 & H5 & _).
    split.
    { intros k Hk. apply lookup_union_r. now apply home_decision_dict_other. }
    split; [now apply lookup_union_Some_l|].
    split; [now apply lookup_union_Some_l|].
    split; [now apply lookup_union_Some_l|].
    split; [now apply lookup_union_Some_l|].
    now apply lookup_union_Some_l.
Qed.

(** ** The merge with the clusterer's table *)

Lemma merge_results_from (k : nat) (df : list LocalizedTweet)
    (results : list ClusterResult) :
  concat (imap (fun i r =>
                  map (fun res => {| c_tweet := tweet r; c_dt := dt r;
                                     c_row_id := row_id res;
                                     c_cluster_id := res_cluster_id res;
                                     c_type := res_type res |})
                      (List.filter (fun res => row_id res =? Z.of_nat (k + i)) results))
               df)
  = merge_from (Z.of_nat k) df results.
Proof.
  revert k. induction df as [|r df IH]; intros k; [reflexivity|].
  rewrite imap_cons. cbn [concat merge_from]. rewrite Nat.add_0_r. f_equal.
  replace (Z.of_nat k + 1) with (Z.of_nat (S k)) by lia.
  rewrite <- IH. f_equal. apply imap_ext. intros i x _. cbn.
  now rewrite Nat.add_succ_r.
Qed.

Lemma merge_results_eq (df : list LocalizedTweet) (results : list ClusterResult) :
  merge_results df results = merge_from 0 df results.
Proof. exact (merge_results_from 0 df results). Qed.


Lemma merge_from_filter (P : ClusterResult -> bool) (k : Z)
    (df : list LocalizedTweet) (results : list ClusterResult) :
  List.filter (fun row => P {| row_id := c_row_id row;
                               res_cluster_id := c_cluster_id row;
                               res_type := c_type row |})
              (merge_from k df results)
  = merge_from k df (List.filter P results).
Proof.
  revert k. induction df as [|r df IH]; intros k; [reflexivity|].
  cbn [merge_from]. rewrite List.filter_app, IH. f_equal.
  clear IH. induction results as [|res results IHr]; [reflexivity|].
  cbn [List.filter].
  destruct (row_id res =? k) eqn:Hk, (P res) eqn:HP; cbn [map List.filter];
    destruct res; cbn in *; rewrite ?HP, ?Hk; cbn [map]; rewrite IHr; reflexivity.
Qed.

Lemma merge_from_length (k : Z) (df : list LocalizedTweet)
    (results : list ClusterResult) :
  (length (merge_from k df results)
   <= length (List.filter (fun res => (k <=? row_id res)%Z) results))%nat.
Proof.
  revert k. induction df as [|r df IH]; intros k; [cbn; lia|].
  cbn [merge_from]. rewrite length_app, length_map.
  specialize (IH (k + 1)).
  assert (Hsplit : (length (List.filter (fun res => (row_id res =? k)%Z) results)
                    + length (List.filter (fun res => (k + 1 <=? row_id res)%Z) results)
                    = length (List.filter (fun res => (k <=? row_id res)%Z) results))%nat).
  { clear. induction results as [|res results IHr]; [reflexivity|].
    cbn [List.filter].
    destruct (Z.eqb_spec (row_id res) k), (Z.leb_spec (k + 1) (row_id res)),
             (Z.leb_spec k (row_id res)); cbn [length]; lia. }
  lia.
Qed.

Lemma filter_length_le {A} (f : A -> bool) (l : list A) :
  (length (List.filter f l) <= length l)%nat.
Proof. induction l as [|x l IH]; cbn; [lia|]. destruct (f x); cbn; lia. Qed.

Lemma core_points_spec (df_clusters : list (ClusterRow (option Z))) :
  match core_points df_clusters with
  | Ok core =>
      map nullable_id core
      = List.filter (fun r => String.eqb (c_type r) "core") df_clusters
  | Raise e =>
      e = ValueError /\
      exists r, In r df_clusters /\ c_type r = "core" /\ c_cluster_id r = None
  end.
Proof.
  unfold core_points.
  assert (Hsub : forall r, In r (List.filter (fun r => String.eqb (c_type r) "core")
                                             df_clusters) ->
                           In r df_clusters /\ c_type r = "core").
  { intros r Hr. apply filter_In in Hr as [Hr Ht]. split; [exact Hr|].
    now apply String.eqb_eq in Ht. }
  induction (List.filter _ df_clusters) as [|r rows IH]; [reflexivity|].
  cbn [result_map]. destruct (c_cluster_id r) as [id|] eqn:Hid.
  - cbn [mbind result_bind]. destruct (result_map _ rows) as [core|e].
    + cbn [mbind result_bind map]. rewrite IH.
      * f_equal. unfold nullable_id. cbn. rewrite <- Hid. now destruct r.
      * intros r' Hr'. apply Hsub. now right.
    + cbn. apply IH. intros r' Hr'. apply Hsub. now right.
  - cbn. split; [reflexivity|]. exists r.
    destruct (Hsub r (or_introl eq_refl)) as [Hr Ht]. now repeat split.
Qed.

(** The core points that enter the aggregates are at most as many as the
    rows of type core that the clusterer returned. *)
Lemma core_points_length (df : list LocalizedTweet) (results : list ClusterResult)
    (core : list (ClusterRow Z)) :
  core_points (merge_results df results) = Ok core ->
  Z.of_nat (length core) <= count_type "core" results.
Proof.
  intros Hcore. pose proof (core_points_spec (merge_results df results)) as Hspec.
  rewrite Hcore in Hspec.
  assert (Hlen : length core
                 = length (List.filter (fun r => String.eqb (c_type r) "core")
                                       (merge_results df results))).
  { rewrite <- Hspec. now rewrite length_map. }
  rewrite merge_results_eq in Hlen.
  rewrite (merge_from_filter (fun res => String.eqb (res_type res) "core")) in Hlen.
  pose proof (merge_from_length 0 df
                (List.filter (fun res => String.eqb (res_type res) "core") results))
    as Hle.
  pose proof (filter_length_le (fun res => 0 <=? row_id res)
                (List.filter (fun res => String.eqb (res_type res) "core") results)).
  unfold count_type. lia.
Qed.

(** ** Every way through [dbscan] *)

(** The selector on the table that the aggregator built. *)
Lemma determine_home_cluster_on_table (core : list (ClusterRow Z))
    (aggs : list ClusterAggregate) :
  create_cluster_aggregates core = Ok aggs ->
  (exists a reason,
     In a aggs /\ In reason home_reasons /\
     determine_home_cluster aggs = Ok (Some (cluster_id a), Some reason) /\
     List.filter (fun b => cluster_id b =? cluster_id a) aggs = [a] /\
     count a = Z.of_nat (length (rows_of_cluster core (cluster_id a)))) \/
  determine_home_cluster aggs = Ok (None, None).
Proof.
  intros Hcreate. pose proof (create_cluster_aggregates_inv core) as Hinv.
  rewrite Hcreate in Hinv. destruct Hinv as (Hcore & Hsorted & Hrows & Hall & _).
  assert (Hne : aggs <> []).
  { intros ->. destruct core as [|r core]; [congruence|].
    destruct (Hall (c_cluster_id r)) as [a Ha]; [now left|].
    assert (Hin : In a []) by (apply Hrows; eexists; split; [now left|exact Ha]).
    destruct Hin. }
  destruct (determine_home_cluster_shape aggs Hne)
    as [(a & reason & Ha & Hreason & Hd)|Hd]; [left|now right].
  exists a, reason. split; [exact Ha|]. split; [exact Hreason|].
  split; [exact Hd|]. split; [now apply filter_cluster_id_sorted|].
  apply Hrows in Ha as (id & Hid & Hagg).
  pose proof (cluster_aggregate_spec core id (rows_of_cluster_nonempty _ _ Hid))
    as Hspec.
  rewrite Hagg in Hspec. destruct Hspec as (-> & Hcount & _). exact Hcount.
Qed.

Lemma forallb_no_cluster (results : list ClusterResult) :
  forallb (fun res => bool_decide (res_cluster_id res = None)) results = false ->
  some_cluster results.
Proof.
  induction results as [|res results IH]; [discriminate|]. cbn [forallb].
  destruct (bool_decide (res_cluster_id res = None)) eqn:Hres; cbn [andb].
  - intros Hrest. destruct (IH Hrest) as (res' & Hin & Hid).
    exists res'. split; [now right|exact Hid].
  - intros _. exists res. split; [now left|].
    now apply bool_decide_eq_false in Hres.
Qed.

Lemma dbscan_outcomes (ext : Externals) (t : Tweet) (rest : list Tweet)
    (trace : list event) :
  exists events r,
    dbscan ext (t :: rest) trace = ((trace ++ made_dirs ext ++ events)%list, r) /\
    dbscan_outcome ext (t :: rest) (user_id t) events r.
Proof.
  rewrite dbscan_eq.
  destruct (localize_datetimes ext (groupby_first (t :: rest))) as [rows|e] eqn:Hl.
  2:{ exists [], (Raise e). rewrite app_nil_r. split; [reflexivity|].
      now constructor. }
  cbv zeta.
  assert (Hpre : preprocessing ext (t :: rest) = Ok (home_period rows))
    by (apply preprocessing_inv; eauto).
  destruct (Z.of_nat (length (home_period rows)) =? 0) eqn:Hlen.
  { apply length_zero_iff in Hlen. rewrite Hlen in *.
    eexists [], _. rewrite app_nil_r. split; [reflexivity|].
    now apply no_tweets. }
  assert (Hdf : home_period rows <> []).
  { intros Hnil. apply length_zero_iff in Hnil. congruence. }
  rewrite dbscan_cluster_eq. cbv zeta.
  destruct (turicreate_dbscan_create ext _ EPS MIN_POINTS) as [results|e] eqn:Hres.
  2:{ eexists [_], (Raise e). rewrite <- app_assoc. split; [reflexivity|].
      now apply clusterer_fails. }
  assert (Hclustered : clustered ext (t :: rest) (home_period rows) results)
    by (split; [exact Hpre|split; [exact Hdf|exact Hres]]).
  destruct (forallb _ results) eqn:Hall.
  { eexists [_], _. rewrite <- app_assoc. split; [reflexivity|].
    apply no_clusters; [exact Hclustered|].
    intros res Hin. rewrite forallb_forall in Hall.
    eapply bool_decide_eq_true_1, Hall, Hin. }
  apply forallb_no_cluster in Hall.
  unfold dbscan_decide. st_unfold.
  destruct (core_points (merge_results (home_period rows) results))
    as [core|e] eqn:Hcore.
  2:{ eexists [_; _], (Raise e). rewrite <- !app_assoc. split; [reflexivity|].
      now apply core_fails. }
  destruct (create_cluster_aggregates core) as [aggs|e] eqn:Haggs.
  2:{ eexists [_; _], (Raise e). rewrite <- !app_assoc. split; [reflexivity|].
      now apply (aggregates_fail _ _ _ _ _ core). }
  destruct (determine_home_cluster_on_table core aggs Haggs)
    as [(a & reason & Ha & Hreason & Hd & Hfilter & _)|Hd]; rewrite Hd.
  - rewrite Hfilter. cbn [merge_dicts fold_left opt_pyval]. unfold dict_update.
    eexists [_; _; _], _. rewrite <- !app_assoc. split; [reflexivity|].
    now apply (decided _ _ _ _ _ core).
  - cbn [merge_dicts fold_left opt_pyval]. unfold dict_update.
    eexists [_; _; _], _. rewrite <- !app_assoc. split; [reflexivity|].
    now apply (undecided _ _ _ _ _ core).
Qed.

Lemma is_Some_singleton (i k : string) (x : pyval) :
  is_Some (({[ i := x ]} : pydict) !! k) <-> i = k.
Proof.
  destruct (decide (i = k)) as [->|Hne].
  - rewrite lookup_singleton_eq. split; [reflexivity|eauto].
  - rewrite lookup_singleton_ne by exact Hne. split; [intros [? [=]]|contradiction].
Qed.

Lemma home_decision_dict_keys (id reason lo la n : pyval) (k : string) :
  is_Some (home_decision_dict id reason lo la n !! k) <-> In k decision_keys.
Proof.
  unfold home_decision_dict, decision_keys.
  rewrite !lookup_insert_is_Some', is_Some_singleton. cbn [In]. tauto.
Qed.

Lemma debug_info_preprocessed_keys (n_burst n_home : Z) (k : string) :
  is_Some (debug_info_preprocessed n_burst n_home !! k) <->
  In k (["clustering_attempted"; "n_burst_tweets"; "n_home_period_tweets"]
        ++ counter_keys)%list.
Proof.
  unfold debug_info_preprocessed, dict_update, counter_keys, DBSCAN_CLUSTER_TYPES.
  cbn [map list_to_map foldr fst snd].
  rewrite !lookup_insert_is_Some', lookup_union_is_Some, !lookup_insert_is_Some',
    is_Some_singleton, lookup_empty. cbn [In app].
  pose proof (@is_Some_None pyval). tauto.
Qed.

Lemma debug_info_clustered_keys (results : list ClusterResult) (info : pydict)
    (k : string) :
  is_Some (debug_info_clustered results info !! k) <->
  In k counter_keys \/ is_Some (info !! k).
Proof.
  unfold debug_info_clustered, counter_keys, DBSCAN_CLUSTER_TYPES.
  rewrite !lookup_insert_is_Some'. cbn [map In].
  change (counter_key "core") with "n_dbscan_core_tweets".
  change (counter_key "boundary") with "n_dbscan_boundary_tweets".
  change (counter_key "noise") with "n_dbscan_noise_tweets".
  tauto.
Qed.

(** The entries of a dict that [dbscan] returns: a decision laid over the
    debug information. *)
Lemma decision_over_info (id reason lo la n : pyval) (info : pydict) :
  let d := home_decision_dict id reason lo la n ∪ info in
  d !! "home_cluster_id" = Some id /\
  d !! "home_cluster_reason" = Some reason /\
  d !! "home_cluster_centroid_lon" = Some lo /\
  d !! "home_cluster_centroid_lat" = Some la /\
  d !! "home_cluster_count" = Some n /\
  forall k, ~ In k decision_keys -> d !! k = info !! k.
Proof.
  cbv zeta.
  pose proof (home_decision_dict_lookup id reason lo la n) as Hd.
  cbv zeta in Hd. destruct Hd as (H1 & H2 & H3 & H4 & H5 & _).
  split; [now apply lookup_union_Some_l|].
  split; [now apply lookup_union_Some_l|].
  split; [now apply lookup_union_Some_l|].
  split; [now apply lookup_union_Some_l|].
  split; [now apply lookup_union_Some_l|].
  intros k Hk. apply lookup_union_r. now apply home_decision_dict_other.
Qed.

Lemma info_preprocessed_lookup (tweets_df : list Tweet) (df : list LocalizedTweet) :
  info_preprocessed tweets_df df !! "clustering_attempted" = Some (PInt 0) /\
  info_preprocessed tweets_df df !! "n_burst_tweets"
  = Some (PInt (burst_count tweets_df)) /\
  info_preprocessed tweets_df df !! "n_home_period_tweets"
  = Some (PInt (Z.of_nat (length df))).
Proof.
  unfold info_preprocessed.
  pose proof (debug_info_preprocessed_lookup (burst_count tweets_df)
                (Z.of_nat (length df))) as H.
  cbv zeta in H. destruct H as (H1 & H2 & H3 & _). now repeat split.
Qed.

Lemma info_clustered_lookup (tweets_df : list Tweet) (df : list LocalizedTweet)
    (results : list ClusterResult) :
  info_clustered tweets_df df results !! "clustering_attempted" = Some (PInt 1) /\
  info_clustered tweets_df df results !! "n_burst_tweets"
  = Some (PInt (burst_count tweets_df)) /\
  info_clustered tweets_df df results !! "n_home_period_tweets"
  = Some (PInt (Z.of_nat (length df))) /\
  info_clustered tweets_df df results !! "n_dbscan_core_tweets"
  = Some (PInt (count_type "core" results)).
Proof.
  unfold info_clustered.
  pose proof (debug_info_clustered_lookup results
                (<["clustering_attempted" := PInt 1]>
                   (info_preprocessed tweets_df df))) as H.
  cbv zeta in H. destruct H as (Hcore & _ & _ & Hother).
  destruct (info_preprocessed_lookup tweets_df df) as (_ & Hb & Hh).
  split; [|split; [|split; [|exact Hcore]]].
  - rewrite Hother by (vm_compute; intuition discriminate).
    apply lookup_insert_eq.
  - rewrite Hother by (vm_compute; intuition discriminate).
    rewrite lookup_insert_ne by discriminate. exact Hb.
  - rewrite Hother by (vm_compute; intuition discriminate).
    rewrite lookup_insert_ne by discriminate. exact Hh.
Qed.

Lemma not_decision_key (k : string) :
  In k (["clustering_attempted"; "n_burst_tweets"; "n_home_period_tweets"]
        ++ counter_keys)%list ->
  ~ In k decision_keys.
Proof.
  intros Hk Hd. vm_compute in Hk, Hd.
  repeat (destruct Hk as [<-|Hk]);
    try (repeat (destruct Hd as [Hd|Hd]; [discriminate Hd|]); exact Hd).
  exact Hk.
Qed.

Lemma home_period_length (rows : list LocalizedTweet) :
  (length (home_period rows) <= length rows)%nat.
Proof.
  unfold home_period.
  etransitivity; [apply filter_length_le|apply filter_length_le].
Qed.

Lemma preprocessing_length (ext : Externals) (tweets_df : list Tweet)
    (df : list LocalizedTweet) :
  preprocessing ext tweets_df = Ok df ->
  0 <= burst_count tweets_df /\
  burst_count tweets_df + Z.of_nat (length df) <= Z.of_nat (length tweets_df).
Proof.
  intros Hpre. apply preprocessing_inv in Hpre as (rows & Hrows & ->).
  pose proof (df_apply_localize ext (groupby_first tweets_df) ∅) as Hloc.
  fold (localize_datetimes ext (groupby_first tweets_df)) in Hloc.
  rewrite Hrows in Hloc. destruct Hloc as [Hmap _].
  apply (f_equal (@length Tweet)) in Hmap. rewrite length_map in Hmap.
  pose proof (groupby_first_length tweets_df).
  pose proof (home_period_length rows).
  unfold burst_count. lia.
Qed.

Lemma aggregate_count_bounds (core : list (ClusterRow Z))
    (aggs : list ClusterAggregate) (a : ClusterAggregate) :
  create_cluster_aggregates core = Ok aggs -> In a aggs ->
  1 <= count a <= Z.of_nat (length core).
Proof.
  intros Hcreate Ha. pose proof (create_cluster_aggregates_inv core) as Hinv.
  rewrite Hcreate in Hinv. destruct Hinv as (_ & _ & Hrows & _ & _).
  apply Hrows in Ha as (id & Hid & Hagg).
  pose proof (rows_of_cluster_nonempty _ _ Hid) as Hne.
  pose proof (cluster_aggregate_spec core id Hne) as Hspec.
  rewrite Hagg in Hspec. destruct Hspec as (_ & -> & _).
  pose proof (filter_length_le (fun r => c_cluster_id r =? id) core) as Hle.
  fold (rows_of_cluster core id) in Hle.
  destruct (rows_of_cluster core id); [congruence|]. cbn [length] in *. lia.
Qed.

(** X9: what [dbscan] does to the world.  On an empty frame it raises
    KeyError and does nothing.  Otherwise it creates the missing output
    directories first, runs the clusterer at most once, writes the snapshot
    of the cluster ids only when the clusterer gave some row a cluster id,
    and writes the aggregates only after the snapshot, exactly when it then
    returns a dict; both files are written for the user of the first row. *)
Theorem dbscan_trace (ext : Externals) (tweets_df : list Tweet)
    (trace : list event) :
  match tweets_df with
  | [] => dbscan ext tweets_df trace = (trace, Raise KeyError)
  | t :: _ =>
      exists events,
        (dbscan ext tweets_df trace).1 = (trace ++ made_dirs ext ++ events)%list /\
        (events = [] \/
         exists points,
           events = [DbscanCreate points] \/
           exists results rows,
             turicreate_dbscan_create ext points EPS MIN_POINTS = Ok results /\
             some_cluster results /\
             ((events = [DbscanCreate points;
                         ToCsv CLUSTERS_OUTPUT (user_id t) (ClustersCsv rows)] /\
               is_ok (dbscan ext tweets_df trace).2 = false) \/
              exists aggs,
                events = [DbscanCreate points;
                          ToCsv CLUSTERS_OUTPUT (user_id t) (ClustersCsv rows);
                          ToCsv AGGREGATES_OUTPUT (user_id t) (AggregatesCsv aggs)] /\
                is_ok (dbscan ext tweets_df trace).2 = true))
  end.
Proof.
  destruct tweets_df as [|t rest]; [reflexivity|].
  destruct (dbscan_outcomes ext t rest trace) as (events & r & -> & Hout).
  exists events. split; [reflexivity|]. cbn [snd].
  destruct Hout as [e _| _|df e _ _ _|df results _ _
                   |df results e (_ & _ & Hres) Hsome _
                   |df results core e (_ & _ & Hres) Hsome _ _
                   |df results core aggs a reason (_ & _ & Hres) Hsome _ _ _ _ _
                   |df results core aggs (_ & _ & Hres) Hsome _ _ _].
  - now left.
  - now left.
  - right. eexists. now left.
  - right. eexists. now left.
  - right. eexists. right. do 2 eexists. split; [exact Hres|].
    split; [exact Hsome|]. left. split; reflexivity.
  - right. eexists. right. do 2 eexists. split; [exact Hres|].
    split; [exact Hsome|]. left. split; reflexivity.
  - right. eexists. right. do 2 eexists. split; [exact Hres|].
    split; [exact Hsome|]. right. eexists. split; reflexivity.
  - right. eexists. right. do 2 eexists. split; [exact Hres|].
    split; [exact Hsome|]. right. eexists. split; reflexivity.
Qed.


(** X11: the counters of the preprocessing.  In every dict that [dbscan]
    returns, n_burst_tweets and n_home_period_tweets are not negative and
    add up to no more than the number of rows of the input;
    n_home_period_tweets is 0 exactly when clustering_attempted is 0, and
    then nothing but the directories is touched; otherwise a clustering has
    been attempted, on exactly n_home_period_tweets points. *)
Theorem dbscan_preprocessing_counters (ext : Externals) (tweets_df : list Tweet)
    (trace trace' : list event) (d : pydict) :
  dbscan ext tweets_df trace = (trace', Ok d) ->
  exists n_burst n_home,
    d !! "n_burst_tweets" = Some (PInt n_burst) /\
    d !! "n_home_period_tweets" = Some (PInt n_home) /\
    0 <= n_burst /\ 0 <= n_home /\
    n_burst + n_home <= Z.of_nat (length tweets_df) /\
    ((n_home = 0 /\ d !! "clustering_attempted" = Some (PInt 0) /\
      trace' = (trace ++ made_dirs ext)%list) \/
     (1 <= n_home /\ d !! "clustering_attempted" = Some (PInt 1) /\
      exists points more,
        trace' = (trace ++ made_dirs ext ++ DbscanCreate points :: more)%list /\
        Z.of_nat (length points) = n_home)).
Proof.
  destruct tweets_df as [|t rest]; [discriminate|].
  destruct (dbscan_outcomes ext t rest trace) as (events & r & -> & Hout).
  intros [= <- ->].
  assert (Hattempted : forall df results id reason lo la n more,
    clustered ext (t :: rest) df results ->
    exists n_burst n_home,
      (home_decision_dict id reason lo la n ∪ info_clustered (t :: rest) df results)
        !! "n_burst_tweets" = Some (PInt n_burst) /\
      (home_decision_dict id reason lo la n ∪ info_clustered (t :: rest) df results)
        !! "n_home_period_tweets" = Some (PInt n_home) /\
      0 <= n_burst /\ 0 <= n_home /\
      n_burst + n_home <= Z.of_nat (length (t :: rest)) /\
      ((n_home = 0 /\
        (home_decision_dict id reason lo la n ∪ info_clustered (t :: rest) df results)
          !! "clustering_attempted" = Some (PInt 0) /\
        (trace ++ made_dirs ext ++ DbscanCreate (lon_lat_columns df) :: more)%list
        = (trace ++ made_dirs ext)%list) \/
       (1 <= n_home /\
        (home_decision_dict id reason lo la n ∪ info_clustered (t :: rest) df results)
          !! "clustering_attempted" = Some (PInt 1) /\
        exists points more',
          (trace ++ made_dirs ext ++ DbscanCreate (lon_lat_columns df) :: more)%list
          = (trace ++ made_dirs ext ++ DbscanCreate points :: more')%list /\
          Z.of_nat (length points) = n_home))).
  { intros df results id reason lo la n more (Hpre & Hdf & _).
    destruct (preprocessing_length _ _ _ Hpre) as [Hb Hsum].
    destruct (decision_over_info id reason lo la n
                (info_clustered (t :: rest) df results)) as (_ & _ & _ & _ & _ & Hk).
    destruct (info_clustered_lookup (t :: rest) df results) as (Ha & Hbt & Hh & _).
    exists (burst_count (t :: rest)), (Z.of_nat (length df)).
    split; [rewrite Hk by (vm_compute; intuition discriminate); exact Hbt|].
    split; [rewrite Hk by (vm_compute; intuition discriminate); exact Hh|].
    split; [exact Hb|]. split; [lia|]. split; [exact Hsum|]. right.
    split; [destruct df; [congruence|cbn [length]; lia]|].
    split; [rewrite Hk by (vm_compute; intuition discriminate); exact Ha|].
    exists (lon_lat_columns df), more. split; [reflexivity|].
    unfold lon_lat_columns. now rewrite length_map. }
  inversion Hout as [|Hpre| |df results Hcl _| |
                    |df results core aggs a reason Hcl _ _ _ _ _ _
                    |df results core aggs Hcl _ _ _ _]; subst.
  - destruct (preprocessing_length _ _ _ Hpre) as [Hb Hsum].
    destruct (decision_over_info (PInt (-1))
                (PStr "no tweets in desired time range") PNone PNone PNone
                (info_preprocessed (t :: rest) [])) as (_ & _ & _ & _ & _ & Hk).
    destruct (info_preprocessed_lookup (t :: rest) []) as (Ha & Hbt & Hh).
    exists (burst_count (t :: rest)), 0.
    split; [rewrite Hk by (vm_compute; intuition discriminate); exact Hbt|].
    split; [rewrite Hk by (vm_compute; intuition discriminate); exact Hh|].
    split; [exact Hb|]. split; [lia|]. split; [cbn [length] in Hsum |- *; lia|]. left.
    split; [reflexivity|].
    split; [rewrite Hk by (vm_compute; intuition discriminate); exact Ha|].
    now rewrite app_nil_r.
  - now apply Hattempted.
  - now apply Hattempted.
  - now apply Hattempted.
Qed.

Lemma dbscan_preprocessing_counters_witness :
  exists n_burst n_home,
    0 <= n_burst /\ 0 <= n_home /\ n_burst + n_home <= 1.
Proof.
  destruct (dbscan_preprocessing_counters demo_ext [tweet_sat] []
              (dbscan demo_ext [tweet_sat] []).1
              (home_decision_dict (PInt (-1))
                 (PStr "no tweets in desired time range") PNone PNone PNone
               ∪ info_preprocessed [tweet_sat] []))
    as (n_burst & n_home & _ & _ & Hb & Hh & Hsum & _).
  - rewrite dbscan_eq. reflexivity.
  - exists n_burst, n_home. cbn [length] in Hsum. repeat split; assumption.
Defined.

Lemma dbscan_result_keys (ext : Externals) (tweets_df : list Tweet)
    (trace trace' : list event) (d : pydict) :
  dbscan ext tweets_df trace = (trace', Ok d) ->
  forall k, is_Some (d !! k) <-> In k dbscan_keys.
Proof.
  intros Hrun.
  destruct tweets_df as [|t rest]; [discriminate|].
  destruct (dbscan_outcomes ext t rest trace) as (events & r & Heq & Hout).
  rewrite Heq in Hrun. injection Hrun as _ ->.
  assert (Hpre : forall id reason lo la n df k,
            is_Some ((home_decision_dict id reason lo la n
                      ∪ info_preprocessed (t :: rest) df) !! k)
            <-> In k dbscan_keys).
  { intros. rewrite lookup_union_is_Some, home_decision_dict_keys.
    unfold info_preprocessed. rewrite debug_info_preprocessed_keys.
    unfold dbscan_keys. rewrite !in_app_iff. tauto. }
  assert (Hcl : forall id reason lo la n df results k,
            is_Some ((home_decision_dict id reason lo la n
                      ∪ info_clustered (t :: rest) df results) !! k)
            <-> In k dbscan_keys).
  { intros. rewrite lookup_union_is_Some, home_decision_dict_keys.
    unfold info_clustered. rewrite debug_info_clustered_keys.
    rewrite lookup_insert_is_Some'.
    unfold info_preprocessed. rewrite debug_info_preprocessed_keys.
    unfold dbscan_keys. rewrite !in_app_iff. cbn [In]. tauto. }
  inversion Hout; subst; intros k; [apply Hpre|apply Hcl..].
Qed.

(** X12: the keys of the dict that [dbscan] returns are the same on every
    way out: clustering_attempted, the two counters of the preprocessing, the
    three counters of the clustering and the five entries of the decision,
    all of them columns of the output file of main.py. *)
Theorem dbscan_keys_fixed (ext : Externals) (tweets_df : list Tweet)
    (trace trace' : list event) (d : pydict) :
  dbscan ext tweets_df trace = (trace', Ok d) ->
  (forall k, is_Some (d !! k) <-> In k dbscan_keys) /\
  (forall k, In k dbscan_keys -> In k OUTPUT_HEADERS).
Proof.
  intros Hrun. split; [now apply (dbscan_result_keys ext tweets_df trace trace')|].
  intros k Hk. vm_compute in Hk |- *. tauto.
Qed.

Lemma dbscan_keys_fixed_witness :
  is_Some ((home_decision_dict (PInt (-1))
              (PStr "no tweets in desired time range") PNone PNone PNone
            ∪ info_preprocessed [tweet_sat] []) !! "n_dbscan_core_tweets") /\
  In "n_dbscan_core_tweets" OUTPUT_HEADERS.
Proof.
  destruct (dbscan_keys_fixed demo_ext [tweet_sat] []
              (dbscan demo_ext [tweet_sat] []).1
              (home_decision_dict (PInt (-1))
                 (PStr "no tweets in desired time range") PNone PNone PNone
               ∪ info_preprocessed [tweet_sat] [])) as [Hkeys Hcols].
  - rewrite dbscan_eq. reflexivity.
  - split.
    + apply Hkeys. vm_compute. tauto.
    + apply Hcols. vm_compute. tauto.
Defined.

(** X13: the decision in the dict that [dbscan] returns takes one of four
    forms: id -1 with the reason that no tweet is in the time range, or with
    the reason that there is no cluster, centroid and count being None; all
    five entries None, when the clusters tie on the three rules; or the id
    of a cluster with one of the three reasons, its centroid and its count,
    the count being at least 1 and at most n_dbscan_core_tweets. *)
Theorem dbscan_home_decision (ext : Externals) (tweets_df : list Tweet)
    (trace trace' : list event) (d : pydict) :
  dbscan ext tweets_df trace = (trace', Ok d) ->
  let entries := [ d !! "home_cluster_id"; d !! "home_cluster_reason";
                   d !! "home_cluster_centroid_lon";
                   d !! "home_cluster_centroid_lat"; d !! "home_cluster_count" ] in
  entries = [ Some (PInt (-1)); Some (PStr "no tweets in desired time range");
              Some PNone; Some PNone; Some PNone ] \/
  entries = [ Some (PInt (-1)); Some (PStr "no clusters");
              Some PNone; Some PNone; Some PNone ] \/
  entries = [ Some PNone; Some PNone; Some PNone; Some PNone; Some PNone ] \/
  exists id reason lo la n n_core,
    entries = [ Some (PInt id); Some (PStr reason); Some (PFloat lo);
                Some (PFloat la); Some (PInt n) ] /\
    In reason home_reasons /\
    d !! "n_dbscan_core_tweets" = Some (PInt n_core) /\
    1 <= n <= n_core.
Proof.
  destruct tweets_df as [|t rest]; [discriminate|].
  destruct (dbscan_outcomes ext t rest trace) as (events & r & -> & Hout).
  intros [= _ ->]. cbv zeta.
  assert (Hentries : forall id reason lo la n info,
    let d := home_decision_dict id reason lo la n ∪ info in
    [ d !! "home_cluster_id"; d !! "home_cluster_reason";
      d !! "home_cluster_centroid_lon"; d !! "home_cluster_centroid_lat";
      d !! "home_cluster_count" ]
    = [ Some id; Some reason; Some lo; Some la; Some n ]).
  { intros id reason lo la n info.
    destruct (decision_over_info id reason lo la n info)
      as (H1 & H2 & H3 & H4 & H5 & _).
    cbv zeta. now rewrite H1, H2, H3, H4, H5. }
  cbv zeta in Hentries.
  inversion Hout as [| | | |
                    |
                    |df results core aggs a reason Hcl _ Hcore Haggs Ha Hreason _
                    |]; subst; rewrite Hentries.
  - now left.
  - right. now left.
  - right. right. right.
    exists (cluster_id a), reason, (centroid_lon a), (centroid_lat a), (count a),
           (count_type "core" results).
    split; [reflexivity|]. split; [exact Hreason|]. split.
    + destruct (decision_over_info (PInt (cluster_id a)) (PStr reason)
                  (PFloat (centroid_lon a)) (PFloat (centroid_lat a))
                  (PInt (count a)) (info_clustered (t :: rest) df results))
        as (_ & _ & _ & _ & _ & Hk).
      rewrite Hk by (vm_compute; intuition discriminate).
      exact (proj2 (proj2 (proj2 (info_clustered_lookup _ _ _)))).
    + pose proof (aggregate_count_bounds core aggs a Haggs Ha).
      pose proof (core_points_length df results core Hcore). lia.
  - right. right. now left.
Qed.

Lemma dbscan_home_decision_witness :
  (home_decision_dict (PInt (-1))
     (PStr "no tweets in desired time range") PNone PNone PNone
   ∪ info_preprocessed [tweet_sat] []) !! "home_cluster_id" = Some (PInt (-1)).
Proof.
  destruct (dbscan_home_decision demo_ext [tweet_sat] []
              (dbscan demo_ext [tweet_sat] []).1
              (home_decision_dict (PInt (-1))
                 (PStr "no tweets in desired time range") PNone PNone PNone
               ∪ info_preprocessed [tweet_sat] []))
    as [H|[H|[H|(id & reason & lo & la & n & n_core & H & _)]]].
  - rewrite dbscan_eq. reflexivity.
  - exact (f_equal (fun l => nth 0 l None) H).
  - exact (f_equal (fun l => nth 0 l None) H).
  - cbv zeta in H. vm_compute in H. discriminate H.
  - cbv zeta in H. vm_compute in H. discriminate H.
Defined.

(** ** The fallback of the localization and the rest of the pipeline *)










Lemma demo_parse_aware (s : string) (d : datetime) :
  demo_parse s = Ok d -> aware d = true.
Proof.
  unfold demo_parse.
  repeat (destruct (String.eqb s _); [now intros [= <-]|]). discriminate.
Qed.





(** ** The snapshot of the cluster ids *)

Lemma merge_from_rows (k : Z) (df : list LocalizedTweet)
    (results : list ClusterResult) (row : ClusterRow (option Z)) :
  In row (merge_from k df results) ->
  exists (i : nat) r res,
    df !! i = Some r /\ In res results /\ row_id res = k + Z.of_nat i /\
    row = {| c_tweet := tweet r; c_dt := dt r; c_row_id := row_id res;
             c_cluster_id := res_cluster_id res; c_type := res_type res |}.
Proof.
  revert k. induction df as [|r df IH]; intros k; [intros []|].
  cbn [merge_from]. rewrite in_app_iff. intros [Hin|Hin].
  - apply in_map_iff in Hin as (res & <- & Hres).
    apply filter_In in Hres as [Hres Hk]. apply Z.eqb_eq in Hk.
    exists 0%nat, r, res. split; [reflexivity|]. split; [exact Hres|].
    split; [lia|reflexivity].
  - destruct (IH _ Hin) as (i & r' & res & Hi & Hres & Hk & ->).
    exists (S i), r', res. split; [exact Hi|]. split; [exact Hres|].
    split; [lia|reflexivity].
Qed.

Lemma filter_key_at_most_one {A} (f : A -> Z) (v : Z) (l : list A) :
  List.NoDup (map f l) ->
  (length (List.filter (fun x => (f x =? v)%Z) l) <= 1)%nat.
Proof.
  induction l as [|a l IH]; cbn [map List.filter]; intros Hnd; [cbn; lia|].
  apply List.NoDup_cons_iff in Hnd as [Hnot Hnd].
  destruct (Z.eqb_spec (f a) v) as [Heq|Hne]; [|now apply IH].
  rewrite (filter_none (fun x => f x =? v) l); [cbn; lia|].
  intros b Hb. apply Z.eqb_neq. intros Hfb. apply Hnot.
  rewrite Heq, <- Hfb. now apply in_map.
Qed.

(** A table with one row for each index of the frame. *)
Lemma one_result_per_index (n : nat) (results : list ClusterResult) :
  List.NoDup (map row_id results) ->
  (forall res, In res results -> 0 <= row_id res < Z.of_nat n) ->
  length results = n ->
  forall i, (i < n)%nat ->
    exists res, List.filter (fun res => row_id res =? Z.of_nat i) results = [res].
Proof.
  intros Hnd Hrange Hlen i Hi.
  set (ids := map (fun res => Z.to_nat (row_id res)) results).
  assert (Hids : List.NoDup ids).
  { unfold ids. rewrite <- (map_map row_id Z.to_nat).
    apply NoDup_map_NoDup_ForallPairs; [|exact Hnd].
    intros x y Hx Hy Heq.
    apply in_map_iff in Hx as (rx & <- & Hrx).
    apply in_map_iff in Hy as (ry & <- & Hry).
    pose proof (Hrange rx Hrx). pose proof (Hrange ry Hry). lia. }
  assert (Hincl : incl ids (seq 0 n)).
  { intros x Hx. apply in_map_iff in Hx as (res & <- & Hres).
    apply in_seq. pose proof (Hrange res Hres). lia. }
  assert (Hback : incl (seq 0 n) ids).
  { apply NoDup_length_incl; [exact Hids| |exact Hincl].
    unfold ids. rewrite length_seq, length_map. lia. }
  assert (Hin : In i ids) by (apply Hback, in_seq; lia).
  apply in_map_iff in Hin as (res & Hres & Hin).
  assert (Hfilter : In res (List.filter (fun res => row_id res =? Z.of_nat i) results)).
  { apply filter_In. split; [exact Hin|]. apply Z.eqb_eq.
    pose proof (Hrange res Hin). lia. }
  pose proof (filter_key_at_most_one row_id (Z.of_nat i) results Hnd) as Hone.
  destruct (List.filter _ results) as [|x [|y more]]; [destruct Hfilter| |cbn in Hone; lia].
  now exists x.
Qed.

Lemma merge_from_exact (k : Z) (df : list LocalizedTweet)
    (results : list ClusterResult) :
  (forall i, (i < length df)%nat ->
     exists res,
       List.filter (fun res => row_id res =? k + Z.of_nat i) results = [res]) ->
  map c_row_id (merge_from k df results)
  = map (fun i => k + Z.of_nat i) (seq 0 (length df)) /\
  map (fun row => (c_tweet row, c_dt row)) (merge_from k df results)
  = map (fun r => (tweet r, dt r)) df.
Proof.
  revert k. induction df as [|r df IH]; intros k Hone; [split; reflexivity|].
  cbn [merge_from length seq map].
  destruct (Hone 0%nat) as [res Hres]; [cbn; lia|].
  replace (k + Z.of_nat 0) with k in Hres |- * by lia. rewrite Hres.
  assert (Hk : row_id res = k).
  { assert (Hin : In res (List.filter (fun res => row_id res =? k) results))
      by (rewrite Hres; now left).
    apply filter_In in Hin as [_ Hin]. now apply Z.eqb_eq. }
  destruct (IH (k + 1)) as [Hids Hrows].
  { intros i Hi. destruct (Hone (S i)) as [res' Hres']; [cbn; lia|].
    exists res'. rewrite <- Hres'. apply List.filter_ext.
    intros x. f_equal. lia. }
  cbn [map app]. rewrite Hids, Hrows, Hk. split; [|reflexivity].
  f_equal. rewrite <- seq_shift, map_map. apply map_ext. intros i. lia.
Qed.

(** X14: the merge of the home-period frame with the clusterer's table
    ([pandas.merge(df, results, left_index = True, right_on = "row_id")]).
    Every merged row joins a row of the frame with a row of the table whose
    row_id is the index of the former, so the merge has at most as many rows
    as the table and a row of the table whose row_id is no index is dropped.
    When the table has one row for each index (distinct row ids within
    range, as many as the frame has rows), the merge and with it the
    snapshot file hold each tweet of the frame exactly once, in the order of
    the frame. *)
Theorem merge_results_rows (df : list LocalizedTweet) (results : list ClusterResult) :
  (length (merge_results df results) <= length results)%nat /\
  (forall row, In row (merge_results df results) ->
     exists (i : nat) r res,
       df !! i = Some r /\ In res results /\ row_id res = Z.of_nat i /\
       row = {| c_tweet := tweet r; c_dt := dt r; c_row_id := row_id res;
                c_cluster_id := res_cluster_id res; c_type := res_type res |}) /\
  (List.NoDup (map row_id results) ->
   (forall res, In res results -> 0 <= row_id res < Z.of_nat (length df)) ->
   length results = length df ->
   map c_row_id (merge_results df results) = map Z.of_nat (seq 0 (length df)) /\
   map (fun row => (c_tweet row, c_dt row)) (merge_results df results)
   = map (fun r => (tweet r, dt r)) df /\
   map (fun o => (o_user_id o, o_lon o, o_lat o, o_datetime o))
       (create_output_df (merge_results df results))
   = map (fun r => (user_id (tweet r), lon (tweet r), lat (tweet r), dt r)) df).
Proof.
  rewrite merge_results_eq. split; [|split].
  - etransitivity; [apply merge_from_length|apply filter_length_le].
  - intros row Hrow.
    destruct (merge_from_rows _ _ _ _ Hrow) as (i & r & res & Hi & Hres & Hk & ->).
    exists i, r, res. now repeat split.
  - intros Hnd Hrange Hlen.
    destruct (merge_from_exact 0 df results) as [Hids Hrows].
    { intros i Hi. apply (one_result_per_index (length df)); assumption. }
    split; [exact Hids|]. split; [exact Hrows|].
    transitivity (map (fun p : Tweet * datetime => (user_id p.1, lon p.1, lat p.1, p.2))
                      (map (fun row => (c_tweet row, c_dt row))
                           (merge_from 0 df results))).
    + unfold create_output_df. rewrite !map_map. reflexivity.
    + rewrite Hrows, map_map. reflexivity.
Qed.

Lemma merge_results_rows_witness :
  map c_row_id (merge_results boston_rows (one_cluster (lon_lat_columns boston_rows)))
  = [0; 1] /\
  map (fun row => (c_tweet row, c_dt row))
      (merge_results boston_rows (one_cluster (lon_lat_columns boston_rows)))
  = map (fun r => (tweet r, dt r)) boston_rows.
Proof.
  destruct (merge_results_rows boston_rows (one_cluster (lon_lat_columns boston_rows)))
    as (_ & _ & Hexact).
  destruct Hexact as (Hids & Hrows & _).
  - cbn. repeat constructor; cbn; intuition discriminate.
  - intros res Hres. cbn in Hres. destruct Hres as [<-|[<-|[]]]; cbn; lia.
  - reflexivity.
  - split; [exact Hids|exact Hrows].
Defined.

(** ** More on burst removal *)

Lemma StronglySorted_snoc {A} (R : A -> A -> Prop) (l : list A) (x : A) :
  StronglySorted R (l ++ [x]) -> StronglySorted R l /\ List.Forall (fun y => R y x) l.
Proof.
  induction l as [|a l IH]; cbn; intros Hs; [split; constructor|].
  apply StronglySorted_inv in Hs as [Hs Ha].
  destruct (IH Hs) as [Hl Hx]. apply List.Forall_app in Ha as [Hal Hax].
  split; constructor; try assumption. now inversion Hax.
Qed.

Lemma groupby_insert_last (t : Tweet) (groups : list Tweet) :
  List.Forall (fun g => key_lt (burst_key g) (burst_key t)) groups ->
  groupby_insert t groups = (groups ++ [t])%list.
Proof.
  induction groups as [|g groups IH]; intros Hall; [reflexivity|].
  inversion Hall as [|? ? Hg Hrest]; subst. cbn [groupby_insert app].
  unfold key_lt in Hg. rewrite (cmp_antisym _ GoodCmp_key), Hg. cbn.
  now rewrite IH.
Qed.

Lemma groupby_first_of_sorted (groups : list Tweet) :
  StronglySorted key_lt (map burst_key groups) -> groupby_first groups = groups.
Proof.
  induction groups as [|t groups IH] using rev_ind; intros Hs; [reflexivity|].
  rewrite map_app in Hs. cbn [map] in Hs.
  apply StronglySorted_snoc in Hs as [Hs Hall].
  rewrite groupby_first_snoc, (IH Hs). apply groupby_insert_last.
  apply List.Forall_forall. intros g Hg. rewrite List.Forall_forall in Hall.
  apply Hall. now apply in_map.
Qed.

Lemma existsb_same_burst (t : Tweet) (l : list Tweet) :
  existsb (same_burst t) l = true <-> In (burst_key t) (map burst_key l).
Proof.
  rewrite existsb_exists, in_map_iff. split.
  - intros (g & Hg & Hsame). apply same_burst_iff in Hsame. now exists g.
  - intros (g & Hkey & Hg). exists g. split; [exact Hg|]. now apply same_burst_iff.
Qed.

Lemma groupby_insert_new_length (t : Tweet) (groups : list Tweet) :
  StronglySorted key_lt (map burst_key groups) ->
  length (groupby_insert t groups)
  = if existsb (same_burst t) groups then length groups else S (length groups).
Proof.
  induction groups as [|g groups IH]; intros Hs; [reflexivity|].
  cbn [map] in Hs. apply StronglySorted_inv in Hs as [Hs Hg].
  cbn [groupby_insert existsb]. unfold same_burst at 1.
  destruct (key_compare (burst_key t) (burst_key g)) eqn:Hc; cbn [orb length].
  - reflexivity.
  - assert (Hnone : existsb (same_burst t) groups = false).
    { apply not_true_is_false. intros Hex. apply existsb_same_burst in Hex.
      rewrite List.Forall_forall in Hg. specialize (Hg _ Hex).
      pose proof (key_lt_trans _ _ _ Hc Hg) as Hlt. unfold key_lt in Hlt.
      rewrite key_compare_refl in Hlt. discriminate. }
    now rewrite Hnone.
  - rewrite (IH Hs). destruct (existsb (same_burst t) groups); reflexivity.
Qed.

Lemma groupby_first_snoc_length (df : list Tweet) (t : Tweet) :
  length (groupby_first (df ++ [t]))
  = if existsb (same_burst t) df then length (groupby_first df)
    else S (length (groupby_first df)).
Proof.
  rewrite groupby_first_snoc, groupby_insert_new_length by apply groupby_first_sorted.
  assert (Hsame : existsb (same_burst t) (groupby_first df)
                  = existsb (same_burst t) df).
  { apply eq_true_iff_eq. rewrite !existsb_same_burst. apply groupby_first_keys. }
  now rewrite Hsame.
Qed.

Lemma NoDup_snoc {A} (l : list A) (x : A) :
  List.NoDup (l ++ [x]) <-> List.NoDup l /\ ~ In x l.
Proof.
  induction l as [|a l IH]; cbn.
  - split; [intros _; split; [constructor|tauto]|intros _; repeat constructor; tauto].
  - rewrite !List.NoDup_cons_iff, IH, in_app_iff. cbn. intuition congruence.
Qed.

Lemma groupby_first_full_length (df : list Tweet) :
  length (groupby_first df) = length df <-> List.NoDup (map burst_key df).
Proof.
  induction df as [|t df IH] using rev_ind; [split; [constructor|reflexivity]|].
  rewrite groupby_first_snoc_length, map_app, length_app. cbn [map length].
  rewrite NoDup_snoc.
  pose proof (groupby_first_length df) as Hle.
  destruct (existsb (same_burst t) df) eqn:Hex.
  - apply existsb_same_burst in Hex. split; [lia|tauto].
  - assert (Hnot : ~ In (burst_key t) (map burst_key df)).
    { intros Hin. apply existsb_same_burst in Hin. congruence. }
    rewrite <- IH. split; [intros; split; [lia|exact Hnot]|intros [? _]; lia].
Qed.

Lemma filter_at_most_one {A K} (f : A -> K) (p : A -> bool) (v : K) (l : list A) :
  (forall x, p x = true <-> f x = v) ->
  List.NoDup (map f l) ->
  (length (List.filter p l) <= 1)%nat.
Proof.
  intros Hp. induction l as [|a l IH]; cbn [map List.filter]; intros Hnd; [cbn; lia|].
  apply List.NoDup_cons_iff in Hnd as [Hnot Hnd].
  destruct (p a) eqn:Ha; [|now apply IH].
  rewrite (filter_none p l); [cbn; lia|].
  intros b Hb. apply not_true_is_false. intros Hpb. apply Hnot.
  apply Hp in Ha, Hpb. rewrite Ha, <- Hpb. now apply in_map.
Qed.

Lemma NoDup_map_In_eq {A K} (f : A -> K) (l : list A) (a b : A) :
  List.NoDup (map f l) -> In a l -> In b l -> f a = f b -> a = b.
Proof.
  induction l as [|c l IH]; cbn; intros Hnd Ha Hb Hf; [destruct Ha|].
  apply List.NoDup_cons_iff in Hnd as [Hnot Hnd].
  destruct Ha as [->|Ha], Hb as [->|Hb].
  - reflexivity.
  - exfalso. apply Hnot. rewrite Hf. now apply in_map.
  - exfalso. apply Hnot. rewrite <- Hf. now apply in_map.
  - now apply IH.
Qed.

Lemma groupby_first_no_burst (df : list Tweet) (t : Tweet) :
  List.NoDup (map burst_key df) -> In t (groupby_first df) <-> In t df.
Proof.
  intros Hnd. destruct (groupby_first_groups df) as (_ & Hcover & Hrows & _).
  assert (Hfwd : forall g, In g (groupby_first df) -> In g df).
  { intros g Hg.
    destruct (Hrows g Hg) as (t0 & more & Hfilter & Hkey & Hid & Hname & _).
    pose proof (filter_at_most_one burst_key (same_burst g) (burst_key g) df) as Hone.
    rewrite Hfilter in Hone.
    destruct more as [|m more].
    2:{ cbn [length] in Hone. 
        assert (S (S (length more)) <= 1)%nat; [|lia].
        apply Hone; [|exact Hnd]. intros x. rewrite same_burst_iff.
        split; congruence. }
    assert (Ht0 : In t0 df).
    { assert (Hin : In t0 (List.filter (same_burst g) df)) by (rewrite Hfilter; now left).
      now apply filter_In in Hin. }
    replace g with t0; [exact Ht0|].
    destruct g as [gc gn gi glo gla], t0 as [tc tn ti tlo tla].
    cbn in Hkey, Hid, Hname. injection Hkey as -> -> ->. subst gi.
    f_equal. rewrite Hname. now destruct tn. }
  split; [apply Hfwd|].
  intros Ht. destruct (Hcover t Ht) as (g & Hg & Hkey).
  replace t with g; [exact Hg|].
  apply (NoDup_map_In_eq burst_key df); auto.
Qed.

(** X15: burst removal is idempotent; n_burst_tweets is 0 exactly when no
    two records of the input share (created_at, lon, lat); and on such an
    input the rows that are kept are the rows of the input (only their order
    changes). *)
Theorem groupby_first_idempotent (df : list Tweet) :
  groupby_first (groupby_first df) = groupby_first df /\
  (burst_count df = 0 <-> List.NoDup (map burst_key df)) /\
  (List.NoDup (map burst_key df) ->
   forall t, In t (groupby_first df) <-> In t df).
Proof.
  split; [apply groupby_first_of_sorted, groupby_first_sorted|]. split.
  - rewrite <- groupby_first_full_length. unfold burst_count. lia.
  - intros Hnd t. now apply groupby_first_no_burst.
Qed.

Lemma groupby_first_idempotent_witness :
  In tweet_mon (groupby_first [tweet_tue; tweet_mon]) <-> 
  In tweet_mon [tweet_tue; tweet_mon].
Proof.
  refine (proj2 (proj2 (groupby_first_idempotent [tweet_tue; tweet_mon])) _ tweet_mon).
  cbn. repeat constructor; cbn; intuition discriminate.
Defined.

(** ** More on the home selector *)

Lemma filter_permutation {A} (f : A -> bool) (l l' : list A) :
  Permutation l l' -> Permutation (List.filter f l) (List.filter f l').
Proof.
  induction 1 as [|x l l' _ IH|x y l|l l' l'' _ IH1 _ IH2]; cbn.
  - constructor.
  - destruct (f x); [now constructor|exact IH].
  - destruct (f x), (f y); auto using perm_swap, Permutation_refl.
  - etransitivity; eassumption.
Qed.

Lemma filter_map_length {A B} (f : A -> B) (p : B -> bool) (l : list A) :
  length (List.filter p (map f l)) = length (List.filter (fun a => p (f a)) l).
Proof.
  induction l as [|a l IH]; cbn; [reflexivity|].
  destruct (p (f a)); cbn; now rewrite IH.
Qed.

Section SelectorOrder.

Context {V : Type} `{PyOrdLaws V}.

Lemma py_min_permutation (items items' : list V) :
  Permutation items items' -> py_min items = py_min items'.
Proof.
  intros Hperm. destruct items as [|x rest].
  { apply Permutation_nil in Hperm. now subst. }
  destruct (py_min_spec (x :: rest)) as (m & Hm & Hin & Hleast); [discriminate|].
  destruct (py_min_spec items') as (m' & Hm' & Hin' & Hleast').
  { intros ->. apply Permutation_sym, Permutation_nil in Hperm. discriminate. }
  rewrite Hm, Hm'. f_equal.
  assert (H1 : py_ltb m' m = false).
  { apply Hleast. eapply Permutation_in; [apply Permutation_sym, Hperm|exact Hin']. }
  assert (H2 : py_ltb m m' = false).
  { apply Hleast'. eapply Permutation_in; [exact Hperm|exact Hin]. }
  destruct (py_ltb_total m m') as [Hlt|[Heq|Hlt]]; congruence.
Qed.

Lemma unique_cluster_id_min_permutation (column : ClusterAggregate -> V)
    (aggs aggs' : list ClusterAggregate) :
  Permutation aggs aggs' ->
  unique_cluster_id aggs column py_min = unique_cluster_id aggs' column py_min.
Proof.
  intros Hperm. unfold unique_cluster_id.
  rewrite (py_min_permutation (map column aggs) (map column aggs'))
    by now apply Permutation_map.
  destruct (py_min (map column aggs')) as [value|e]; [|reflexivity].
  cbn [mbind result_bind]. unfold value_counts_loc.
  rewrite !filter_map_length.
  pose proof (filter_permutation (fun a => py_eqb (column a) value) _ _ Hperm)
    as Hfilter.
  rewrite (Permutation_length Hfilter).
  destruct (_ =? 0); [reflexivity|]. cbn [mbind result_bind].
  destruct (Z.eqb_spec (Z.of_nat (length (List.filter
              (fun a => py_eqb (column a) value) aggs'))) 1) as [Hone|_];
    [|reflexivity].
  destruct (List.filter _ aggs') as [|a' [|b' more']] eqn:Hf'; cbn in Hone; try lia.
  apply Permutation_sym, Permutation_length_1_inv in Hfilter.
  now rewrite Hfilter.
Qed.

End SelectorOrder.

Lemma unique_cluster_id_max_permutation {V} `{PyOrdLaws V}
    (column : ClusterAggregate -> V) (aggs aggs' : list ClusterAggregate) :
  Permutation aggs aggs' ->
  unique_cluster_id aggs column py_max = unique_cluster_id aggs' column py_max.
Proof.
  exact (@unique_cluster_id_min_permutation V (PyOrd_flip _) (PyOrdLaws_flip _ _)
           column aggs aggs').
Qed.

(** X16: the home selector looks at the table as a set of rows.  On an
    empty table it raises ValueError ([max] of an empty column); a table
    with a single row has that row as home, by the first rule; and
    the decision does not depend on the order of the rows. *)
Theorem determine_home_cluster_rows (aggs aggs' : list ClusterAggregate)
    (a : ClusterAggregate) :
  determine_home_cluster [] = Raise ValueError /\
  determine_home_cluster [a] = Ok (Some (cluster_id a), Some "only one max cluster") /\
  (Permutation aggs aggs' ->
   determine_home_cluster aggs = determine_home_cluster aggs').
Proof.
  split; [reflexivity|]. split.
  - unfold determine_home_cluster, HOME_RULES. cbn [determine_home_cluster_from
      rule_ord rule_column rule_measure rule_reason rule_type].
    unfold unique_cluster_id. cbn [map py_max fold_left mbind result_bind].
    unfold value_counts_loc. cbn [List.filter py_eqb PyOrd_Z].
    rewrite Z.eqb_refl. reflexivity.
  - intros Hperm. unfold determine_home_cluster, HOME_RULES.
    cbn [determine_home_cluster_from rule_ord rule_column rule_measure rule_reason
         rule_type].
    rewrite (unique_cluster_id_max_permutation count aggs aggs' Hperm).
    rewrite (unique_cluster_id_min_permutation max_dist_from_centroid aggs aggs' Hperm).
    rewrite (unique_cluster_id_max_permutation time_range aggs aggs' Hperm).
    reflexivity.
Qed.

Lemma determine_home_cluster_rows_witness :
  determine_home_cluster [cluster_wide; cluster_tight]
  = determine_home_cluster [cluster_tight; cluster_wide].
Proof.
  refine (proj2 (proj2 (determine_home_cluster_rows
                          [cluster_wide; cluster_tight]
                          [cluster_tight; cluster_wide] cluster_wide)) _).
  apply perm_swap.
Defined.

(** ** More on the home-period filter *)

Lemma weekday_range (d : datetime) : 0 <= weekday d <= 6.
Proof. unfold weekday. pose proof (Z.mod_pos_bound (toordinal d + 6) 7). lia. Qed.

(** X17: the two subsets of the home period amount to one filter: a row is
    kept exactly when the weekday of its localized datetime is 0 to 3
    (Monday to Thursday) and its hour is 9 or more; the rows kept stay in
    the order of the frame, nothing is added, and filtering twice changes
    nothing. *)
Theorem home_period_filter (df : list LocalizedTweet) :
  home_period df
  = List.filter (fun r => (weekday (dt r) <=? 3) && (9 <=? hour (dt r))) df /\
  (forall r, In r (home_period df) <->
             In r df /\ 0 <= weekday (dt r) <= 3 /\ 9 <= hour (dt r)) /\
  sublist (home_period df) df /\
  home_period (home_period df) = home_period df.
Proof.
  split; [|split; [|split]].
  - unfold home_period. induction df as [|r df IH]; cbn [List.filter]; [reflexivity|].
    destruct (weekday (dt r) <=? 3); cbn [List.filter andb]; [|exact IH].
    destruct (9 <=? hour (dt r)); now rewrite IH.
  - intros r. rewrite home_period_In. pose proof (weekday_range (dt r)).
    intuition lia.
  - unfold home_period.
    assert (Hsub : forall (f : LocalizedTweet -> bool) l, sublist (List.filter f l) l).
    { intros f l. induction l as [|x l IH]; cbn; [constructor|].
      destruct (f x); now constructor. }
    etransitivity; apply Hsub.
  - apply home_period_idempotent.
Qed.

(** ** The measures of measures.py *)

Lemma unique_values_from_spec {A} `{EqDecision A} (values seen : list A) :
  List.NoDup seen ->
  let u := fold_left (fun seen x => if bool_decide (x ∈ seen) then seen
                                    else (seen ++ [x])%list) values seen in
  List.NoDup u /\ forall x, In x u <-> In x seen \/ In x values.
Proof.
  revert seen. induction values as [|y values IH]; intros seen Hnd.
  - cbn. split; [exact Hnd|]. tauto.
  - cbn [fold_left]. destruct (bool_decide (y ∈ seen)) eqn:Hy.
    + apply bool_decide_eq_true, list_elem_of_In in Hy.
      destruct (IH seen Hnd) as [Hu Hin]. split; [exact Hu|].
      intros x. rewrite Hin. cbn. split; [tauto|]. intros [Hx|[<-|Hx]]; tauto.
    + apply bool_decide_eq_false in Hy. rewrite list_elem_of_In in Hy.
      destruct (IH (seen ++ [y])%list) as [Hu Hin].
      { apply NoDup_snoc. now split. }
      split; [exact Hu|]. intros x. rewrite Hin, in_app_iff. cbn. tauto.
Qed.

Lemma unique_values_spec {A} `{EqDecision A} (values : list A) :
  List.NoDup (unique_values values) /\
  forall x, In x (unique_values values) <-> In x values.
Proof.
  destruct (unique_values_from_spec values [] (List.NoDup_nil _)) as [Hu Hin].
  split; [exact Hu|]. intros x. rewrite (Hin x). cbn. tauto.
Qed.

Lemma unique_values_length {A} `{EqDecision A} (values : list A) :
  (length (unique_values values) <= length values)%nat /\
  (values <> [] -> 1 <= length (unique_values values))%nat.
Proof.
  destruct (unique_values_spec values) as [Hnd Hin]. split.
  - apply NoDup_incl_length; [exact Hnd|]. intros x. apply Hin.
  - intros Hne. destruct values as [|v values]; [congruence|].
    assert (Hv : In v (unique_values (v :: values))) by (apply Hin; now left).
    destruct (unique_values (v :: values)); [destruct Hv|cbn; lia].
Qed.

Lemma split_on_nonempty (sep : Ascii.ascii) (s : string) : split_on sep s <> [].
Proof.
  destruct s as [|c s]; simpl; [discriminate|].
  destruct (Ascii.eqb c sep); [discriminate|].
  destruct (split_on sep s); discriminate.
Qed.

Lemma split_on_word (sep : Ascii.ascii) (w rest : string) :
  split_on sep w = [w] ->
  split_on sep (w ++ String sep rest) = w :: split_on sep rest.
Proof.
  induction w as [|c w IH]; simpl.
  - intros _. now rewrite Ascii.eqb_refl.
  - destruct (Ascii.eqb c sep); [discriminate|].
    destruct (split_on sep w) as [|piece pieces] eqn:Hw.
    + now apply split_on_nonempty in Hw.
    + intros [= -> ->]. now rewrite IH.
Qed.

Lemma str_le_total (a b : string) : str_le a b = false -> str_le b a = true.
Proof.
  unfold str_le. rewrite (cmp_antisym _ GoodCmp_string b a).
  destruct (String_as_OT.cmp b a); cbn; congruence.
Qed.

Lemma str_le_refl (a : string) : str_le a a = true.
Proof.
  unfold str_le. now rewrite (proj2 (cmp_eq _ GoodCmp_string a a) eq_refl).
Qed.

Lemma str_le_trans (a b c : string) :
  str_le a b = true -> str_le b c = true -> str_le a c = true.
Proof.
  unfold str_le. intros Hab Hbc.
  destruct (String_as_OT.cmp a b) eqn:Ha; [| |discriminate].
  - apply (cmp_eq _ GoodCmp_string) in Ha. now subst.
  - destruct (String_as_OT.cmp b c) eqn:Hb; [| |discriminate].
    + apply (cmp_eq _ GoodCmp_string) in Hb. subst. now rewrite Ha.
    + now rewrite (cmp_trans _ GoodCmp_string _ _ _ Ha Hb).
Qed.

Lemma insert_sorted_head (s : string) (l : list string) :
  (forall m, head l = Some m -> forall x, In x l -> str_le m x = true) ->
  exists m,
    head (insert_sorted s l) = Some m /\ (m = s \/ In m l) /\
    forall x, x = s \/ In x l -> str_le m x = true.
Proof.
  destruct l as [|y l]; cbn [insert_sorted head]; intros Hmin.
  - exists s. split; [reflexivity|]. split; [now left|].
    intros x [->|[]]. apply str_le_refl.
  - specialize (Hmin y eq_refl). destruct (str_le s y) eqn:Hsy; cbn [head].
    + exists s. split; [reflexivity|]. split; [now left|].
      intros x [->|Hx]; [apply str_le_refl|].
      eapply str_le_trans; [exact Hsy|now apply Hmin].
    + exists y. split; [reflexivity|]. split; [right; now left|].
      intros x [->|Hx]; [now apply str_le_total|now apply Hmin].
Qed.

Lemma insert_sorted_In (s x : string) (l : list string) :
  In x (insert_sorted s l) <-> x = s \/ In x l.
Proof.
  induction l as [|y l IH]; cbn.
  - intuition.
  - destruct (str_le s y); cbn; [intuition|]. rewrite IH. intuition.
Qed.

Lemma sorted_In (x : string) (l : list string) :
  In x (fold_right insert_sorted [] l) <-> In x l.
Proof.
  induction l as [|s l IH]; cbn [fold_right]; [tauto|].
  rewrite insert_sorted_In, IH. cbn. intuition.
Qed.

Lemma sorted_head_min (l : list string) :
  match head (fold_right insert_sorted [] l) with
  | Some m => In m l /\ forall x, In x l -> str_le m x = true
  | None => l = []
  end.
Proof.
  induction l as [|s l IH]; [reflexivity|]. cbn [fold_right].
  destruct (insert_sorted_head s (fold_right insert_sorted [] l))
    as (m & -> & Hm & Hmin).
  - intros m Hm x Hx. rewrite Hm in IH. destruct IH as [_ Hmin].
    apply Hmin, sorted_In, Hx.
  - split.
    + destruct Hm as [->|Hm]; [now left|right; now apply sorted_In].
    + intros x [<-|Hx]; apply Hmin; [now left|right; now apply sorted_In].
Qed.

Lemma occurrences_names (df : list Tweet) (n : string) :
  occurrences (omap (fun v : option string => v) (map user_name df)) n
  = name_count df n.
Proof.
  unfold occurrences, name_count.
  induction df as [|t df IH]; [reflexivity|]. cbn [map List.filter].
  change (omap (fun v : option string => v) (user_name t :: map user_name df))
    with (match user_name t with
          | Some y => y :: omap (fun v : option string => v) (map user_name df)
          | None => omap (fun v : option string => v) (map user_name df)
          end).
  destruct (user_name t) as [y|]; cbn [List.filter].
  - destruct (String.eqb_spec n y) as [->|Hne].
    + rewrite bool_decide_eq_true_2 by reflexivity. cbn [length]. now rewrite IH.
    + rewrite bool_decide_eq_false_2 by congruence. exact IH.
  - rewrite bool_decide_eq_false_2 by discriminate. exact IH.
Qed.

Lemma occurrences_In (values : list string) (v : string) :
  (1 <= occurrences values v)%nat <-> In v values.
Proof.
  unfold occurrences. induction values as [|x values IH]; cbn; [lia|].
  destruct (String.eqb_spec v x) as [->|Hne]; cbn [length].
  - split; [now left|lia].
  - rewrite IH. intuition congruence.
Qed.

Lemma fold_right_max_spec (l : list nat) :
  (forall x, In x l -> (x <= fold_right Nat.max 0 l)%nat) /\
  (l <> [] -> In (fold_right Nat.max 0%nat l) l).
Proof.
  induction l as [|y l [IHle IHin]]; cbn [fold_right].
  - split; [intros x []|congruence].
  - split.
    + intros x [<-|Hx]; [lia|]. specialize (IHle x Hx). lia.
    + intros _. destruct l as [|z l]; [left; cbn; lia|].
      destruct (Nat.max_spec y (fold_right Nat.max 0%nat (z :: l))) as [[_ ->]|[_ ->]].
      * right. apply IHin. discriminate.
      * now left.
Qed.

(** X18: most_frequent_name never raises.  It returns None exactly when no
    tweet of the frame has a user name; otherwise it returns a name that
    occurs in the frame, that no other name outnumbers, and that comes
    first in the order of strings among the names just as frequent. *)
Theorem most_frequent_name_spec (tweets_df : list Tweet) (trace : list event) :
  exists v,
    measure_call measures.most_frequent_name tweets_df trace
    = (trace, Ok (MScalar v)) /\
    match v with
    | PNone => forall t, In t tweets_df -> user_name t = None
    | PStr n =>
        (1 <= name_count tweets_df n)%nat /\
        forall m, (name_count tweets_df m <= name_count tweets_df n)%nat /\
                  (name_count tweets_df m = name_count tweets_df n ->
                   str_le n m = true)
    | _ => False
    end.
Proof.
  eexists. split; [reflexivity|]. unfold series_mode. cbv zeta.
  set (values := omap (fun v : option string => v) (map user_name tweets_df)).
  assert (Hocc : forall n, occurrences values n = name_count tweets_df n)
    by (intros n; apply occurrences_names).
  destruct (unique_values_spec values) as [_ Hdistinct].
  destruct (fold_right_max_spec (map (occurrences values) (unique_values values)))
    as [Hle Hattained].
  set (top := fold_right Nat.max 0%nat
                         (map (occurrences values) (unique_values values))) in *.
  pose proof (sorted_head_min
                (List.filter (fun v => Nat.eqb (occurrences values v) top)
                             (unique_values values))) as Hhead.
  destruct (head (fold_right insert_sorted [] _)) as [n|]; cbn [opt_pyval].
  - destruct Hhead as [Hn Hmin]. apply filter_In in Hn as [Hn Htop].
    apply Nat.eqb_eq in Htop. apply Hdistinct in Hn.
    rewrite <- !Hocc. split; [now apply occurrences_In|].
    intros m. rewrite <- !Hocc.
    destruct (Nat.eq_dec (occurrences values m) 0%nat) as [Hzero|Hpos].
    + split; [lia|]. intros Heq.
      assert (1 <= occurrences values n)%nat by now apply occurrences_In. lia.
    + assert (Hm : In m (unique_values values)).
      { apply Hdistinct, occurrences_In. lia. }
      assert (Hmle : (occurrences values m <= top)%nat).
      { apply Hle. now apply in_map. }
      split; [lia|]. intros Heq. apply Hmin, filter_In. split; [exact Hm|].
      apply Nat.eqb_eq. lia.
  - intros t Ht. destruct (user_name t) as [n|] eqn:Hname; [exfalso|reflexivity].
    assert (Hn : In n (unique_values values)).
    { apply Hdistinct. unfold values. apply list_elem_of_In, list_elem_of_omap.
      exists (Some n). split; [|reflexivity].
      apply list_elem_of_In, in_map_iff. now exists t. }
    assert (Hne : map (occurrences values) (unique_values values) <> []).
    { destruct (unique_values values); [destruct Hn|discriminate]. }
    specialize (Hattained Hne). apply in_map_iff in Hattained as (v & Hv & Hvin).
    assert (Hin : In v (List.filter (fun v => Nat.eqb (occurrences values v) top)
                                    (unique_values values))).
    { apply filter_In. split; [exact Hvin|]. now apply Nat.eqb_eq. }
    rewrite Hhead in Hin. destruct Hin.
Qed.

(** X19: unique_days never raises and counts the distinct values of the
    first three space-separated words of created_at: the count is at most
    the number of tweets and at least 1 on a non-empty frame, and two
    timestamps that begin with the same three words count as one day
    whatever follows the third word, the year included. *)
Theorem unique_days_counts (tweets_df : list Tweet) (trace : list event)
    (w1 w2 w3 rest : string) :
  (exists n,
     measure_call measures.unique_days tweets_df trace
     = (trace, Ok (MScalar (PInt n))) /\
     n <= Z.of_nat (length tweets_df) /\
     (tweets_df <> [] -> 1 <= n) /\
     n = Z.of_nat (length (unique_values
                             (map (fun t => measures.day_key (created_at t))
                                  tweets_df)))) /\
  (split_on Ascii.Space w1 = [w1] -> split_on Ascii.Space w2 = [w2] ->
   split_on Ascii.Space w3 = [w3] ->
   measures.day_key (w1 ++ " " ++ w2 ++ " " ++ w3 ++ " " ++ rest)%string
   = [w1; w2; w3]).
Proof.
  split.
  - eexists. split; [reflexivity|].
    destruct (unique_values_length
                (map (fun t => measures.day_key (created_at t)) tweets_df))
      as [Hle Hpos].
    rewrite length_map in Hle. split; [lia|]. split; [|reflexivity].
    intros Hne. assert (1 <= length (unique_values
                     (map (fun t => measures.day_key (created_at t)) tweets_df)))%nat;
      [|lia].
    apply Hpos. destruct tweets_df; [congruence|discriminate].
  - intros H1 H2 H3. unfold measures.day_key.
    change (" " ++ w2 ++ " " ++ w3 ++ " " ++ rest)%string
      with (String Ascii.Space (w2 ++ " " ++ w3 ++ " " ++ rest)%string).
    rewrite (split_on_word _ _ _ H1).
    change (" " ++ w3 ++ " " ++ rest)%string
      with (String Ascii.Space (w3 ++ " " ++ rest)%string).
    rewrite (split_on_word _ _ _ H2).
    change (" " ++ rest)%string with (String Ascii.Space rest).
    rewrite (split_on_word _ _ _ H3). reflexivity.
Qed.

Lemma unique_days_counts_witness :
  measures.day_key "Mon Jan 01 10:00:00 +0000 2018" = ["Mon"; "Jan"; "01"] /\
  measures.day_key "Mon Jan 01 23:59:59 +0000 2024" = ["Mon"; "Jan"; "01"].
Proof.
  split.
  - exact (proj2 (unique_days_counts [] [] "Mon" "Jan" "01" "10:00:00 +0000 2018")
                 eq_refl eq_refl eq_refl).
  - exact (proj2 (unique_days_counts [] [] "Mon" "Jan" "01" "23:59:59 +0000 2024")
                 eq_refl eq_refl eq_refl).
Defined.

(** ** The measures together *)

Lemma output_headers_split (k : string) :
  In k OUTPUT_HEADERS <-> In k dbscan_keys \/ In k scalar_keys.
Proof.
  unfold OUTPUT_HEADERS, dbscan_keys, scalar_keys, counter_keys, decision_keys,
    DBSCAN_CLUSTER_TYPES.
  cbn [map app In].
  change (counter_key "core") with "n_dbscan_core_tweets".
  change (counter_key "boundary") with "n_dbscan_boundary_tweets".
  change (counter_key "noise") with "n_dbscan_noise_tweets".
  tauto.
Qed.

Lemma scalar_over (name : string) (v : pyval) (results : pydict) (k : string) :
  ({[ name := v ]} ∪ results) !! k
  = if decide (name = k) then Some v else results !! k.
Proof.
  destruct (decide (name = k)) as [->|Hne].
  - apply lookup_union_Some_l, lookup_singleton_eq.
  - apply lookup_union_r, lookup_singleton_ne, Hne.
Qed.

(** The run of the measures of measures.py, executed. *)
Lemma run_all_measures_eq (ext : Externals) (within_ma : Qc -> Qc -> bool)
    (df : list Tweet) (trace : list event) :
  run_all_measures df (measures.ALL_MEASURES ext within_ma) trace
  = match dbscan ext df trace with
    | (trace', Raise e) => (trace', Raise e)
    | (trace', Ok d0) => (trace', Ok (all_measures_dict within_ma df d0))
    end.
Proof.
  destruct df as [|t rest]; [reflexivity|].
  unfold run_all_measures, measures.ALL_MEASURES.
  cbn [run_measures_from measure_call dbscan_results measures.most_frequent_name
       measures.most_recent_name n_tweets measures.n_tweets_in_ma
       measures.unique_days measures.user_id measure_name].
  st_unfold.
  destruct (dbscan ext (t :: rest) trace) as [trace' [d0|e]]; [|reflexivity].
  unfold all_measures_dict.
  destruct (last (t :: rest)) as [tl|] eqn:Hlast; [reflexivity|].
  apply last_None in Hlast. discriminate.
Qed.

Lemma all_measures_dict_keys (within_ma : Qc -> Qc -> bool) (df : list Tweet)
    (d0 : pydict) :
  (forall k, is_Some (d0 !! k) <-> In k dbscan_keys) ->
  forall k, is_Some (all_measures_dict within_ma df d0 !! k) <-> In k OUTPUT_HEADERS.
Proof.
  intros Hkeys k. unfold all_measures_dict.
  rewrite output_headers_split, <- Hkeys.
  rewrite !lookup_union_is_Some, !is_Some_singleton, lookup_empty.
  unfold scalar_keys. cbn [In]. pose proof (@is_Some_None pyval). tauto.
Qed.

Lemma all_measures_dict_dbscan (within_ma : Qc -> Qc -> bool) (df : list Tweet)
    (d0 : pydict) (k : string) :
  In k dbscan_keys -> all_measures_dict within_ma df d0 !! k = d0 !! k.
Proof.
  intros Hk. unfold all_measures_dict. rewrite !scalar_over.
  assert (Hnot : ~ In k scalar_keys).
  { intros Hs. vm_compute in Hk, Hs.
    repeat (destruct Hs as [<-|Hs];
            [repeat (destruct Hk as [Hk|Hk]; [discriminate Hk|]); exact Hk|]).
    exact Hs. }
  cbn in Hnot.
  repeat (destruct (decide _) as [<-|_]; [exfalso; tauto|]).
  apply lookup_union_l, lookup_empty.
Qed.

(** X20: the measures of measures.py, run in the order of ALL_MEASURES on
    the frame of a user.  The run fails exactly when [dbscan] fails, with
    its exception, before any other measure is called.  Otherwise the dict
    returned has exactly the keys of OUTPUT_HEADERS, so no column of the
    output file is left empty and none is unknown to the writer; no measure
    overwrites an entry of another: the entries of [dbscan] are kept,
    n_tweets is the number of rows, user_id the id of the first row,
    most_recent_name the name of the last row, and n_tweets_in_ma and
    unique_days lie between 0, respectively 1, and the number of rows. *)
Theorem run_all_measures_output (ext : Externals) (within_ma : Qc -> Qc -> bool)
    (user_tweets_df : list Tweet) (trace : list event) :
  match dbscan ext user_tweets_df trace with
  | (trace', Raise e) =>
      run_all_measures user_tweets_df (measures.ALL_MEASURES ext within_ma) trace
      = (trace', Raise e)
  | (trace', Ok d0) =>
      exists d,
        run_all_measures user_tweets_df (measures.ALL_MEASURES ext within_ma) trace
        = (trace', Ok d) /\
        (forall k, is_Some (d !! k) <-> In k OUTPUT_HEADERS) /\
        (forall k, In k dbscan_keys -> d !! k = d0 !! k) /\
        d !! "n_tweets" = Some (PInt (Z.of_nat (length user_tweets_df))) /\
        d !! "user_id" = (fun t => PInt (user_id t)) <$> head user_tweets_df /\
        d !! "most_recent_name"
        = (fun t => opt_pyval PStr (user_name t)) <$> last user_tweets_df /\
        (exists n, d !! "n_tweets_in_ma" = Some (PInt n) /\
                   0 <= n <= Z.of_nat (length user_tweets_df)) /\
        (exists n, d !! "unique_days" = Some (PInt n) /\
                   1 <= n <= Z.of_nat (length user_tweets_df))
  end.
Proof.
  rewrite run_all_measures_eq.
  destruct (dbscan ext user_tweets_df trace) as [trace' [d0|e]] eqn:Hrun;
    [|reflexivity].
  destruct user_tweets_df as [|t rest]; [discriminate|].
  destruct (last (t :: rest)) as [tl|] eqn:Hlast.
  2:{ apply last_None in Hlast. discriminate. }
  eexists. split; [reflexivity|].
  split; [|split; [|split; [|split; [|split; [|split]]]]].
  - apply all_measures_dict_keys.
    exact (dbscan_result_keys ext (t :: rest) trace trace' d0 Hrun).
  - intros k Hk. now apply all_measures_dict_dbscan.
  - unfold all_measures_dict. rewrite !scalar_over. reflexivity.
  - unfold all_measures_dict. rewrite !scalar_over. reflexivity.
  - unfold all_measures_dict. rewrite !scalar_over, Hlast. reflexivity.
  - eexists. unfold all_measures_dict. rewrite !scalar_over. split; [reflexivity|].
    pose proof (filter_length_le (fun t => within_ma (lon t) (lat t)) (t :: rest)).
    lia.
  - eexists. unfold all_measures_dict. rewrite !scalar_over. split; [reflexivity|].
    destruct (unique_values_length
                (map (fun t => measures.day_key (created_at t)) (t :: rest)))
      as [Hle Hpos].
    rewrite length_map in Hle. specialize (Hpos ltac:(discriminate)). lia.
Qed.

(** ** Compressed archives *)

Lemma startswith_firstn (n : nat) (prefix s : list Byte.byte) :
  (length prefix <= n)%nat -> startswith (firstn n s) prefix = startswith s prefix.
Proof.
  revert n s. induction prefix as [|p prefix IH]; intros n s Hlen.
  - now destruct (firstn n s), s.
  - destruct n as [|n]; [cbn in Hlen; lia|].
    destruct s as [|c s]; [reflexivity|]. cbn [firstn startswith].
    rewrite IH by (cbn in Hlen; lia). reflexivity.
Qed.

Lemma startswith_app (prefix rest : list Byte.byte) :
  startswith (prefix ++ rest) prefix = true.
Proof.
  induction prefix as [|p prefix IH]; [reflexivity|]. cbn [app startswith].
  now rewrite (Byte.byte_dec_lb eq_refl), IH.
Qed.

(** X21: detect_compression raises when the file is not there; otherwise
    its answer depends on the first bytes of the file only, and reading
    MAX_SIGNATURE_LENGTH = 7 of them loses nothing: the answer is bz2 when
    the content starts with 42 5a 68, else gzip when it starts with 1f 8b,
    else xz when it starts with the seven bytes of the third key, else
    None. *)
Theorem detect_compression_prefix (files : string -> option (list Byte.byte))
    (file : string) :
  MAX_SIGNATURE_LENGTH = 7%nat /\
  match files file with
  | None => detect_compression files file = Raise (OtherError "FileNotFoundError")
  | Some content =>
      detect_compression files file
      = Ok (if startswith content bz2_magic then Some "bz2"
            else if startswith content gzip_magic then Some "gzip"
            else if startswith content xz_key then Some "xz"
            else None)
  end.
Proof.
  split; [reflexivity|]. unfold detect_compression.
  destruct (files file) as [content|]; [|reflexivity].
  cbv zeta. unfold COMPRESSED_ARCHIVE_SIGNATURES. cbn [List.find fst snd].
  change MAX_SIGNATURE_LENGTH with 7%nat.
  rewrite !startswith_firstn by (cbn; lia).
  fold bz2_magic gzip_magic xz_key.
  destruct (startswith content bz2_magic); [reflexivity|].
  destruct (startswith content gzip_magic); [reflexivity|].
  destruct (startswith content xz_key); reflexivity.
Qed.

(** X22: a file that begins with the magic number of bzip2 or of gzip is
    recognised whatever follows; a file that begins with the magic number
    of xz, fd 37 7a 58 5a 00, is reported as not compressed, the key of the
    table having 05 38 where the magic number has 58. *)
Theorem detect_compression_magic (files : string -> option (list Byte.byte))
    (file : string) (rest : list Byte.byte) :
  (files file = Some (bz2_magic ++ rest)%list ->
   detect_compression files file = Ok (Some "bz2")) /\
  (files file = Some (gzip_magic ++ rest)%list ->
   detect_compression files file = Ok (Some "gzip")) /\
  (files file = Some (xz_magic ++ rest)%list ->
   detect_compression files file = Ok None).
Proof.
  unfold detect_compression. split; [|split]; intros ->; cbv zeta;
    unfold COMPRESSED_ARCHIVE_SIGNATURES; cbn [List.find fst snd];
    change MAX_SIGNATURE_LENGTH with 7%nat;
    rewrite !startswith_firstn by (cbn; lia); reflexivity.
Qed.

Lemma detect_compression_magic_witness :
  detect_compression (fun _ => Some xz_magic) "tweets.csv.xz" = Ok None /\
  detect_compression (fun _ => Some gzip_magic) "tweets.csv.gz" = Ok (Some "gzip").
Proof.
  split.
  - refine (proj2 (proj2 (detect_compression_magic
                            (fun _ => Some xz_magic) "tweets.csv.xz" [])) _).
    reflexivity.
  - refine (proj1 (proj2 (detect_compression_magic
                            (fun _ => Some gzip_magic) "tweets.csv.gz" [])) _).
    reflexivity.
Defined.

(** ** The batch of main.py *)

Lemma read_sql_query_user (databases : list (list Tweet))
    (sqlite_select : string -> list Tweet -> result (list Tweet)) (uid : Z)
    (df : list Tweet) (t : Tweet) :
  read_sql_query databases sqlite_select (IntId uid) = Ok df -> In t df ->
  user_id t = uid.
Proof.
  unfold read_sql_query. destruct databases as [|db dbs]; [discriminate|].
  intros [= <-] Hin.
  change (In t (concat (map (List.filter (fun t => user_id t =? uid)) (db :: dbs))))
    in Hin.
  apply in_concat in Hin as (rows & Hrows & Hin).
  apply in_map_iff in Hrows as (table & <- & _).
  apply filter_In in Hin as [_ Hid]. now apply Z.eqb_eq.
Qed.

Lemma writerow_headers (rowdict : pydict) (b : Batch) :
  (forall k, is_Some (rowdict !! k) -> In k OUTPUT_HEADERS) ->
  writerow rowdict b
  = ({| batch_trace := batch_trace b;
        batch_rows := (batch_rows b ++ [rowdict])%list |}, Ok tt).
Proof.
  intros Hkeys. unfold writerow.
  replace (forallb _ (map_to_list rowdict)) with true; [reflexivity|].
  symmetry. apply forallb_forall. intros [k v] Hkv.
  apply bool_decide_eq_true, list_elem_of_In, Hkeys. cbn.
  apply list_elem_of_In, elem_of_map_to_list in Hkv. rewrite Hkv. eauto.
Qed.

(** One turn of the loop, executed. *)
Lemma process_user_eq (ext : Externals) (within_ma : Qc -> Qc -> bool)
    (databases : list (list Tweet))
    (sqlite_select : string -> list Tweet -> result (list Tweet))
    (uid : UserId) (b : Batch) :
  process_user ext within_ma databases sqlite_select uid b =
  match read_sql_query databases sqlite_select uid with
  | Raise e => (b, Raise e)
  | Ok [] => (b, Ok tt)
  | Ok df =>
      match dbscan ext df (batch_trace b) with
      | (trace', Raise e) =>
          ({| batch_trace := trace'; batch_rows := batch_rows b |}, Raise e)
      | (trace', Ok d0) =>
          ({| batch_trace := trace';
              batch_rows := (batch_rows b ++ [all_measures_dict within_ma df d0])%list |},
           Ok tt)
      end
  end.
Proof.
  unfold process_user. st_unfold.
  destruct (read_sql_query databases sqlite_select uid) as [[|t rest]|e];
    [reflexivity| |reflexivity].
  change (0 <? Z.of_nat (length (t :: rest))) with true. cbv iota.
  unfold with_trace. rewrite run_all_measures_eq.
  destruct (dbscan ext (t :: rest) (batch_trace b)) as [trace' [d0|e]] eqn:Hrun;
    [|reflexivity].
  pose proof (all_measures_dict_keys within_ma (t :: rest) d0
                (dbscan_result_keys ext (t :: rest) _ trace' d0 Hrun)) as Hkeys.
  rewrite bool_decide_eq_false_2.
  - rewrite writerow_headers; [reflexivity|]. intros k Hk. now apply Hkeys.
  - intros Hempty.
    assert (Hid : is_Some (all_measures_dict within_ma (t :: rest) d0 !! "user_id")).
    { apply Hkeys. vm_compute. tauto. }
    rewrite Hempty, lookup_empty in Hid. now apply is_Some_None in Hid.
Qed.

Lemma for_each_cons {S A} (body : A -> St S unit) (item : A) (rest : list A) (s : S) :
  for_each body (item :: rest) s =
  match body item s with
  | (s', Ok _) => for_each body rest s'
  | (s', Raise e) => (s', Raise e)
  end.
Proof. reflexivity. Qed.

(** The loop of [main] from any state. *)
Lemma for_each_process_user (ext : Externals) (within_ma : Qc -> Qc -> bool)
    (databases : list (list Tweet))
    (sqlite_select : string -> list Tweet -> result (list Tweet))
    (ids : list UserId) (b : Batch) :
  exists done rows,
    batch_rows (for_each (process_user ext within_ma databases sqlite_select) ids b).1
    = (batch_rows b ++ rows)%list /\
    map (fun row : pydict => row !! "user_id") rows
    = map (answered_id databases sqlite_select)
          (List.filter (has_tweets databases sqlite_select) done) /\
    (forall row k, In row rows -> is_Some (row !! k) <-> In k OUTPUT_HEADERS) /\
    match (for_each (process_user ext within_ma databases sqlite_select) ids b).2 with
    | Ok _ => done = ids
    | Raise e =>
        exists uid rest,
          ids = (done ++ uid :: rest)%list /\
          (read_sql_query databases sqlite_select uid = Raise e \/
           exists df trace,
             read_sql_query databases sqlite_select uid = Ok df /\ df <> [] /\
             (dbscan ext df trace).2 = Raise e)
    end.
Proof.
  revert b. induction ids as [|uid ids IH]; intros b.
  - exists [], []. cbn [for_each fst snd]. st_unfold. cbn [fst snd].
    rewrite app_nil_r.
    split; [reflexivity|]. split; [reflexivity|]. split; [intros ? ? []|reflexivity].
  - rewrite for_each_cons, process_user_eq. unfold has_tweets, answered_id in *.
    destruct (read_sql_query databases sqlite_select uid) as [[|t df]|e] eqn:Hread.
    + destruct (IH b) as (done & rows & Hrows & Hids & Hkeys & Hres).
      exists (uid :: done), rows. split; [exact Hrows|].
      split; [cbn [List.filter]; now rewrite Hread|]. split; [exact Hkeys|].
      destruct (for_each _ ids b).2 as [[]|e]; [now subst|].
      destruct Hres as (u & rest & -> & Hcause). now exists u, rest.
    + destruct (dbscan ext (t :: df) (batch_trace b)) as [trace' [d0|e]] eqn:Hrun.
      * set (b1 := {| batch_trace := trace';
                      batch_rows := (batch_rows b
                                     ++ [all_measures_dict within_ma (t :: df) d0])%list |}).
        destruct (IH b1) as (done & rows & Hrows & Hids & Hkeys & Hres).
        exists (uid :: done), (all_measures_dict within_ma (t :: df) d0 :: rows).
        split; [rewrite Hrows; cbn; now rewrite <- app_assoc|].
        split; [|split].
        -- cbn [List.filter map]. rewrite Hread. cbn [map]. rewrite Hids, Hread.
           f_equal. unfold all_measures_dict. rewrite scalar_over. reflexivity.
        -- intros row k [<-|Hrow]; [|now apply Hkeys].
           apply all_measures_dict_keys.
           exact (dbscan_result_keys ext (t :: df) _ trace' d0 Hrun).
        -- destruct (for_each _ ids b1).2 as [[]|e]; [now subst|].
           destruct Hres as (u & rest & -> & Hcause). now exists u, rest.
      * exists [], []. cbn [fst snd batch_rows]. rewrite app_nil_r.
        split; [reflexivity|]. split; [reflexivity|]. split; [intros ? ? []|].
        exists uid, ids. split; [reflexivity|]. right.
        exists (t :: df), (batch_trace b). split; [exact Hread|].
        split; [discriminate|]. now rewrite Hrun.
    + exists [], []. cbn [fst snd]. rewrite app_nil_r.
      split; [reflexivity|]. split; [reflexivity|]. split; [intros ? ? []|].
      exists uid, ids. split; [reflexivity|]. now left.
Qed.

(** What is left of the ids when the output file is there. *)
Lemma pending_ids_seen (set_iter : gset UserId -> list UserId)
    (user_ids : list UserId) (seen : list Z) (uid : UserId) :
  (forall s, set_iter s ≡ₚ elements s) ->
  In uid (pending_ids set_iter user_ids (Some seen)) <->
  In uid user_ids /\ forall n, uid = IntId n -> ~ In n seen.
Proof.
  intros Hiter. unfold pending_ids.
  rewrite <- list_elem_of_In, (Hiter _), elem_of_elements, elem_of_difference,
    !elem_of_list_to_set, !list_elem_of_In, in_map_iff.
  split; intros [Huser Hnew]; (split; [exact Huser|]).
  - intros n -> Hn. apply Hnew. now exists n.
  - intros (n & <- & Hn). now apply (Hnew n).
Qed.

Lemma pending_ids_str (set_iter : gset UserId -> list UserId) (s : string)
    (seen : list Z) :
  (forall s, set_iter s ≡ₚ elements s) ->
  pending_ids set_iter [StrId s] (Some seen) = [StrId s].
Proof.
  intros Hiter. apply Permutation_singleton_r. unfold pending_ids.
  rewrite (Hiter _).
  assert (Hset : (list_to_set [StrId s] ∖ list_to_set (map IntId seen) : gset UserId)
                 = {[ StrId s ]}).
  { apply set_eq. intros x.
    rewrite elem_of_difference, !elem_of_list_to_set, list_elem_of_In,
      elem_of_singleton, !list_elem_of_In, in_map_iff.
    split.
    - intros [[<-|[]] _]. reflexivity.
    - intros ->. split; [now left|]. intros (n & Hn & _). discriminate. }
  rewrite Hset. now rewrite elements_singleton.
Qed.

(** X23: the loop of [main].  The ids are processed in the order of the
    iteration.  For each id whose query returns a tweet, one row is
    appended to the file, in that order, with a value for each of the
    columns of OUTPUT_HEADERS and, in the column user_id, the user id of
    the first tweet returned, which for an int id is that id; an id whose
    query returns no tweet gets no row.  The loop stops at the first id for
    which the query or [dbscan] raises: that exception ends [main], and the
    rows written before stay.  Without an output file the ids are
    iterated as they are given, a repeated id again; when the file is
    there, the ids iterated are the distinct given ids but the ints found
    in the file: a str id is never left out, and for an id given as a str
    the file makes no difference. *)
Theorem main_batch (ext : Externals) (within_ma : Qc -> Qc -> bool)
    (databases : list (list Tweet))
    (sqlite_select : string -> list Tweet -> result (list Tweet))
    (set_iter : gset UserId -> list UserId)
    (user_ids : list UserId) (seen_ids : option (list Z)) (b : Batch) :
  (exists done rows,
     batch_rows (main ext within_ma databases sqlite_select set_iter
                      user_ids seen_ids b).1
     = (batch_rows b ++ rows)%list /\
     map (fun row : pydict => row !! "user_id") rows
     = map (answered_id databases sqlite_select)
           (List.filter (has_tweets databases sqlite_select) done) /\
     (forall row k, In row rows -> is_Some (row !! k) <-> In k OUTPUT_HEADERS) /\
     match (main ext within_ma databases sqlite_select set_iter
                 user_ids seen_ids b).2 with
     | Ok _ => done = pending_ids set_iter user_ids seen_ids
     | Raise e =>
         exists uid rest,
           pending_ids set_iter user_ids seen_ids = (done ++ uid :: rest)%list /\
           (read_sql_query databases sqlite_select uid = Raise e \/
            exists df trace,
              read_sql_query databases sqlite_select uid = Ok df /\ df <> [] /\
              (dbscan ext df trace).2 = Raise e)
     end) /\
  (forall n, has_tweets databases sqlite_select (IntId n) = true ->
             answered_id databases sqlite_select (IntId n) = Some (PInt n)) /\
  ((forall s, set_iter s ≡ₚ elements s) ->
   (forall seen, NoDup (pending_ids set_iter user_ids (Some seen))) /\
   (forall seen uid,
      In uid (pending_ids set_iter user_ids (Some seen)) <->
      In uid user_ids /\ forall n, uid = IntId n -> ~ In n seen) /\
   (forall s seen,
      main ext within_ma databases sqlite_select set_iter [StrId s] (Some seen) b
      = main ext within_ma databases sqlite_select set_iter [StrId s] None b)).
Proof.
  split; [apply for_each_process_user|]. split.
  - intros n. unfold has_tweets, answered_id.
    destruct (read_sql_query databases sqlite_select (IntId n)) as [[|t df]|e] eqn:Hread;
      try discriminate.
    intros _. now rewrite (read_sql_query_user _ _ _ _ t Hread (or_introl eq_refl)).
  - intros Hiter. split; [|split].
    + intros seen. unfold pending_ids. rewrite (Hiter _). apply NoDup_elements.
    + intros seen uid. now apply pending_ids_seen.
    + intros s seen. unfold main. cbv zeta.
      change (set_iter (list_to_set [StrId s] ∖ list_to_set (map IntId seen)))
        with (pending_ids set_iter [StrId s] (Some seen)).
      now rewrite pending_ids_str.
Qed.

(** An id given on the command line, a str, is iterated although the
    output file holds a row of that user. *)
Lemma main_batch_witness :
  In (StrId "7") (pending_ids elements [StrId "7"; IntId 7; IntId 8] (Some [7]))
  /\ ~ In (IntId 7) (pending_ids elements [StrId "7"; IntId 7; IntId 8] (Some [7])).
Proof.
  destruct (main_batch demo_ext (fun _ _ => true) [[tweet_tue; tweet_mon]]
              no_str_ids elements [StrId "7"; IntId 7; IntId 8] None
              {| batch_trace := []; batch_rows := [] |})
    as (_ & _ & Hset).
  destruct (Hset (fun s => reflexivity (elements s))) as (_ & Hpending & _).
  split.
  - apply Hpending. split; [now left|]. discriminate.
  - intros Hin. apply Hpending in Hin as [_ Hnew].
    apply (Hnew 7 eq_refl). now left.
Defined.

Lemma written_ids_of (rows : list pydict) (ids : list Z) :
  map (fun row : pydict => row !! "user_id") rows
  = map (fun uid => Some (PInt uid)) ids ->
  written_ids rows = ids.
Proof.
  revert ids. induction rows as [|row rows IH]; intros [|uid ids]; cbn [map];
    try discriminate; [reflexivity|].
  intros [= Hrow Hrest]. unfold written_ids.
  change (omap ?f (row :: rows))
    with (match f row with Some y => y :: omap f rows | None => omap f rows end).
  cbv beta. rewrite Hrow. f_equal. now apply IH.
Qed.

Lemma int_ids_In (user_ids : list UserId) (n : Z) :
  In n (int_ids user_ids) <-> In (IntId n) user_ids.
Proof.
  unfold int_ids. rewrite <- !list_elem_of_In, list_elem_of_omap. split.
  - intros ([m|s] & Hin & [= <-]). exact Hin.
  - intros Hin. now exists (IntId n).
Qed.

Lemma int_ids_NoDup (user_ids : list UserId) :
  NoDup user_ids -> NoDup (int_ids user_ids).
Proof.
  induction 1 as [|uid user_ids Hnew _ IH]; [constructor|].
  destruct uid as [n|s]; [|exact IH].
  change (int_ids (IntId n :: user_ids)) with (n :: int_ids user_ids).
  constructor; [|exact IH].
  rewrite list_elem_of_In, int_ids_In, <- list_elem_of_In. exact Hnew.
Qed.

(** The rows written for int ids hold these ids. *)
Lemma answered_int_ids (databases : list (list Tweet))
    (sqlite_select : string -> list Tweet -> result (list Tweet))
    (ids : list UserId) :
  (forall uid, In uid ids -> exists n, uid = IntId n) ->
  map (answered_id databases sqlite_select)
      (List.filter (has_tweets databases sqlite_select) ids)
  = map (fun n => Some (PInt n))
        (int_ids (List.filter (has_tweets databases sqlite_select) ids)).
Proof.
  induction ids as [|uid ids IH]; intros Hint; [reflexivity|].
  cbn [List.filter].
  destruct (has_tweets databases sqlite_select uid) eqn:Hhas.
  - destruct (Hint uid (or_introl eq_refl)) as [n ->].
    change (int_ids (IntId n :: ?l)) with (n :: int_ids l). cbn [map].
    rewrite IH by (intros u Hu; apply Hint; now right). f_equal.
    unfold has_tweets in Hhas. unfold answered_id.
    destruct (read_sql_query databases sqlite_select (IntId n))
      as [[|t df]|e] eqn:Hread; try discriminate.
    now rewrite (read_sql_query_user _ _ _ _ t Hread (or_introl eq_refl)).
  - apply IH. intros u Hu. apply Hint. now right.
Qed.

Lemma for_each_ok_reads (ext : Externals) (within_ma : Qc -> Qc -> bool)
    (databases : list (list Tweet))
    (sqlite_select : string -> list Tweet -> result (list Tweet))
    (ids : list UserId) (b b' : Batch) :
  for_each (process_user ext within_ma databases sqlite_select) ids b = (b', Ok tt) ->
  forall uid, In uid ids ->
    exists df, read_sql_query databases sqlite_select uid = Ok df.
Proof.
  revert b. induction ids as [|u ids IH]; intros b Hrun uid Hin; [destruct Hin|].
  rewrite for_each_cons, process_user_eq in Hrun.
  destruct (read_sql_query databases sqlite_select u) as [df|e] eqn:Hread;
    [|discriminate].
  destruct Hin as [<-|Hin]; [now exists df|].
  destruct df as [|t df]; [now apply (IH b)|].
  destruct (dbscan ext (t :: df) (batch_trace b)) as [trace' [d0|e]];
    [|discriminate].
  now apply (IH _ Hrun).
Qed.

Lemma for_each_no_tweets (ext : Externals) (within_ma : Qc -> Qc -> bool)
    (databases : list (list Tweet))
    (sqlite_select : string -> list Tweet -> result (list Tweet))
    (ids : list UserId) (b : Batch) :
  (forall uid, In uid ids -> read_sql_query databases sqlite_select uid = Ok []) ->
  for_each (process_user ext within_ma databases sqlite_select) ids b = (b, Ok tt).
Proof.
  induction ids as [|u ids IH]; intros Hnone; [reflexivity|].
  rewrite for_each_cons, process_user_eq, (Hnone u (or_introl eq_refl)).
  apply IH. intros uid Hin. apply Hnone. now right.
Qed.

(** X24: resuming a batch of int ids, as a file of ids gives them.  When
    [main] has run to its end, the ids of the rows it wrote are distinct
    (the given ids being distinct when there was no output file), are among
    the given ids and were not in the file before, so that no user has two
    rows; and a second run on the same ids, reading from the output file
    the ids that it holds by then, processes only users without a tweet and
    changes nothing: no row is written and [dbscan] is not run again. *)
Theorem main_resume (ext : Externals) (within_ma : Qc -> Qc -> bool)
    (databases : list (list Tweet))
    (sqlite_select : string -> list Tweet -> result (list Tweet))
    (set_iter : gset UserId -> list UserId)
    (user_ids : list UserId) (seen_ids : option (list Z)) (b b' : Batch) :
  (forall s, set_iter s ≡ₚ elements s) ->
  (forall uid, In uid user_ids -> exists n, uid = IntId n) ->
  (seen_ids = None -> NoDup user_ids) ->
  main ext within_ma databases sqlite_select set_iter user_ids seen_ids b
  = (b', Ok tt) ->
  exists rows,
    batch_rows b' = (batch_rows b ++ rows)%list /\
    NoDup (written_ids rows) /\
    (forall n, In n (written_ids rows) ->
       In (IntId n) user_ids /\ ~ In n (default [] seen_ids)) /\
    main ext within_ma databases sqlite_select set_iter user_ids
         (Some (default [] seen_ids ++ written_ids rows)%list) b'
    = (b', Ok tt).
Proof.
  intros Hiter Hint Hdistinct Hrun.
  set (pending := pending_ids set_iter user_ids seen_ids).
  assert (Hpending : forall uid, In uid pending <->
            In uid user_ids /\ forall n, uid = IntId n -> ~ In n (default [] seen_ids)).
  { intros uid. unfold pending. destruct seen_ids as [seen|].
    - now apply pending_ids_seen.
    - cbn. split; [intros Hin; split; [exact Hin|tauto]|tauto]. }
  assert (Hnodup : NoDup pending).
  { unfold pending, pending_ids. destruct seen_ids as [seen|].
    - rewrite (Hiter _). apply NoDup_elements.
    - now apply Hdistinct. }
  assert (Hints : forall uid, In uid pending -> exists n, uid = IntId n).
  { intros uid Hin. apply Hint. now apply Hpending. }
  destruct (for_each_process_user ext within_ma databases sqlite_select pending b)
    as (done & rows & Hrows & Hids & _ & Hres).
  change (for_each (process_user ext within_ma databases sqlite_select) pending b)
    with (main ext within_ma databases sqlite_select set_iter user_ids seen_ids b)
    in Hrows, Hres.
  rewrite Hrun in Hrows, Hres. cbn [fst snd] in Hrows, Hres. subst done.
  rewrite (answered_int_ids _ _ _ Hints) in Hids.
  apply written_ids_of in Hids.
  exists rows. split; [exact Hrows|]. split; [|split].
  - rewrite Hids. apply int_ids_NoDup, NoDup_ListNoDup, List.NoDup_filter, NoDup_ListNoDup, Hnodup.
  - intros n Hin. rewrite Hids in Hin. apply int_ids_In, filter_In in Hin as [Hin _].
    apply Hpending in Hin as [Huser Hnew]. split; [exact Huser|now apply Hnew].
  - unfold main. cbv zeta. apply for_each_no_tweets. intros uid Hin.
    change (In uid (pending_ids set_iter user_ids
                      (Some (default [] seen_ids ++ written_ids rows)%list))) in Hin.
    apply (proj1 (pending_ids_seen _ _ _ _ Hiter)) in Hin as [Huser Hnew].
    destruct (Hint uid Huser) as [n ->].
    assert (Hpend : In (IntId n) pending).
    { apply Hpending. split; [exact Huser|]. intros m [= <-] Hseen.
      apply (Hnew n eq_refl), in_or_app. now left. }
    destruct (for_each_ok_reads _ _ _ _ _ _ _ Hrun _ Hpend) as [df Hread].
    destruct df as [|t df]; [exact Hread|]. exfalso.
    apply (Hnew n eq_refl), in_or_app. right.
    rewrite Hids. apply int_ids_In, filter_In. split; [exact Hpend|].
    unfold has_tweets. now rewrite Hread.
Qed.

Lemma main_resume_witness :
  exists rows,
    written_ids rows = [7] /\
    main demo_ext (fun _ _ => true) [[tweet_tue; tweet_mon]] no_str_ids elements
         [IntId 7; IntId 8] (Some ([] ++ written_ids rows)%list)
         (main demo_ext (fun _ _ => true) [[tweet_tue; tweet_mon]] no_str_ids
               elements [IntId 7; IntId 8] None
               {| batch_trace := []; batch_rows := [] |}).1
    = ((main demo_ext (fun _ _ => true) [[tweet_tue; tweet_mon]] no_str_ids
             elements [IntId 7; IntId 8] None
             {| batch_trace := []; batch_rows := [] |}).1, Ok tt).
Proof.
  destruct (main_resume demo_ext (fun _ _ => true) [[tweet_tue; tweet_mon]]
              no_str_ids elements [IntId 7; IntId 8] None
              {| batch_trace := []; batch_rows := [] |}
              (main demo_ext (fun _ _ => true) [[tweet_tue; tweet_mon]] no_str_ids
                    elements [IntId 7; IntId 8] None
                    {| batch_trace := []; batch_rows := [] |}).1)
    as (rows & Hrows & _ & _ & Hagain).
  - intros s. reflexivity.
  - intros uid [<-|[<-|[]]]; eauto.
  - intros _. repeat constructor; cbn; intros Hin; inversion Hin as [|? ? ? Hin'];
      inversion Hin'.
  - apply injective_projections; cbn [fst snd]; [reflexivity|].
    vm_compute. reflexivity.
  - exists rows. split; [|exact Hagain].
    cbn [batch_rows app] in Hrows.
    assert (Hw : written_ids (batch_rows
                   (main demo_ext (fun _ _ => true) [[tweet_tue; tweet_mon]]
                         no_str_ids elements [IntId 7; IntId 8] None
                         {| batch_trace := []; batch_rows := [] |}).1) = [7])
      by (vm_compute; reflexivity).
    now rewrite Hrows in Hw.
Defined.

(** ** Several databases at once *)

Lemma opened_cons (h : nat) (path : string) (paths : list string) :
  opened h (path :: paths) = SqlConnect h path :: opened (S h) paths.
Proof.
  unfold opened. rewrite imap_cons. f_equal.
  - f_equal. lia.
  - apply imap_ext. intros i p _. cbn. f_equal. lia.
Qed.


(** The comprehension of [connect_all] when a path cannot be opened: the
    connections made before it stay. *)
Lemma connect_all_fails (can_open : string -> bool)
    (before : list string) (path : string) (rest : list string)
    (w : SqliteWorld) :
  (forall p, In p before -> can_open p = true) ->
  can_open path = false ->
  df_apply (sqlite3_connect can_open) (before ++ path :: rest) w =
  ({| next_handle := next_handle w + length before;
      sqlite_trace := (sqlite_trace w ++ opened (next_handle w) before)%list |},
   Raise (OtherError "sqlite3.OperationalError")).
Proof.
  revert w. induction before as [|p before IH]; intros w Hopen Hpath.
  - destruct w as [h tr]. cbn [app df_apply]. st_unfold.
    unfold sqlite3_connect. rewrite Hpath. cbn.
    rewrite Nat.add_0_r, app_nil_r. reflexivity.
  - cbn [app df_apply]. st_unfold. unfold sqlite3_connect at 1.
    rewrite (Hopen p (or_introl eq_refl)).
    specialize (IH {| next_handle := S (next_handle w);
                      sqlite_trace := (sqlite_trace w
                                       ++ [SqlConnect (next_handle w) p])%list |}
                   (fun q Hq => Hopen q (or_intror Hq)) Hpath).
    st_unfold in IH. rewrite IH. cbn [next_handle sqlite_trace length].
    rewrite opened_cons, <- app_assoc. cbn [app].
    rewrite Nat.add_succ_comm. reflexivity.
Qed.






(** X26. When sqlite3 cannot open one of the paths, [MultiSqlite(paths)]
    raises in [__init__]: the body of the [with] block does not run, and
    the databases before that path stay connected, none of them closed. *)
Theorem with_block_cannot_open {A} (can_open : string -> bool)
    (glob_glob : string -> list string)
    (before : list string) (path : string) (rest : list string)
    (body : MultiSqlite.t -> St SqliteWorld A) (w : SqliteWorld) :
  (forall p, In p before -> can_open p = true) ->
  can_open path = false ->
  MultiSqlite.with_block can_open glob_glob
    (PathList (before ++ path :: rest)) body w =
  ({| next_handle := next_handle w + length before;
      sqlite_trace := (sqlite_trace w ++ opened (next_handle w) before)%list |},
   Raise (OtherError "sqlite3.OperationalError")).
Proof.
  intros Hopen Hpath.
  unfold MultiSqlite.with_block, MultiSqlite.init, MultiSqlite.connect_all.
  cbn [MultiSqlite.db_paths]. st_unfold.
  rewrite (connect_all_fails can_open before path rest w Hopen Hpath).
  reflexivity.
Qed.

Lemma with_block_cannot_open_witness :
  MultiSqlite.with_block (A := unit) (fun path => String.eqb path "a.db")
    (fun _ => []) (PathList (["a.db"] ++ "b.db" :: ["c.db"]))
    (fun db => lift (Ok tt))
    {| next_handle := 0; sqlite_trace := [] |} =
  ({| next_handle := 1; sqlite_trace := [SqlConnect 0 "a.db"] |},
   Raise (OtherError "sqlite3.OperationalError")).
Proof.
  refine (with_block_cannot_open (A := unit) (fun path => String.eqb path "a.db")
            (fun _ => []) ["a.db"] "b.db" ["c.db"] (fun db => lift (Ok tt))
            {| next_handle := 0; sqlite_trace := [] |} _ eq_refl).
  intros p [<-|[]]. reflexivity.
Defined.
